(** * go-rancher-gen: the runner engine (runner.go)

    A shallow embedding of [runner.go]: the poll / version-diff cycle, the
    context builder, change detection and the staged write, and the
    check/notify command orchestrator with label fan-out and per-container
    token substitution.

    Go strings are byte strings and are modelled by [string]; Go maps by
    [gmap]; Go's [error] by [option GoError] ([None] is [nil]).  The
    operating system, the metadata client, the template engine, MD5 and the
    shell are collaborators of the program: they are gathered in the record
    [Sys] and every effect the program has on them is recorded, in order, in
    the [trace] of the [World]. *)

From Stdlib Require Import String Ascii List Bool Arith ZArith Lia.
From stdpp Require Import base option strings pretty gmap list.

Import ListNotations.
Local Open Scope string_scope.
Local Open Scope list_scope.

(** ** The functions of Go's [strings] package that the runner calls *)

Module Strings.

(** [strings.HasPrefix]. *)
Definition HasPrefix (s p : string) : bool := String.prefix p s.

(** [strings.Index]: the position of the first occurrence, [None] for -1. *)
Fixpoint Index (s sub : string) : option nat :=
  if String.prefix sub s then Some 0
  else match s with
       | EmptyString => None
       | String _ s' => S <$> Index s' sub
       end.

(** [strings.Contains]. *)
Definition Contains (s sub : string) : bool :=
  match Index s sub with Some _ => true | None => false end.

(** [strings.Split] for a one-byte separator, which is what every call
    site passes (":", "/" and the newline). The result is never empty. *)
Fixpoint Split (s : string) (sep : ascii) : list string :=
  match s with
  | EmptyString => [EmptyString]
  | String c s' =>
      if Ascii.eqb c sep then EmptyString :: Split s' sep
      else match Split s' sep with
           | x :: r => String c x :: r
           | [] => [String c EmptyString]
           end
  end.

(** [strings.SplitAfterN s sep 2] for a one-byte separator: cut once,
    after the first separator. *)
Fixpoint SplitAfter2 (s : string) (sep : ascii) : list string :=
  match s with
  | EmptyString => [EmptyString]
  | String c s' =>
      if Ascii.eqb c sep then [String c EmptyString; s']
      else match SplitAfter2 s' sep with
           | [x] => [String c x]
           | x :: r => String c x :: r
           | [] => [String c EmptyString]
           end
  end.

Definition in_cutset (cutset : string) (c : ascii) : bool :=
  existsb (Ascii.eqb c) (list_ascii_of_string cutset).

Fixpoint TrimLeft (s cutset : string) : string :=
  match s with
  | EmptyString => EmptyString
  | String c s' => if in_cutset cutset c then TrimLeft s' cutset else s
  end.

(** [TrimRight] keeps a character when it is outside the cut set or when
    something is kept after it. *)
Fixpoint TrimRight (s cutset : string) : string :=
  match s with
  | EmptyString => EmptyString
  | String c s' =>
      match TrimRight s' cutset with
      | EmptyString => if in_cutset cutset c then EmptyString
                       else String c EmptyString
      | r => String c r
      end
  end.

(** [strings.Trim]. *)
Definition Trim (s cutset : string) : string :=
  TrimRight (TrimLeft s cutset) cutset.

(** [strings.Replace s old new n] for a non-empty [old]: the leftmost
    non-overlapping occurrences are replaced, at most [n] of them when
    [n] is [Some _], all of them when it is [None] (Go's [-1]).
    [skip] counts the bytes of a replaced occurrence still to be passed
    over.  For an empty [old] Go inserts [new] around every rune; no call
    site passes one and the model returns [s]. *)
Fixpoint replace_go (old new : string) (n : option nat) (skip : nat)
    (s : string) : string :=
  match s with
  | EmptyString => EmptyString
  | String c s' =>
      match skip with
      | S k => replace_go old new n k s'
      | O =>
          match n with
          | Some O => s
          | _ =>
              if String.prefix old s
              then new +:+ replace_go old new (pred <$> n)
                                     (String.length old - 1) s'
              else String c (replace_go old new n 0 s')
          end
      end
  end.

Definition Replace (s old new : string) (n : option nat) : string :=
  match old with
  | EmptyString => s
  | _ => replace_go old new n 0 s
  end.

Definition ReplaceAll (s old new : string) : string := Replace s old new None.

End Strings.

(** ** The one regular expression of the runner: [{{[\w\.]*}}] *)

Module Regexp.

Definition is_digit (c : ascii) : bool :=
  let n := nat_of_ascii c in (48 <=? n)%nat && (n <=? 57)%nat.
Definition is_upper (c : ascii) : bool :=
  let n := nat_of_ascii c in (65 <=? n)%nat && (n <=? 90)%nat.
Definition is_lower (c : ascii) : bool :=
  let n := nat_of_ascii c in (97 <=? n)%nat && (n <=? 122)%nat.

(** The class [[\w\.]]: ASCII letters, digits, underscore, and the dot. *)
Definition word_or_dot (c : ascii) : bool :=
  is_digit c || is_upper c || is_lower c
  || Ascii.eqb c "_"%char || Ascii.eqb c "."%char.

(** The longest run of class characters at the head of [s], and the rest. *)
Fixpoint span_class (s : string) : string * string :=
  match s with
  | EmptyString => (EmptyString, EmptyString)
  | String c s' =>
      if word_or_dot c
      then let '(w, r) := span_class s' in (String c w, r)
      else (EmptyString, s)
  end.

(** A match anchored at the head of [s]: "{{", the run, "}}".  A closing
    brace is outside the class, so the greedy run is the only candidate. *)
Definition open_brace : ascii := "{"%char.
Definition close_brace : ascii := "}"%char.

(** [s] without its first two bytes when these are both [c]. *)
Definition strip2 (c : ascii) (s : string) : option string :=
  match s with
  | String a (String b r) =>
      if Ascii.eqb a c && Ascii.eqb b c then Some r else None
  | _ => None
  end.

Definition match_here (s : string) : option string :=
  match strip2 open_brace s with
  | Some s1 =>
      let '(w, r) := span_class s1 in
      match strip2 close_brace r with
      | Some _ => Some ("{{" +:+ w +:+ "}}")
      | None => None
      end
  | None => None
  end.

(** [reg.FindAll(s, -1)]: successive leftmost matches, not overlapping. *)
Fixpoint find_go (skip : nat) (s : string) : list string :=
  match s with
  | EmptyString => []
  | String _ s' =>
      match skip with
      | S k => find_go k s'
      | O =>
          match match_here s with
          | Some m => m :: find_go (String.length m - 1) s'
          | None => find_go 0 s'
          end
      end
  end.

Definition FindAll (s : string) : list string := find_go 0 s.

End Regexp.

(** ** Data model *)

(** The types of the metadata client library, with the fields the runner
    reads. *)
Module metadata.

Module Host.
Record t := mk
  { UUID : string; Name : string; AgentIP : string; Hostname : string;
    Labels : gmap string string }.
End Host.

Module Container.
Record t := mk
  { Name : string; PrimaryIp : string; StackName : string;
    ServiceName : string; HealthState : string; State : string;
    Labels : gmap string string; HostUUID : string }.
End Container.

Module Service.
Record t := mk
  { Name : string; StackName : string; Kind : string; Vip : string;
    Fqdn : string; Labels : gmap string string;
    Metadata : gmap string string; Ports : list string }.
End Service.

End metadata.

Module Host.
Record t := mk
  { UUID : string; Name : string; Address : string; Hostname : string;
    Labels : gmap string string }.
(** The zero value of the struct. *)
Definition zero : t := mk "" "" "" "" ∅.
End Host.

Module Container.
Record t := mk
  { Name : string; Address : string; Stack : string; Service : string;
    Health : string; State : string; Labels : gmap string string;
    Host : Host.t }.
End Container.

Module ServicePort.
Record t := mk
  { PublicPort : string; InternalPort : string; Protocol : string }.
End ServicePort.

Module Service.
Record t := mk
  { Name : string; Stack : string; Kind : string; Vip : string;
    Fqdn : string; Labels : gmap string string;
    Metadata : gmap string string;
    Containers : list Container.t; Ports : list ServicePort.t }.
End Service.

Module Self.
Record t := mk { Stack : string; Service : string; HostUUID : string }.
End Self.

Module TemplateContext.
Record t := mk
  { Services : list Service.t; Containers : list Container.t;
    Hosts : list Host.t; Self : Self.t }.
End TemplateContext.

Module Template.
Record t := mk
  { Source : string; Dest : string; CheckCmd : string; NotifyCmd : string;
    NotifyLbl : string; NotifyOutput : bool; Staging : string }.
Definition with_Staging (x : t) (p : string) : t :=
  mk (Source x) (Dest x) (CheckCmd x) (NotifyCmd x) (NotifyLbl x)
     (NotifyOutput x) p.
End Template.

Module Config.
Record t := mk
  { MetadataVersion : string; Interval : Z; OneTime : bool;
    Templates : list Template.t }.
End Config.

(** The runner: its configuration and the last metadata version it saw.
    The client and the signal channel are part of the environment. *)
Module runner.
Record t := mk { Config : Config.t; Version : string }.
End runner.

(** ** Errors *)

(** A Go [error] value: its message and whether [os.IsNotExist] holds. *)
Record GoError := mkErr { Error : string; IsNotExist : bool }.

(** [fmt.Errorf]: a fresh error that only carries a message. *)
Definition Errorf (msg : string) : GoError := mkErr msg false.

(** A possibly nil [error]. *)
Abbreviation error := (option GoError).

(** A Go result pair [(v, err)] with [err] deciding which side is valid. *)
Inductive res (A : Type) : Type :=
| Ok (a : A)
| Fail (e : GoError).
Arguments Ok {A} a.
Arguments Fail {A} e.

(** ** The world the runner acts on *)

Record File := mkFile
  { content : string; mode : nat; uid : nat; gid : nat;
    readable : bool (* can it be opened and read to the end *) }.

Inductive Level := DebugLvl | InfoLvl | PrintLvl | WarnLvl | ErrorLvl | FatalLvl.

Inductive Method :=
| GetVersion | GetServices | GetContainers | GetHosts | GetSelfContainer.

Inductive Slot := CheckSlot | NotifySlot.

(** What the program does to its environment, one event per call. *)
Inductive Event :=
| Log (lvl : Level) (msg : string)
| Sleep (seconds : nat)
| Call (m : Method)
| Stat (path : string)
| ReadFile (path : string)
| OpenFile (path : string)
| CopyToHash (path : string)
| Md5 (bytes : string)
| Parse (name : string)
| Execute (name : string)
| Stdout (bytes : string)
| TempFile (dir pfx : string)
| FileWrite (path : string) (bytes : string)
| Chmod (path : string) (m : nat)
| Chown (path : string) (u g : nat)
| Close (path : string)
| Remove (path : string)
| Rename (src dst : string)
| WriteFile (path : string) (bytes : string) (m : nat)
| Exec (slot : Slot) (command : string)
| Exit (code : nat).

Record World := mkWorld
  { fs : gmap string File;
    requests : nat (* calls the metadata client has answered *);
    trace : list Event;
    stdout : string }.

(** The answer of the template engine to a template text. *)
Inductive Rendered :=
| RenderOk (bytes : string)
| ParseError (e : GoError)
| ExecError (e : GoError).

(** The collaborators. The metadata client answers its [n]-th call as the
    functions say; a file operation fails when [fault] holds an error for
    its event; a shell command sees the files and may change them. *)
Record Sys := mkSys
  { version : nat -> res string;
    services : nat -> res (list metadata.Service.t);
    containers : nat -> res (list metadata.Container.t);
    hosts : nat -> res (list metadata.Host.t);
    self : nat -> res metadata.Container.t;
    md5hex : string -> string;
    engine : TemplateContext.t -> string -> string -> Rendered;
    shell : string -> gmap string File -> error * string * gmap string File;
    filepath_Dir : string -> string;
    filepath_Base : string -> string;
    temp_name : string -> string -> gmap string File -> string;
    fault : Event -> option GoError }.

(** ** The effect monad: a state over [World], with process exit *)

Inductive Outcome (A : Type) : Type :=
| Done (a : A)
| Exited (code : nat).
Arguments Done {A} a.
Arguments Exited {A} code.

Definition M (A : Type) : Type := World -> Outcome A * World.

Definition ret {A} (a : A) : M A := fun w => (Done a, w).

Definition bind {A B} (m : M A) (k : A -> M B) : M B :=
  fun w => match m w with
           | (Done a, w') => k a w'
           | (Exited c, w') => (Exited c, w')
           end.

Declare Scope go_scope.
Delimit Scope go_scope with go.
Notation "x <- m ; k" := (bind m (fun x => k))
  (at level 20, m at level 100, k at level 200, only parsing) : go_scope.
Notation "' p <- m ; k" := (bind m (fun x => let 'p := x in k))
  (at level 20, p pattern, m at level 100, k at level 200, only parsing)
  : go_scope.
Notation "m ;; k" := (bind m (fun _ => k))
  (at level 100, k at level 200, only parsing, right associativity)
  : go_scope.
Local Open Scope go_scope.

Definition emit (e : Event) : M unit :=
  fun w => (Done tt, mkWorld (fs w) (requests w) (trace w ++ [e]) (stdout w)).

Definition get_fs : M (gmap string File) := fun w => (Done (fs w), w).

Definition set_fs (f : gmap string File) : M unit :=
  fun w => (Done tt, mkWorld f (requests w) (trace w) (stdout w)).

Definition log (lvl : Level) (msg : string) : M unit := emit (Log lvl msg).

(** [log.Fatalf]: the line is logged and the process exits with status 1. *)
Definition Fatalf {A} (msg : string) : M A :=
  fun w => (Exited 1,
            mkWorld (fs w) (requests w)
                    (trace w ++ [Log FatalLvl msg; Exit 1]) (stdout w)).

(** A panic that nothing recovers: the process exits with status 2. *)
Definition panic {A} (msg : string) : M A :=
  fun w => (Exited 2,
            mkWorld (fs w) (requests w) (trace w ++ [Exit 2]) (stdout w)).

Definition time_Sleep (seconds : nat) : M unit := emit (Sleep seconds).

(** A product of [int64] values: the result wraps around. *)
Definition wrap64 (z : Z) : Z := ((z + 2 ^ 63) mod 2 ^ 64 - 2 ^ 63)%Z.

(** [time.Duration(seconds) * time.Second], in nanoseconds. *)
Definition ticker_period (seconds : Z) : Z :=
  wrap64 (seconds * 1000000000).

(** ** Primitive operations on the collaborators *)

Section Runner.

Variable sys : Sys.

Definition not_exist (op path : string) : GoError :=
  mkErr (op +:+ " " +:+ path +:+ ": no such file or directory") true.

Definition denied (op path : string) : GoError :=
  mkErr (op +:+ " " +:+ path +:+ ": permission denied") false.

(** A file operation: it is recorded, fails with the injected fault when
    there is one, and otherwise answers from the files and updates them. *)
Definition fsop {A} (e : Event)
    (run : gmap string File -> res A * gmap string File) : M (res A) :=
  emit e ;;
  match fault sys e with
  | Some err => ret (Fail err)
  | None => f <- get_fs ;
            let '(r, f') := run f in
            set_fs f' ;; ret r
  end.

Definition os_Stat (path : string) : M (res File) :=
  fsop (Stat path) (fun f =>
    match f !! path with
    | Some x => (Ok x, f)
    | None => (Fail (not_exist "stat" path), f)
    end).

Definition read_of (op path : string) (f : gmap string File) : res string :=
  match f !! path with
  | Some x => if readable x then Ok (content x) else Fail (denied op path)
  | None => Fail (not_exist op path)
  end.

Definition ioutil_ReadFile (path : string) : M (res string) :=
  fsop (ReadFile path) (fun f => (read_of "open" path f, f)).

(** [os.Open]; the answer stands for the open file: the bytes behind it. *)
Definition os_Open (path : string) : M (res string) :=
  fsop (OpenFile path) (fun f => (read_of "open" path f, f)).

(** [io.Copy(hash, file)] followed by the hexadecimal digest. *)
Definition io_Copy_hash (path bytes : string) : M (res string) :=
  fsop (CopyToHash path) (fun f => (Ok (md5hex sys bytes), f)).

(** [ioutil.TempFile]: a new empty file, mode 0600, in [dir]. *)
Definition ioutil_TempFile (dir pfx : string) : M (res string) :=
  fsop (TempFile dir pfx) (fun f =>
    let name := temp_name sys dir pfx f in
    (Ok name, <[name := mkFile "" 384 0 0 true]> f)).

Definition fp_Write (name bytes : string) : M (res unit) :=
  fsop (FileWrite name bytes) (fun f =>
    (Ok tt, alter (fun x => mkFile (content x +:+ bytes) (mode x) (uid x)
                                   (gid x) (readable x)) name f)).

Definition chmod_of (m : nat) (x : File) : File :=
  mkFile (content x) m (uid x) (gid x) (readable x).

Definition chown_of (u g : nat) (x : File) : File :=
  mkFile (content x) (mode x) u g (readable x).

Definition fp_Chmod (name : string) (m : nat) : M (res unit) :=
  fsop (Chmod name m) (fun f => (Ok tt, alter (chmod_of m) name f)).

Definition fp_Chown (name : string) (u g : nat) : M (res unit) :=
  fsop (Chown name u g) (fun f => (Ok tt, alter (chown_of u g) name f)).

Definition fp_Close (name : string) : M (res unit) :=
  fsop (Close name) (fun f => (Ok tt, f)).

Definition os_Remove (path : string) : M (res unit) :=
  fsop (Remove path) (fun f =>
    match f !! path with
    | Some _ => (Ok tt, delete path f)
    | None => (Fail (not_exist "remove" path), f)
    end).

Definition os_Rename (src dst : string) : M (res unit) :=
  fsop (Rename src dst) (fun f =>
    match f !! src with
    | Some x => (Ok tt, <[dst := x]> (delete src f))
    | None => (Fail (not_exist "rename" src), f)
    end).

(** [ioutil.WriteFile]: an existing file is truncated and keeps its mode
    and owner, a new one is created with [m]. *)
Definition ioutil_WriteFile (path bytes : string) (m : nat) : M (res unit) :=
  fsop (WriteFile path bytes m) (fun f =>
    match f !! path with
    | Some x => (Ok tt, <[path := mkFile bytes (mode x) (uid x) (gid x)
                                          (readable x)]> f)
    | None => (Ok tt, <[path := mkFile bytes m 0 0 true]> f)
    end).

Definition os_Chown (path : string) (u g : nat) : M (res unit) :=
  fsop (Chown path u g) (fun f =>
    match f !! path with
    | Some x => (Ok tt, <[path := chown_of u g x]> f)
    | None => (Fail (not_exist "chown" path), f)
    end).

Definition os_Stdout_Write (bytes : string) : M unit :=
  fun w => (Done tt, mkWorld (fs w) (requests w) (trace w ++ [Stdout bytes])
                             (stdout w +:+ bytes)).

(** [exec.Command("/bin/sh", "-c", command).CombinedOutput()]. *)
Definition CombinedOutput (slot : Slot) (command : string)
    : M (string * error) :=
  emit (Exec slot command) ;;
  f <- get_fs ;
  let '(err, out, f') := shell sys command f in
  set_fs f' ;; ret (out, err).

(** A call of the metadata client: the next answer of the environment. *)
Definition client_call {A} (m : Method) (answer : nat -> res A) : M (res A) :=
  fun w => (Done (answer (requests w)),
            mkWorld (fs w) (S (requests w)) (trace w ++ [Call m]) (stdout w)).

(** ** Commands *)

Definition newline : ascii := ascii_of_nat 10.

(** [logCmdOutput]: one line of log per non-empty line of output (the
    line is logged as it is, without the quoting of [%q]). *)
Fixpoint logLines (command : string) (lines : list string) : M unit :=
  match lines with
  | [] => ret tt
  | line :: rest =>
      (if String.eqb line "" then ret tt
       else log InfoLvl ("[" +:+ command +:+ "]: " +:+ line)) ;;
      logLines command rest
  end.

Definition logCmdOutput (command output : string) : M unit :=
  logLines command (Strings.Split output newline).

Definition check (command : string) : M error :=
  log DebugLvl ("Running check command '" +:+ command +:+ "'") ;;
  '(out, err) <- CombinedOutput CheckSlot command ;
  match err with
  | Some e =>
      log PrintLvl "Check failed, skipping notify-cmd" ;;
      logCmdOutput command out ;;
      ret (Some e)
  | None => ret None
  end.

Definition notify (command : string) (verbose : bool) : M error :=
  log InfoLvl ("Executing notify command '" +:+ command +:+ "'") ;;
  '(out, err) <- CombinedOutput NotifySlot command ;
  match err with
  | Some e => logCmdOutput command out ;; ret (Some e)
  | None =>
      (if verbose then logCmdOutput command out else ret tt) ;;
      log DebugLvl ("Notify cmd output: " +:+ out) ;;
      ret None
  end.

(** ** Change detection *)

Definition computeFileMd5 (filePath : string) : M (string * error) :=
  st <- os_Stat filePath ;
  match st with
  | Fail _ => ret ("", None)
  | Ok _ =>
      o <- os_Open filePath ;
      match o with
      | Fail e => ret ("", Some e)
      | Ok bytes =>
          h <- io_Copy_hash filePath bytes ;
          fp_Close filePath ;;
          match h with
          | Fail e => ret ("", Some e)
          | Ok digest => ret (digest, None)
          end
      end
  end.

Definition sameContent (bytes filePath : string) : M (bool * error) :=
  '(fileMd5, err) <- computeFileMd5 filePath ;
  match err with
  | Some e =>
      ret (false, Some (Errorf ("Could not calculate checksum for "
                                +:+ filePath +:+ ": " +:+ Error e)))
  | None =>
      emit (Md5 bytes) ;;
      let contentMd5 := md5hex sys bytes in
      log DebugLvl ("Checksum content: " +:+ contentMd5
                    +:+ ", checksum file: " +:+ fileMd5) ;;
      if String.eqb fileMd5 contentMd5 then ret (true, None)
      else ret (false, None)
  end.

(** ** The staged write *)

(** The closure [onErr] of [createStagingFile]. *)
Definition onErr (name : string) : M unit :=
  fp_Close name ;; os_Remove name ;; ret tt.

Definition createStagingFile (bytes destFile : string) : M (string * error) :=
  fp <- ioutil_TempFile (filepath_Dir sys destFile)
                        ("." +:+ filepath_Base sys destFile +:+ "-") ;
  match fp with
  | Fail e =>
      ret ("", Some (Errorf ("Could not create staging file for "
                             +:+ destFile +:+ ": " +:+ Error e)))
  | Ok name =>
      log DebugLvl ("Created staging file " +:+ name) ;;
      wr <- fp_Write name bytes ;
      match wr with
      | Fail e =>
          onErr name ;;
          ret ("", Some (Errorf ("Could not write staging file for "
                                 +:+ destFile +:+ ": " +:+ Error e)))
      | Ok _ =>
          log DebugLvl "Copying file permissions and owner from destination" ;;
          st <- os_Stat destFile ;
          match st with
          | Ok stat =>
              cm <- fp_Chmod name (mode stat) ;
              match cm with
              | Fail e =>
                  onErr name ;;
                  ret ("", Some (Errorf ("Failed to copy permissions from "
                                         +:+ destFile +:+ ": " +:+ Error e)))
              | Ok _ =>
                  co <- fp_Chown name (uid stat) (gid stat) ;
                  match co with
                  | Fail e =>
                      onErr name ;;
                      ret ("", Some (Errorf ("Failed to copy ownership: "
                                             +:+ Error e)))
                  | Ok _ => fp_Close name ;; ret (name, None)
                  end
              end
          | Fail _ => fp_Close name ;; ret (name, None)
          end
      end
  end.

Definition copyStagingToDestination (stagingPath destPath : string)
    : M error :=
  rn <- os_Rename stagingPath destPath ;
  match rn with
  | Ok _ => ret None
  | Fail err =>
      if negb (Strings.Contains (Error err) "device or resource busy")
      then ret (Some err)
      else
        log DebugLvl ("Failed to rename staging file: " +:+ Error err) ;;
        rd <- ioutil_ReadFile stagingPath ;
        match rd with
        | Fail e => ret (Some e)
        | Ok bytes =>
            st <- os_Stat stagingPath ;
            match st with
            | Fail e => ret (Some e)
            | Ok sfi =>
                wf <- ioutil_WriteFile destPath bytes (mode sfi) ;
                match wf with
                | Fail e => ret (Some e)
                | Ok _ =>
                    co <- os_Chown destPath (uid sfi) (gid sfi) ;
                    match co with
                    | Fail e => ret (Some e)
                    | Ok _ => ret None
                    end
                end
            end
        end
  end.

(** ** The context builder *)

(** Converts the [Ports] strings of a service. A string that is not of
    the shape [public:internal/protocol] is dropped with a warning; the
    warnings are returned next to the ports. *)
Fixpoint parseServicePorts (ports : list string)
    : list ServicePort.t * list string :=
  match ports with
  | [] => ([], [])
  | port :: rest =>
      let '(ret_, warns) := parseServicePorts rest in
      let warn := "Unexpected format of service port: " +:+ port in
      match Strings.Split port ":" with
      | [public; tail] =>
          match Strings.Split tail "/" with
          | [internal; proto] =>
              (ServicePort.mk public internal proto :: ret_, warns)
          | _ => (ret_, warn :: warns)
          end
      | _ => (ret_, warn :: warns)
      end
  end.

Definition buildHost (h : metadata.Host.t) : Host.t :=
  Host.mk (metadata.Host.UUID h) (metadata.Host.Name h)
          (metadata.Host.AgentIP h) (metadata.Host.Hostname h)
          (metadata.Host.Labels h).

(** The first host with the UUID, the zero host when there is none. *)
Fixpoint findHost (hosts : list Host.t) (uuid : string) : Host.t :=
  match hosts with
  | [] => Host.zero
  | h :: rest =>
      if String.eqb (Host.UUID h) uuid then h else findHost rest uuid
  end.

Definition buildContainer (hosts : list Host.t) (c : metadata.Container.t)
    : Container.t :=
  Container.mk (metadata.Container.Name c) (metadata.Container.PrimaryIp c)
               (metadata.Container.StackName c)
               (metadata.Container.ServiceName c)
               (metadata.Container.HealthState c)
               (metadata.Container.State c) (metadata.Container.Labels c)
               (findHost hosts (metadata.Container.HostUUID c)).

Definition serviceContainers (containers_ : list Container.t)
    (s : metadata.Service.t) : list Container.t :=
  List.filter (fun c =>
      String.eqb (Container.Stack c) (metadata.Service.StackName s)
      && String.eqb (Container.Service c) (metadata.Service.Name s))
    containers_.

Definition buildService (containers_ : list Container.t)
    (s : metadata.Service.t) : Service.t :=
  Service.mk (metadata.Service.Name s) (metadata.Service.StackName s)
             (metadata.Service.Kind s) (metadata.Service.Vip s)
             (metadata.Service.Fqdn s) (metadata.Service.Labels s)
             (metadata.Service.Metadata s)
             (serviceContainers containers_ s)
             (fst (parseServicePorts (metadata.Service.Ports s))).

Definition buildContext (metaServices : list metadata.Service.t)
    (metaContainers : list metadata.Container.t)
    (metaHosts : list metadata.Host.t) (metaSelf : metadata.Container.t)
    : TemplateContext.t :=
  let hosts_ := List.map buildHost metaHosts in
  let containers_ := List.map (buildContainer hosts_) metaContainers in
  let services_ := List.map (buildService containers_) metaServices in
  TemplateContext.mk services_ containers_ hosts_
    (Self.mk (metadata.Container.StackName metaSelf)
             (metadata.Container.ServiceName metaSelf)
             (metadata.Container.HostUUID metaSelf)).

Fixpoint warnAll (warns : list string) : M unit :=
  match warns with
  | [] => ret tt
  | x :: rest => log WarnLvl x ;; warnAll rest
  end.

Definition portWarnings (metaServices : list metadata.Service.t)
    : list string :=
  List.concat
    (List.map (fun s => snd (parseServicePorts (metadata.Service.Ports s)))
              metaServices).

Definition createContext : M (res TemplateContext.t) :=
  log DebugLvl "Fetching Metadata" ;;
  sv <- client_call GetServices (services sys) ;
  match sv with
  | Fail e => ret (Fail e)
  | Ok metaServices =>
      cs <- client_call GetContainers (containers sys) ;
      match cs with
      | Fail e => ret (Fail e)
      | Ok metaContainers =>
          hs <- client_call GetHosts (hosts sys) ;
          match hs with
          | Fail e => ret (Fail e)
          | Ok metaHosts =>
              sf <- client_call GetSelfContainer (self sys) ;
              match sf with
              | Fail e => ret (Fail e)
              | Ok metaSelf =>
                  warnAll (portWarnings metaServices) ;;
                  ret (Ok (buildContext metaServices metaContainers
                                        metaHosts metaSelf))
              end
          end
      end
  end.

(** ** Per-container token substitution *)

(** What [structs] sees in a field of a [Container]. *)
Inductive FieldValue :=
| VString (s : string)
| VLabels (m : gmap string string)
| VHost (h : Host.t).

(** [structs.New(c).Fields()]: the fields in declaration order. *)
Definition Fields (c : Container.t) : list (string * FieldValue) :=
  [ ("Name", VString (Container.Name c));
    ("Address", VString (Container.Address c));
    ("Stack", VString (Container.Stack c));
    ("Service", VString (Container.Service c));
    ("Health", VString (Container.Health c));
    ("State", VString (Container.State c));
    ("Labels", VLabels (Container.Labels c));
    ("Host", VHost (Container.Host c)) ].

(** The type assertion [v.(string)] in its two-valued form. *)
Definition as_string (v : FieldValue) : string * bool :=
  match v with
  | VString s => (s, true)
  | _ => ("", false)
  end.

(** The key of a match: braces trimmed, one leading dot removed. *)
Definition tokenKey (m : string) : string :=
  let key := Strings.Trim m "{}" in
  if decide (Strings.Index key "." = Some 0)
  then Strings.Replace key "." "" (Some 1)
  else key.

(** The loop over the fields for one match. *)
Fixpoint replaceField (fields : list (string * FieldValue))
    (key m ret_ : string) : string :=
  match fields with
  | [] => ret_
  | (name, v) :: rest =>
      let ret' := if String.eqb name key
                  then Strings.ReplaceAll ret_ m (fst (as_string v))
                  else ret_ in
      replaceField rest key m ret'
  end.

(** The body of the loop over the matches. *)
Definition replaceMatch (c : Container.t) (ret_ m : string) : string :=
  let key := tokenKey m in
  if Strings.Contains key "Labels."
  then
    let labelParts := Strings.SplitAfter2 key "." in
    let label := List.last labelParts "" in
    Strings.ReplaceAll ret_ m (default "" (Container.Labels c !! label))
  else replaceField (Fields c) key m ret_.

Definition parseCmdTemplate (c : Container.t) (command : string)
    : string * error :=
  let matches := Regexp.FindAll command in
  (List.fold_left (replaceMatch c) matches command, None).

(** ** Label groups *)

Fixpoint scanLabels (nLabelName nLabelValue : string) (c : Container.t)
    (labels : list (string * string)) (toNotify : list Container.t)
    : M (list Container.t) :=
  match labels with
  | [] => ret toNotify
  | (lbl, val) :: rest =>
      if String.eqb lbl nLabelName
         && (String.eqb nLabelValue "" || String.eqb val nLabelValue)
      then
        log DebugLvl ("NOTIFY: " +:+ Container.Name c +:+ " :: ["
                      +:+ lbl +:+ ":" +:+ val +:+ "]") ;;
        scanLabels nLabelName nLabelValue c rest (toNotify ++ [c])
      else scanLabels nLabelName nLabelValue c rest toNotify
  end.

Fixpoint scanContainers (nLabelName nLabelValue : string)
    (cs : list Container.t) (toNotify : list Container.t)
    : M (list Container.t) :=
  match cs with
  | [] => ret toNotify
  | c :: rest =>
      acc <- scanLabels nLabelName nLabelValue c
                        (map_to_list (Container.Labels c)) toNotify ;
      scanContainers nLabelName nLabelValue rest acc
  end.

Definition getLabelGroup (label : string) : M (list Container.t * error) :=
  if String.eqb label ""
  then ret ([], Some (Errorf "NotifyLabelGroup failed: no label specified"))
  else
    let split := Strings.Split label ":" in
    let nLabelName := List.nth 0 split "" in
    let nLabelValue :=
      if (1 <? List.length split)%nat then List.nth 1 split "" else "" in
    (if (1 <? List.length split)%nat
     then log DebugLvl ("Notifying label '" +:+ nLabelName
                        +:+ "' with value '" +:+ nLabelValue +:+ "'")
     else log DebugLvl ("Notifying label '" +:+ nLabelName +:+ "'")) ;;
    c <- createContext ;
    match c with
    | Fail err =>
        time_Sleep 2 ;;
        ret ([], Some (Errorf ("Failed to create context from Rancher Metadata: "
                               +:+ Error err)))
    | Ok ctx =>
        toNotify <- scanContainers nLabelName nLabelValue
                                   (TemplateContext.Containers ctx) [] ;
        ret (toNotify, None)
    end.

(** ** The command orchestrator *)

(** The command of a slot: the per-container one when it is not empty,
    the template's own otherwise. *)
Definition checkCmdOf (t : Template.t) (parsedCheck : string) : string :=
  if negb (String.eqb parsedCheck "") then parsedCheck
  else Template.CheckCmd t.

Definition notifyCmdOf (t : Template.t) (parsedNotify : string) : string :=
  if negb (String.eqb parsedNotify "") then parsedNotify
  else Template.NotifyCmd t.

Definition runCheckNotify (t : Template.t) (parsedCheck parsedNotify : string)
    : M error :=
  let checkCmd := checkCmdOf t parsedCheck in
  chk <- (if negb (String.eqb checkCmd "")
          then
            let command :=
              Strings.ReplaceAll checkCmd "{{staging}}" (Template.Staging t) in
            check command
          else ret None) ;
  match chk with
  | Some err => ret (Some (Errorf ("Check command failed: " +:+ Error err)))
  | None =>
      let notifyCmd := notifyCmdOf t parsedNotify in
      ntf <- (if negb (String.eqb notifyCmd "")
              then notify notifyCmd (Template.NotifyOutput t)
              else ret None) ;
      match ntf with
      | Some err =>
          ret (Some (Errorf ("Notify command failed: " +:+ Error err)))
      | None => ret None
      end
  end.

(** The loop over the label group. The error of a container's commands is
    formatted by [fmt.Errorf] and the value dropped. *)
Fixpoint fanout (t : Template.t) (toNotify : list Container.t) : M unit :=
  match toNotify with
  | [] => ret tt
  | c :: rest =>
      log DebugLvl ("Parsing: " +:+ Container.Name c) ;;
      let '(parsedCheck, _) := parseCmdTemplate c (Template.CheckCmd t) in
      let '(parsedNotify, _) := parseCmdTemplate c (Template.NotifyCmd t) in
      _ <- runCheckNotify t parsedCheck parsedNotify ;
      fanout t rest
  end.

(** Lines 185 to 202 of [processTemplate]. *)
Definition commandPhase (t : Template.t) : M unit :=
  if String.eqb (Template.NotifyLbl t) ""
  then _ <- runCheckNotify t "" "" ; ret tt
  else
    '(toNotify, _) <- getLabelGroup (Template.NotifyLbl t) ;
    fanout t toNotify.

(** ** Processing one template *)

(** How the first block of [processTemplate] is left: by a [return], or
    by falling through with the template (its [Staging] set) and the
    deferred removal of the staging file. *)
Inductive Flow :=
| Return (e : error)
| Continue (t : Template.t) (deferred : option string).

(** Lines 124 to 145 of [processTemplate]: the template is read, parsed
    and rendered; each failure ends the process. *)
Definition renderTemplate (ctx : TemplateContext.t) (t : Template.t)
    : M string :=
  let Source := Template.Source t in
  let Dest := Template.Dest t in
  log DebugLvl ("Processing template " +:+ Source +:+ " for destination "
                +:+ Dest) ;;
  st <- os_Stat Source ;
  (match st with
   | Fail e => if IsNotExist e
               then Fatalf ("Template '" +:+ Source +:+ "' is missing")
               else ret tt
   | Ok _ => ret tt
   end) ;;
  rd <- ioutil_ReadFile Source ;
  match rd with
  | Fail e => Fatalf ("Could not read template '" +:+ Source +:+ "': "
                      +:+ Error e)
  | Ok tmplBytes =>
      let name := filepath_Base sys Source in
      emit (Parse name) ;;
      match engine sys ctx name tmplBytes with
      | ParseError e =>
          Fatalf ("Could not parse template '" +:+ Source +:+ "': "
                  +:+ Error e)
      | ExecError e =>
          emit (Execute name) ;;
          Fatalf ("Could not render template: '" +:+ Source +:+ "': "
                  +:+ Error e)
      | RenderOk bytes => emit (Execute name) ;; ret bytes
      end
  end.

(** Lines 147 to 178 of [processTemplate], on the rendered bytes. *)
Definition writeBlock (t : Template.t) (bytes : string) : M Flow :=
  let Dest := Template.Dest t in
  if String.eqb Dest ""
  then
    log DebugLvl "No destination specified. Printing to StdOut" ;;
    os_Stdout_Write bytes ;;
    ret (Return None)
  else
    log DebugLvl "Checking whether content has changed" ;;
    '(same, err) <- sameContent bytes Dest ;
    match err with
    | Some e =>
        ret (Return (Some (Errorf ("Could not compare content for "
                                   +:+ Dest +:+ ": " +:+ Error e))))
    | None =>
        if same : bool
        then
          log DebugLvl ("Destination " +:+ Dest +:+ " is up to date") ;;
          ret (Return None)
        else
          log DebugLvl "Creating staging file" ;;
          '(stagingFile, err) <- createStagingFile bytes Dest ;
          let t' := Template.with_Staging t stagingFile in
          match err with
          | Some e => ret (Return (Some e))
          | None =>
              log DebugLvl "Writing destination" ;;
              cp <- copyStagingToDestination stagingFile Dest ;
              match cp with
              | Some e =>
                  ret (Return (Some (Errorf
                    ("Could not write destination file " +:+ Dest
                     +:+ ": " +:+ Error e))))
              | None =>
                  log InfoLvl ("Destination file has been updated: "
                               +:+ Dest) ;;
                  ret (Continue t' (Some stagingFile))
              end
          end
    end.

(** Lines 124 to 178 of [processTemplate]. *)
Definition renderBlock (ctx : TemplateContext.t) (t : Template.t) : M Flow :=
  bytes <- renderTemplate ctx t ;
  writeBlock t bytes.

Definition processTemplate (ctx : TemplateContext.t) (t : Template.t)
    : M error :=
  flow <- (if negb (String.eqb (Template.Source t) "")
              && negb (String.eqb (Template.Dest t) "")
           then renderBlock ctx t
           else
             log DebugLvl "No template - processing commands" ;;
             ret (Continue t None)) ;
  match flow with
  | Return e => ret e
  | Continue t' deferred =>
      commandPhase t' ;;
      (match deferred with
       | Some stagingFile => _ <- os_Remove stagingFile ; ret tt
       | None => ret tt
       end) ;;
      ret None
  end.

(** ** The poll cycle *)

(** The loop of [poll] over the configured templates. *)
Fixpoint processTemplates (ctx : TemplateContext.t) (ts : list Template.t)
    : M error :=
  match ts with
  | [] => ret None
  | tmpl :: rest =>
      err <- processTemplate ctx tmpl ;
      match err with
      | Some e => ret (Some e)
      | None => processTemplates ctx rest
      end
  end.

(** Lines 99 to 118 of [poll]: what a cycle does once the runner has
    recorded a new version. *)
Definition rebuild (r' : runner.t) : M (error * runner.t) :=
  c <- createContext ;
  match c with
  | Fail err =>
      time_Sleep 2 ;;
      ret (Some (Errorf
             ("Failed to create context from Rancher Metadata: "
              +:+ Error err)), r')
  | Ok ctx =>
      err <- processTemplates ctx (Config.Templates (runner.Config r')) ;
      match err with
      | Some e => ret (Some e, r')
      | None =>
          (if Config.OneTime (runner.Config r')
           then log InfoLvl "All templates processed. Exiting."
           else log InfoLvl
             "All templates processed. Waiting for changes in Metadata...") ;;
          ret (None, r')
      end
  end.

Definition poll (r : runner.t) : M (error * runner.t) :=
  log DebugLvl "Checking for metadata change" ;;
  v <- client_call GetVersion (version sys) ;
  match v with
  | Fail err =>
      time_Sleep 2 ;;
      ret (Some (Errorf ("Failed to get Metadata version: " +:+ Error err)), r)
  | Ok newVersion =>
      if String.eqb (runner.Version r) newVersion
      then log DebugLvl "No changes in Metadata" ;; ret (None, r)
      else
        log DebugLvl ("Old version: " +:+ runner.Version r
                      +:+ ", New Version: " +:+ newVersion) ;;
        rebuild (runner.mk (runner.Config r) newVersion)
  end.

(** ** The scheduler *)

(** What ends a wait of the interval loop. *)
Inductive Wake := Tick | Signal.

(** How far [Run] got: it returned, or it is still waiting when the
    schedule of wake-ups is used up. *)
Inductive RunResult :=
| Returned (e : error) (r : runner.t)
| Waiting (r : runner.t).

Fixpoint interval (r : runner.t) (sched : list Wake) : M RunResult :=
  '(err, r') <- poll r ;
  (match err with
   | Some e => log ErrorLvl (Error e)
   | None => ret tt
   end) ;;
  match sched with
  | [] => ret (Waiting r')
  | Signal :: _ =>
      log InfoLvl "Exit requested by signal" ;; ret (Returned None r')
  | Tick :: rest => interval r' rest
  end.

Definition Run (r : runner.t) (sched : list Wake) : M RunResult :=
  if Config.OneTime (runner.Config r)
  then
    log InfoLvl "Processing all templates once." ;;
    '(err, r') <- poll r ;
    ret (Returned err r')
  else
    log InfoLvl ("Polling Metadata with %d second interval"
                 +:+ pretty (Config.Interval (runner.Config r))) ;;
    (* [time.NewTicker] panics when the period is not positive *)
    if (ticker_period (Config.Interval (runner.Config r)) <=? 0)%Z
    then panic "non-positive interval for NewTicker"
    else interval r sched.

End Runner.

(** ** A concrete environment, used to run the model *)

Module Demo.

(** Stand-ins for the collaborators: the digest is the content behind a
    tag (injective, never empty); the engine renders a template text as
    itself and rejects a text that starts with "!"; a shell command fails
    when it starts with "false". *)
Definition md5hex (bytes : string) : string := "md5:" +:+ bytes.

Definition engine (_ : TemplateContext.t) (_ text : string) : Rendered :=
  if String.prefix "!" text then ParseError (Errorf "unexpected bang")
  else RenderOk text.

Definition shell (command : string) (f : gmap string File)
    : error * string * gmap string File :=
  if String.prefix "false" command
  then (Some (Errorf "exit status 1"), "no", f)
  else (None, "ok", f).

Definition worker (name probe : string) : metadata.Container.t :=
  metadata.Container.mk name "10.0.0.1" "web" "app" "healthy" "running"
    {[ "role" := "worker"; "probe" := probe ]} "h1".

Definition leader (name : string) : metadata.Container.t :=
  metadata.Container.mk name "10.0.0.2" "web" "app" "healthy" "running"
    {[ "role" := "leader" ]} "h1".

(** Three workers and two leaders; the probe of the second worker is a
    command that fails. *)
Definition fleet : list metadata.Container.t :=
  [worker "w1" "true"; leader "l1"; worker "w2" "false";
   worker "w3" "true"; leader "l2"].

Definition host1 : metadata.Host.t :=
  metadata.Host.mk "h1" "host-1" "192.168.0.1" "host-1.local" ∅.

Definition sys : Sys :=
  mkSys (fun _ => Ok "v1") (fun _ => Ok []) (fun _ => Ok fleet)
        (fun _ => Ok [host1]) (fun _ => Ok (worker "w1" "true"))
        md5hex engine shell (fun _ => "/etc") (fun p => p)
        (fun dir pfx _ => dir +:+ "/" +:+ pfx +:+ "0001")
        (fun _ => None).

(** The same environment, with a metadata service whose [GetServices]
    fails until three calls have been answered. *)
Definition flaky : Sys :=
  mkSys (fun _ => Ok "v1")
        (fun n => if (n <? 3)%nat then Fail (Errorf "connection refused")
                  else Ok [])
        (fun _ => Ok fleet) (fun _ => Ok [host1])
        (fun _ => Ok (worker "w1" "true"))
        md5hex engine shell (fun _ => "/etc") (fun p => p)
        (fun dir pfx _ => dir +:+ "/" +:+ pfx +:+ "0001")
        (fun _ => None).

Definition file (bytes : string) : File := mkFile bytes 420 0 0 true.

Definition files : gmap string File :=
  {[ "app.tmpl" := file "hello"; "app.conf" := file "hello";
     "old.conf" := file "stale";
     "locked.conf" := mkFile "secret" 0 0 0 false ]}.

Definition world : World := mkWorld files 0 [] "".

Definition ctx : TemplateContext.t :=
  buildContext [] fleet [host1] (worker "w1" "true").

Definition tmpl (src dst chk ntf lbl : string) : Template.t :=
  Template.mk src dst chk ntf lbl false "".

(** A template whose destination already holds what it renders to. *)
Definition unchangedT : Template.t :=
  tmpl "app.tmpl" "app.conf" "chk {{staging}}" "ntf" "".

(** A template whose destination cannot be read. *)
Definition lockedT : Template.t :=
  tmpl "app.tmpl" "locked.conf" "chk-a" "ntf-a" "".

(** A template of commands only. *)
Definition commandsT : Template.t := tmpl "" "" "chk-b" "ntf-b" "".

(** A template with a source and no destination. *)
Definition printT : Template.t :=
  tmpl "app.tmpl" "" "chk {{staging}}" "ntf" "".

(** A template fanned out over the workers. *)
Definition fanoutT : Template.t :=
  tmpl "" "" "{{Labels.probe}} {{Name}}" "reload {{.Name}}" "role:worker".

Definition runner0 (ts : list Template.t) : runner.t :=
  runner.mk (Config.mk "latest" 10 false ts) "init".

Definition w1 : Container.t := buildContainer [buildHost host1] (worker "w1" "true").

(** The workers of the fleet, as a context build yields them. *)
Definition workers : list Container.t :=
  List.filter (fun c => bool_decide (Container.Labels c !! "role" = Some "worker"))
              (TemplateContext.Containers ctx).


(** A container with a label whose value has the shape of a token. *)
Definition w9 : Container.t :=
  Container.mk "w9" "10.0.0.9" "web" "app" "healthy" "running"
               {[ "motd" := "{{Name}}" ]} Host.zero.

End Demo.

(** ** Reading a trace *)

Definition is_log (e : Event) : bool :=
  match e with Log _ _ => true | _ => false end.

Definition is_exec (e : Event) : bool :=
  match e with Exec _ _ => true | _ => false end.

Definition is_check (e : Event) : bool :=
  match e with Exec CheckSlot _ => true | _ => false end.

Definition is_notify (e : Event) : bool :=
  match e with Exec NotifySlot _ => true | _ => false end.

(** The creation of a staging file. *)
Definition is_staging (e : Event) : bool :=
  match e with TempFile _ _ => true | _ => false end.

(** The operations by which the runner changes a file. *)
Definition is_file_write (e : Event) : bool :=
  match e with
  | TempFile _ _ | FileWrite _ _ | Chmod _ _ | Chown _ _ _ | Remove _
  | Rename _ _ | WriteFile _ _ _ => true
  | _ => false
  end.

(** Reading and rendering a template. *)
Definition is_render (e : Event) : bool :=
  match e with ReadFile _ | Parse _ | Execute _ => true | _ => false end.

(** The steps of the content comparison. *)
Definition is_compare (e : Event) : bool :=
  match e with OpenFile _ | CopyToHash _ | Md5 _ => true | _ => false end.

Definition is_stdout (e : Event) : bool :=
  match e with Stdout _ => true | _ => false end.

Definition is_call (e : Event) : bool :=
  match e with Call _ => true | _ => false end.

(** [w] after the events [evs], with files [f]. *)
Definition advance (w : World) (f : gmap string File) (evs : list Event)
    : World :=
  mkWorld f (requests w) (trace w ++ evs) (stdout w).

(** The events of [w'] that [w] does not have yet. *)
Definition news (w w' : World) : list Event :=
  drop (List.length (trace w)) (trace w').

(** ** The vocabulary of the statements *)

(** *** Runs and classes of events *)

(** [m] always returns, and all it adds to the trace are events of the
    class [P]; it leaves the standard output alone. *)
Definition returns (P : Event -> bool) {A} (m : M A) : Prop :=
  forall w, exists a w' evs,
    m w = (Done a, w') /\ trace w' = trace w ++ evs
    /\ forallb P evs = true /\ stdout w' = stdout w.

(** [m] changes neither the files nor the standard output, and all it
    adds to the trace are events of the class [P]; it may end the
    process. *)
Definition reads (P : Event -> bool) {A} (m : M A) : Prop :=
  forall w o w', m w = (o, w') ->
    fs w' = fs w /\ stdout w' = stdout w
    /\ exists evs, trace w' = trace w ++ evs /\ forallb P evs = true.

(** Whatever its outcome, all [m] adds to the trace are events of the
    class [P], and it leaves the standard output alone. *)
Definition emits (P : Event -> bool) {A} (m : M A) : Prop :=
  forall w o w', m w = (o, w') ->
    stdout w' = stdout w
    /\ exists evs, trace w' = trace w ++ evs /\ forallb P evs = true.

(** The events of a context build and of a label scan. *)
Definition from_metadata (e : Event) : bool :=
  match e with
  | Log _ _ | Sleep _ | Call _ => true
  | _ => false
  end.

(** The events of the command phase. *)
Definition from_commands (e : Event) : bool :=
  match e with
  | Log _ _ | Sleep _ | Call _ | Exec _ _ => true
  | _ => false
  end.

(** The events of reading and rendering a template. *)
Definition from_rendering (e : Event) : bool :=
  match e with
  | Log _ _ | Stat _ | ReadFile _ | Parse _ | Execute _ | Exit _ => true
  | _ => false
  end.

(** The events of rendering a template and comparing the result. *)
Definition observing (e : Event) : bool :=
  match e with
  | Log _ _ | Stat _ | ReadFile _ | Parse _ | Execute _ | Exit _
  | OpenFile _ | CopyToHash _ | Close _ | Md5 _ => true
  | _ => false
  end.

Definition not_stdout (e : Event) : bool := negb (is_stdout e).

(** *** Commands *)

(** The check command that [runCheckNotify] hands to the shell. *)
Definition checkCommandOf (t : Template.t) (parsedCheck : string) : string :=
  Strings.ReplaceAll (checkCmdOf t parsedCheck) "{{staging}}"
                     (Template.Staging t).

(** The two commands [fanout] hands to [runCheckNotify] for a container. *)
Definition parsedCheckOf (t : Template.t) (c : Container.t) : string :=
  (parseCmdTemplate c (Template.CheckCmd t)).1.

Definition parsedNotifyOf (t : Template.t) (c : Container.t) : string :=
  (parseCmdTemplate c (Template.NotifyCmd t)).1.

(** A check that [runCheckNotify] executes for [t]: a non-empty command
    in which the staging token was replaced. *)
Definition check_shape (t : Template.t) (e : Event) : Prop :=
  exists raw, raw <> ""
    /\ e = Exec CheckSlot
             (Strings.ReplaceAll raw "{{staging}}" (Template.Staging t)).

(** [Served sys t cs w w']: starting in [w], the check/notify pair of every
    container of [cs] was run, one after the other in the order of the
    list and whatever error each returned, which ended in [w']. *)
Inductive Served (sys : Sys) (t : Template.t)
    : list Container.t -> World -> World -> Prop :=
| Served_nil w : Served sys t [] w w
| Served_cons c cs w err w1 w2 :
    runCheckNotify sys t (parsedCheckOf t c) (parsedNotifyOf t c)
      (advance w (fs w) [Log DebugLvl ("Parsing: " +:+ Container.Name c)])
    = (Done err, w1) ->
    Served sys t cs w1 w2 ->
    Served sys t (c :: cs) w w2.

(** The line that opens the processing of a template without a source or
    without a destination. *)
Definition noTemplate : Event :=
  Log DebugLvl "No template - processing commands".

(** *** Poll cycles *)

(** [Processed sys ctx ts w w']: starting in [w], every template of [ts]
    was processed, in order and each without an error, which ended in
    [w']. *)
Inductive Processed (sys : Sys) (ctx : TemplateContext.t)
    : list Template.t -> World -> World -> Prop :=
| Processed_nil w : Processed sys ctx [] w w
| Processed_cons t ts w w1 w2 :
    processTemplate sys ctx t w = (Done None, w1) ->
    Processed sys ctx ts w1 w2 ->
    Processed sys ctx (t :: ts) w w2.

(** The world in which [poll] goes on after one answer of the metadata
    client, with the events [evs] recorded. *)
Definition answered (w : World) (evs : list Event) : World :=
  mkWorld (fs w) (S (requests w)) (trace w ++ evs) (stdout w).

(** The world in which [poll] starts to rebuild the context, having been
    answered a version [v] that is not the one of [r]. *)
Definition changed (r : runner.t) (v : string) (w : World) : World :=
  answered w
    [Log DebugLvl "Checking for metadata change"; Call GetVersion;
     Log DebugLvl ("Old version: " +:+ runner.Version r
                   +:+ ", New Version: " +:+ v)].

(** The world [poll] leaves when the version it is answered is the one
    of the runner. *)
Definition unchanged (w : World) : World :=
  answered w
    [Log DebugLvl "Checking for metadata change"; Call GetVersion;
     Log DebugLvl "No changes in Metadata"].

(** The last line of a cycle that processed every template. *)
Definition allProcessed (oneTime : bool) : Event :=
  if oneTime then Log InfoLvl "All templates processed. Exiting."
  else Log InfoLvl
         "All templates processed. Waiting for changes in Metadata...".

(** *** Label selectors *)

(** [s] has no byte [b]. *)
Fixpoint lacks (b : ascii) (s : string) : bool :=
  match s with
  | EmptyString => true
  | String c s' => negb (Ascii.eqb c b) && lacks b s'
  end.

(** Does a label map satisfy the selector [name], [value]? *)
Definition selects (name value : string) (labels : gmap string string) : bool :=
  match labels !! name with
  | Some x => String.eqb value "" || String.eqb x value
  | None => false
  end.

(** The test of [getLabelGroup] on one entry of a label map. *)
Definition entry_selected (name value : string) (kv : string * string) : bool :=
  String.eqb kv.1 name && (String.eqb value "" || String.eqb kv.2 value).

(** *** Command strings as sequences of text and tokens *)

(** Every byte of [s] is in the class of the token pattern. *)
Fixpoint in_class (s : string) : bool :=
  match s with
  | EmptyString => true
  | String c s' => Regexp.word_or_dot c && in_class s'
  end.

(** A token of the pattern, around the run [inner]. *)
Definition token (inner : string) : string := "{{" +:+ inner +:+ "}}".

Inductive Seg :=
| Lit (text : string)
| Tok (inner : string).

Fixpoint assemble (segs : list Seg) : string :=
  match segs with
  | [] => ""
  | Lit text :: rest => text +:+ assemble rest
  | Tok inner :: rest => token inner +:+ assemble rest
  end.

(** The tokens of a sequence, in order. *)
Fixpoint tokens (segs : list Seg) : list string :=
  match segs with
  | [] => []
  | Lit _ :: rest => tokens rest
  | Tok inner :: rest => inner :: tokens rest
  end.

(** The text between tokens has no opening brace, and what is inside a
    token is of the class of the pattern. *)
Definition plain (seg : Seg) : bool :=
  match seg with
  | Lit text => lacks "{" text
  | Tok inner => in_class inner
  end.

(** A token [inner] gives way to the text [new]. *)
Definition swap (inner new : string) (seg : Seg) : Seg :=
  match seg with
  | Tok j => if String.eqb j inner then Lit new else Tok j
  | Lit text => Lit text
  end.

(** What is inside a token, without one leading dot. *)
Definition keyOf (inner : string) : string :=
  match inner with
  | String c k => if Ascii.eqb c "." then k else inner
  | EmptyString => inner
  end.

(** [s] without its prefix [p]. *)
Fixpoint after (p s : string) : option string :=
  match p, s with
  | EmptyString, _ => Some s
  | String a p', String b s' => if Ascii.eqb a b then after p' s' else None
  | String _ _, EmptyString => None
  end.

(** The text of an attribute of a container: the value of a string
    attribute, the empty text for the two that are not strings. *)
Definition attribute (c : Container.t) (field : string) : option string :=
  if String.eqb field "Name" then Some (Container.Name c)
  else if String.eqb field "Address" then Some (Container.Address c)
  else if String.eqb field "Stack" then Some (Container.Stack c)
  else if String.eqb field "Service" then Some (Container.Service c)
  else if String.eqb field "Health" then Some (Container.Health c)
  else if String.eqb field "State" then Some (Container.State c)
  else if String.eqb field "Labels" then Some ""
  else if String.eqb field "Host" then Some ""
  else None.

(** The text a token is replaced with, if it is replaced: the value of the
    label for a key [Labels.<label>], the text of the attribute for the
    name of an attribute. *)
Definition resolve (c : Container.t) (inner : string) : option string :=
  let key := keyOf inner in
  match after "Labels." key with
  | Some label => Some (default "" (Container.Labels c !! label))
  | None => attribute c key
  end.

(** The key of a token names a label only by starting with "Labels.". *)
Definition labels_ok (inner : string) : bool :=
  implb (Strings.Contains (keyOf inner) "Labels.")
        (String.prefix "Labels." (keyOf inner)).

(** A well-formed command: plain text and tokens whose key names a label
    only by its prefix. *)
Definition well_formed (seg : Seg) : bool :=
  plain seg && match seg with Tok inner => labels_ok inner | Lit _ => true end.

(** No attribute or label value of the container has an opening brace. *)
Definition clean (c : Container.t) : Prop :=
  lacks "{" (Container.Name c) = true
  /\ lacks "{" (Container.Address c) = true
  /\ lacks "{" (Container.Stack c) = true
  /\ lacks "{" (Container.Service c) = true
  /\ lacks "{" (Container.Health c) = true
  /\ lacks "{" (Container.State c) = true
  /\ map_Forall (fun _ v => lacks "{" v = true) (Container.Labels c).

(** A token gives way to what it stands for; one that stands for nothing
    stays. *)
Definition expand (c : Container.t) (seg : Seg) : Seg :=
  match seg with
  | Tok inner =>
      match resolve c inner with
      | Some v => Lit v
      | None => Tok inner
      end
  | Lit text => Lit text
  end.

(** One round of the loop of [parseCmdTemplate], on the sequence. *)
Definition round (c : Container.t) (segs : list Seg) (inner : string) : list Seg :=
  match resolve c inner with
  | Some v => List.map (swap inner v) segs
  | None => segs
  end.

(** A token gives way if it is among [inners]. *)
Definition expand_in (c : Container.t) (inners : list string) (seg : Seg) : Seg :=
  match seg with
  | Tok j => if existsb (String.eqb j) inners then expand c seg else seg
  | Lit _ => seg
  end.

(** *** The command phase, as the spec words it *)

(** The command of a slot: the command substituted for the container
    when that is not the empty string, the template's own otherwise. *)
Definition slot_command (own substituted : string) : string :=
  if String.eqb substituted "" then own else substituted.

(** The command of the check slot before and after the staging token is
    replaced by [staging], and the command of the notify slot. *)
Definition raw_check (t : Template.t) (parsedCheck : string) : string :=
  slot_command (Template.CheckCmd t) parsedCheck.

Definition check_command (staging : string) (t : Template.t)
    (parsedCheck : string) : string :=
  Strings.ReplaceAll (raw_check t parsedCheck) "{{staging}}" staging.

Definition notify_command (t : Template.t) (parsedNotify : string) : string :=
  slot_command (Template.NotifyCmd t) parsedNotify.

(** The check slot is empty, or its command succeeds on the files [f]. *)
Definition check_passes (sys : Sys) (staging : string) (t : Template.t)
    (parsedCheck : string) (f : gmap string File) : bool :=
  String.eqb (raw_check t parsedCheck) ""
  || bool_decide ((shell sys (check_command staging t parsedCheck) f).1.1
                  = None).

(** The notify slot is not empty and the check lets it run. *)
Definition notify_runs (sys : Sys) (staging : string) (t : Template.t)
    (parsedCheck parsedNotify : string) (f : gmap string File) : bool :=
  negb (String.eqb (notify_command t parsedNotify) "")
  && check_passes sys staging t parsedCheck f.

(** The files the check leaves. *)
Definition after_check (sys : Sys) (staging : string) (t : Template.t)
    (parsedCheck : string) (f : gmap string File) : gmap string File :=
  if String.eqb (raw_check t parsedCheck) "" then f
  else (shell sys (check_command staging t parsedCheck) f).2.

(** The commands one check/notify pair executes on the files [f]: the
    check when its slot is not empty, then the notify when it runs. *)
Definition pair_execs (sys : Sys) (staging : string) (t : Template.t)
    (parsedCheck parsedNotify : string) (f : gmap string File)
    : list Event :=
  (if String.eqb (raw_check t parsedCheck) "" then []
   else [Exec CheckSlot (check_command staging t parsedCheck)])
  ++ (if notify_runs sys staging t parsedCheck parsedNotify f
      then [Exec NotifySlot (notify_command t parsedNotify)] else []).

(** The files one pair leaves. *)
Definition after_pair (sys : Sys) (staging : string) (t : Template.t)
    (parsedCheck parsedNotify : string) (f : gmap string File)
    : gmap string File :=
  if notify_runs sys staging t parsedCheck parsedNotify f
  then (shell sys (notify_command t parsedNotify)
              (after_check sys staging t parsedCheck f)).2
  else after_check sys staging t parsedCheck f.

(** The error one pair returns: that of the check when it fails, that of
    the notify when it runs and fails. *)
Definition pair_error (sys : Sys) (staging : string) (t : Template.t)
    (parsedCheck parsedNotify : string) (f : gmap string File) : error :=
  if check_passes sys staging t parsedCheck f
  then
    if notify_runs sys staging t parsedCheck parsedNotify f
    then match (shell sys (notify_command t parsedNotify)
                      (after_check sys staging t parsedCheck f)).1.1 with
         | Some e => Some (Errorf ("Notify command failed: " +:+ Error e))
         | None => None
         end
    else None
  else match (shell sys (check_command staging t parsedCheck) f).1.1 with
       | Some e => Some (Errorf ("Check command failed: " +:+ Error e))
       | None => None
       end.

(** The commands a fan-out over [cs] executes when it starts on the files
    [f]: the pair of each container, in the order of the list, each on
    the files the pair before it left and whatever that pair returned. *)
Fixpoint fanout_execs (sys : Sys) (staging : string) (t : Template.t)
    (cs : list Container.t) (f : gmap string File) : list Event :=
  match cs with
  | [] => []
  | c :: rest =>
      pair_execs sys staging t (parsedCheckOf t c) (parsedNotifyOf t c) f
      ++ fanout_execs sys staging t rest
           (after_pair sys staging t (parsedCheckOf t c) (parsedNotifyOf t c) f)
  end.

(** The files a fan-out leaves. *)
Fixpoint after_fanout (sys : Sys) (staging : string) (t : Template.t)
    (cs : list Container.t) (f : gmap string File) : gmap string File :=
  match cs with
  | [] => f
  | c :: rest =>
      after_fanout sys staging t rest
        (after_pair sys staging t (parsedCheckOf t c) (parsedNotifyOf t c) f)
  end.

(** *** Label selectors, as the spec words them *)

(** The [i]-th colon-separated field of a selector, the empty string
    when there is none. *)
Definition selector_field (i : nat) (label : string) : string :=
  List.nth i (Strings.Split label ":") "".

(** A label map carries the label [name]: with any value when [value] is
    the empty string, with exactly the value [value] otherwise. *)
Definition carries (name value : string) (labels : gmap string string)
    : bool :=
  if String.eqb value "" then bool_decide (is_Some (labels !! name))
  else bool_decide (labels !! name = Some value).

(** The containers of a snapshot that a selector selects, in the order of
    the snapshot: the first field of the selector is the name of the
    label and the second its value, what follows is ignored. *)
Definition label_group (label : string) (ctx : TemplateContext.t)
    : list Container.t :=
  List.filter
    (fun c => carries (selector_field 0 label) (selector_field 1 label)
                      (Container.Labels c))
    (TemplateContext.Containers ctx).

(** *** Service ports *)

(** The elements of [l] with [sep] between them (what [strings.Join]
    gives for a one-byte separator). *)
Fixpoint join (sep : ascii) (l : list string) : string :=
  match l with
  | [] => ""
  | [x] => x
  | x :: r => x +:+ String sep (join sep r)
  end.

(** The string a service port is written as. *)
Definition portString (p : ServicePort.t) : string :=
  ServicePort.PublicPort p +:+ ":" +:+ ServicePort.InternalPort p
  +:+ "/" +:+ ServicePort.Protocol p.

(** The fields of [p] are free of the separators of a port string: no
    colon in any of them, no slash in the internal port and the
    protocol. *)
Definition port_fields (p : ServicePort.t) : bool :=
  lacks ":" (ServicePort.PublicPort p)
  && lacks ":" (ServicePort.InternalPort p)
  && lacks "/" (ServicePort.InternalPort p)
  && lacks ":" (ServicePort.Protocol p)
  && lacks "/" (ServicePort.Protocol p).

(** *** The fetches of a context build *)

(** The four fetches of a context build, in the order of the calls. *)
Definition fetches : list Event :=
  [Call GetServices; Call GetContainers; Call GetHosts; Call GetSelfContainer].

Definition error_of {A} (r : res A) : option GoError :=
  match r with
  | Ok _ => None
  | Fail e => Some e
  end.

(** The error of the [i]-th fetch of a context build when it is the
    [n]-th call the metadata client answers. *)
Definition fetch_error (sys : Sys) (i n : nat) : option GoError :=
  match i with
  | 0 => error_of (services sys n)
  | 1 => error_of (containers sys n)
  | 2 => error_of (hosts sys n)
  | _ => error_of (self sys n)
  end.

(** *** Files *)

(** The staging file of a destination: the rendered bytes, with the mode
    and owner of the destination when it exists and those of a new
    temporary file otherwise. *)
Definition staged (bytes : string) (dest : option File) : File :=
  match dest with
  | Some d => mkFile bytes (mode d) (uid d) (gid d) true
  | None => mkFile bytes 384 0 0 true
  end.

(** The name [ioutil.TempFile] picks for the staging file of [destFile]. *)
Definition stagingName (sys : Sys) (destFile : string)
    (f : gmap string File) : string :=
  temp_name sys (filepath_Dir sys destFile)
            ("." +:+ filepath_Base sys destFile +:+ "-") f.

(** No file operation is made to fail. *)
Definition quiet (sys : Sys) : Prop := forall e, fault sys e = None.

Definition is_rename (e : Event) : bool :=
  match e with Rename _ _ => true | _ => false end.

(** No file operation other than a rename is made to fail. *)
Definition steady (sys : Sys) : Prop :=
  forall e, is_rename e = false -> fault sys e = None.

(** The shell commands leave the files alone. *)
Definition inert (sys : Sys) : Prop :=
  forall command f, (shell sys command f).2 = f.

(** [strings.Contains(err.Error(), "device or resource busy")]. *)
Definition busy (err : GoError) : bool :=
  Strings.Contains (Error err) "device or resource busy".

(** The destination does not hold [bytes] yet: it is missing, or readable
    with another digest. (The digest of [bytes] is not the empty string,
    which is what stands for the digest of a missing file.) *)
Definition outdated (sys : Sys) (bytes : string) (dest : option File) : Prop :=
  md5hex sys bytes <> ""
  /\ match dest with
     | Some d => readable d = true
                 /\ md5hex sys (content d) <> md5hex sys bytes
     | None => True
     end.

(** *** Outcomes *)

(** [m] always returns: it never ends the process. *)
Definition finishes {A} (m : M A) : Prop :=
  forall w, exists a w', m w = (Done a, w').

(** When [m] ends the process, the exit status is [n]. *)
Definition exit_status (n : nat) {A} (m : M A) : Prop :=
  forall w c w', m w = (Exited c, w') -> c = n.

(** When [m] returns, its result satisfies [P]. *)
Definition yields {A} (P : A -> Prop) (m : M A) : Prop :=
  forall w a w', m w = (Done a, w') -> P a.

(** Whatever its outcome, [m] leaves the file at [path] as it is (there
    or not there). *)
Definition spares (path : string) {A} (m : M A) : Prop :=
  forall w o w', m w = (o, w') -> fs w' !! path = fs w !! path.

(** An event that is not the execution of a command. *)
Definition no_command (e : Event) : bool := negb (is_exec e).

(** The events of a trace that are not log lines. *)
Definition actions (evs : list Event) : list Event :=
  List.filter (fun e => negb (is_log e)) evs.

(** *** Further environments and templates *)

Module Cases.

(** The environment of [Demo] with file operations that fail. *)
Definition failing (fault_ : Event -> option GoError) : Sys :=
  mkSys (version Demo.sys) (services Demo.sys) (containers Demo.sys)
        (hosts Demo.sys) (self Demo.sys) Demo.md5hex Demo.engine Demo.shell
        (filepath_Dir Demo.sys) (filepath_Base Demo.sys)
        (temp_name Demo.sys) fault_.

(** Staging directory and destination on different mounts. *)
Definition busyRename : Sys :=
  failing (fun e => match e with
                    | Rename _ _ =>
                        Some (Errorf "rename: device or resource busy")
                    | _ => None
                    end).

Definition deniedRename : Sys :=
  failing (fun e => match e with
                    | Rename _ _ => Some (Errorf "rename: permission denied")
                    | _ => None
                    end).

Definition fullDisk : Sys :=
  failing (fun e => match e with
                    | FileWrite _ _ =>
                        Some (Errorf "write: no space left on device")
                    | _ => None
                    end).

Definition web : metadata.Service.t :=
  metadata.Service.mk "app" "web" "service" "10.1.0.1" "app.web" ∅ ∅
                      ["80:8080/tcp"; "9000"; "53:53/udp"].

(** A template whose destination holds something else. *)
Definition staleT : Template.t :=
  Demo.tmpl "app.tmpl" "old.conf" "chk {{staging}}" "ntf" "".

(** A template whose source does not exist. *)
Definition missingT : Template.t :=
  Demo.tmpl "nope.tmpl" "app.conf" "chk" "ntf" "".

(** A check command that is a label of the container, fanned out over
    containers that do not carry the label. *)
Definition probeT : Template.t :=
  Demo.tmpl "" "" "{{Labels.probe}}" "" "role:leader".

Definition l1 : Container.t :=
  buildContainer [buildHost Demo.host1] (Demo.leader "l1").




(** A runner in interval mode whose interval is zero. *)
Definition idle : runner.t :=
  runner.mk (Config.mk "latest" 0 false [Demo.commandsT]) "init".

End Cases.

(** * Facts *)

Local Open Scope go_scope.

Section Facts.
Variable sys : Sys.

(** ** Worlds and runs *)

Lemma advance_nil w : advance w (fs w) [] = w.
Proof. destruct w; unfold advance; simpl. by rewrite app_nil_r. Qed.

Lemma advance_advance w f evs g evs' :
  advance (advance w f evs) g evs' = advance w g (evs ++ evs').
Proof. unfold advance; simpl. by rewrite app_assoc. Qed.

Lemma news_advance w f evs : news w (advance w f evs) = evs.
Proof. unfold news, advance; simpl. by rewrite drop_app_length. Qed.

Lemma log_run lvl msg w : log lvl msg w = (Done tt, advance w (fs w) [Log lvl msg]).
Proof. reflexivity. Qed.

Lemma emit_run e w : emit e w = (Done tt, advance w (fs w) [e]).
Proof. reflexivity. Qed.

Lemma bind_run {A B} (m : M A) (k : A -> M B) w a w' :
  m w = (Done a, w') -> bind m k w = k a w'.
Proof. unfold bind. by intros ->. Qed.

Lemma bind_exit {A B} (m : M A) (k : A -> M B) w c w' :
  m w = (Exited c, w') -> bind m k w = (Exited c, w').
Proof. unfold bind. by intros ->. Qed.

(** ** Shell commands *)

Lemma logLines_run command lines w :
  exists logs, logLines command lines w = (Done tt, advance w (fs w) logs)
               /\ forallb is_log logs = true.
Proof.
  revert w. induction lines as [|line rest IH]; intros w; simpl.
  - exists []. by rewrite advance_nil.
  - destruct (String.eqb line "").
    + unfold bind at 1, ret. destruct (IH w) as (logs & -> & Hl). by exists logs.
    + unfold bind at 1. rewrite log_run.
      destruct (IH (advance w (fs w) [Log InfoLvl ("[" +:+ command +:+ "]: " +:+ line)])) as (logs & -> & Hl).
      eexists (_ :: logs). rewrite advance_advance. simpl. split; [reflexivity|done].
Qed.

Lemma logCmdOutput_run command out w :
  exists logs, logCmdOutput command out w = (Done tt, advance w (fs w) logs)
               /\ forallb is_log logs = true.
Proof. apply logLines_run. Qed.

Lemma check_run command w :
  exists logs,
    check sys command w
    = (Done (shell sys command (fs w)).1.1,
       advance w (shell sys command (fs w)).2
               (Log DebugLvl ("Running check command '" +:+ command +:+ "'")
                :: Exec CheckSlot command :: logs))
    /\ forallb is_log logs = true.
Proof.
  unfold check, CombinedOutput, bind, log, emit, get_fs, set_fs. simpl.
  destruct (shell sys command (fs w)) as [[err out] f'] eqn:Hsh. simpl.
  destruct err as [e|].
  - match goal with |- context [logCmdOutput command out ?w0] =>
      destruct (logCmdOutput_run command out w0) as (logs & -> & Hl) end.
    exists (Log PrintLvl "Check failed, skipping notify-cmd" :: logs). split; [|done].
    unfold advance; simpl. rewrite <- !app_assoc. reflexivity.
  - exists []. split; [|done]. unfold advance; simpl. by rewrite <- !app_assoc.
Qed.

Lemma notify_run command verbose w :
  exists logs,
    notify sys command verbose w
    = (Done (shell sys command (fs w)).1.1,
       advance w (shell sys command (fs w)).2
               (Log InfoLvl ("Executing notify command '" +:+ command +:+ "'")
                :: Exec NotifySlot command :: logs))
    /\ forallb is_log logs = true.
Proof.
  unfold notify, CombinedOutput, bind, log, emit, get_fs, set_fs. simpl.
  destruct (shell sys command (fs w)) as [[err out] f'] eqn:Hsh. simpl.
  destruct err as [e|].
  - match goal with |- context [logCmdOutput command out ?w0] =>
      destruct (logCmdOutput_run command out w0) as (logs & -> & Hl) end.
    exists logs. split; [|done].
    unfold advance; simpl. rewrite <- !app_assoc. reflexivity.
  - destruct verbose.
    + match goal with |- context [logCmdOutput command out ?w0] =>
        destruct (logCmdOutput_run command out w0) as (logs & -> & Hl) end.
      exists (logs ++ [Log DebugLvl ("Notify cmd output: " +:+ out)]). split.
      * unfold advance; simpl. rewrite <- !app_assoc. reflexivity.
      * rewrite forallb_app, Hl. simpl. reflexivity.
    + exists [Log DebugLvl ("Notify cmd output: " +:+ out)]. split; [|done].
      unfold advance; simpl. by rewrite <- !app_assoc.
Qed.

(** A filter that rejects every log line keeps nothing of log lines. *)
Lemma filter_logs (P : Event -> bool) logs :
  (forall e, is_log e = true -> P e = false) ->
  forallb is_log logs = true -> List.filter P logs = [].
Proof.
  intros HP. induction logs as [|e logs IH]; simpl; [done|].
  intros [He Hl]%andb_true_iff. rewrite (HP e He). auto.
Qed.

Lemma log_not_exec e : is_log e = true -> is_exec e = false.
Proof. by destruct e. Qed.

Lemma runCheckNotify_run t pc pn w :
  exists err f' evs,
    runCheckNotify sys t pc pn w = (Done err, advance w f' evs)
    /\ List.filter is_exec evs
       = (if String.eqb (checkCmdOf t pc) "" then []
          else [Exec CheckSlot (checkCommandOf t pc)])
         ++ (if negb (String.eqb (notifyCmdOf t pn) "")
                && (String.eqb (checkCmdOf t pc) ""
                    || bool_decide ((shell sys (checkCommandOf t pc) (fs w)).1.1 = None))
             then [Exec NotifySlot (notifyCmdOf t pn)] else [])
    /\ (String.eqb (checkCmdOf t pc) "" = true ->
        String.eqb (notifyCmdOf t pn) "" = true -> f' = fs w /\ evs = []).
Proof.
  unfold runCheckNotify, checkCommandOf.
  set (chk := checkCmdOf t pc). set (ntf := notifyCmdOf t pn).
  set (command := Strings.ReplaceAll chk "{{staging}}" (Template.Staging t)).
  destruct (String.eqb chk "") eqn:Hc; simpl.
  - unfold bind at 1, ret at 1. destruct (String.eqb ntf "") eqn:Hn; simpl.
    + exists None, (fs w), []. rewrite advance_nil. done.
    + unfold bind.
      destruct (notify_run ntf (Template.NotifyOutput t) w) as (logs & -> & Hl).
      exists (match (shell sys ntf (fs w)).1.1 with
              | Some err => Some (Errorf ("Notify command failed: " +:+ Error err))
              | None => None end), (shell sys ntf (fs w)).2. eexists.
      split; [destruct (shell sys ntf (fs w)).1.1; reflexivity|].
      split; [|done]. simpl. by rewrite (filter_logs _ _ log_not_exec Hl).
  - unfold bind at 1.
    destruct (check_run command w) as (logs & -> & Hl).
    destruct ((shell sys command (fs w)).1.1) as [e|] eqn:Hsh.
    + eexists _, _, _. split; [reflexivity|]. split; [|done].
      simpl. rewrite (filter_logs _ _ log_not_exec Hl).
      by rewrite andb_false_r.
    + destruct (String.eqb ntf "") eqn:Hn; simpl.
      * unfold bind, ret. eexists _, _, _. split; [reflexivity|]. split; [|done].
        simpl. by rewrite (filter_logs _ _ log_not_exec Hl).
      * unfold bind.
        match goal with |- context [notify sys ntf ?v ?w0] =>
          destruct (notify_run ntf v w0) as (logs' & -> & Hl') end.
        match goal with |- context [shell sys ntf ?f0] => set (sh := shell sys ntf f0) end.
        exists (match sh.1.1 with
                | Some err => Some (Errorf ("Notify command failed: " +:+ Error err))
                | None => None end), sh.2. eexists.
        split; [destruct sh.1.1; rewrite advance_advance; reflexivity|].
        split; [|done]. simpl. rewrite List.filter_app. simpl.
        rewrite (filter_logs _ _ log_not_exec Hl), (filter_logs _ _ log_not_exec Hl').
        reflexivity.
Qed.

Lemma in_exec_filter slot c evs :
  In (Exec slot c) evs <-> In (Exec slot c) (List.filter is_exec evs).
Proof. rewrite List.filter_In. simpl. tauto. Qed.

(** ** Operations that always return *)

Lemma returns_ret P {A} (a : A) : returns P (ret a).
Proof. intros w. exists a, w, []. by rewrite app_nil_r. Qed.

Lemma returns_bind P {A B} (m : M A) (k : A -> M B) :
  returns P m -> (forall a, returns P (k a)) -> returns P (bind m k).
Proof.
  intros Hm Hk w. destruct (Hm w) as (a & w1 & e1 & Hr & Ht & Hp & Hs).
  destruct (Hk a w1) as (b & w2 & e2 & Hr2 & Ht2 & Hp2 & Hs2).
  exists b, w2, (e1 ++ e2). unfold bind. rewrite Hr, Hr2.
  rewrite Ht2, Ht, app_assoc, forallb_app, Hp, Hp2, Hs2, Hs. done.
Qed.

Lemma returns_emit (P : Event -> bool) e : P e = true -> returns P (emit e).
Proof. intros He w. exists tt, (advance w (fs w) [e]), [e]. simpl. by rewrite He. Qed.

Lemma returns_get_fs P : returns P get_fs.
Proof. intros w. exists (fs w), w, []. by rewrite app_nil_r. Qed.

Lemma returns_set_fs P f : returns P (set_fs f).
Proof. intros w. eexists tt, _, []. unfold set_fs. simpl. by rewrite app_nil_r. Qed.

Lemma returns_client_call (P : Event -> bool) {A} m (answer : nat -> res A) :
  P (Call m) = true -> returns P (client_call m answer).
Proof. intros He w. eexists _, _, [Call m]. unfold client_call. simpl. by rewrite He. Qed.

Lemma returns_fsop (P : Event -> bool) {A} e
    (run : gmap string File -> res A * gmap string File) :
  P e = true -> returns P (fsop sys e run).
Proof.
  intros He. unfold fsop. apply returns_bind; [by apply returns_emit|].
  intros _. destruct (fault sys e); [apply returns_ret|].
  apply returns_bind; [apply returns_get_fs|]. intros f.
  destruct (run f). apply returns_bind; [apply returns_set_fs|].
  intros _. apply returns_ret.
Qed.

Create HintDb returns discriminated.

Ltac returns_step :=
  first
    [ solve [trivial with returns]
    | apply returns_ret
    | apply returns_bind
    | apply returns_emit; reflexivity
    | apply returns_client_call; reflexivity
    | apply returns_fsop; reflexivity
    | apply returns_get_fs
    | apply returns_set_fs
    | progress intros
    | progress cbv beta zeta
    | match goal with
      | |- returns _ (if ?b then _ else _) => destruct b
      | |- returns _ (match ?x with _ => _ end) => destruct x
      | |- returns _ (let (_, _) := ?x in _) => destruct x
      end ].

Ltac returns_auto := repeat returns_step.

Lemma returns_weaken (P Q : Event -> bool) {A} (m : M A) :
  (forall e, P e = true -> Q e = true) -> returns P m -> returns Q m.
Proof.
  intros HPQ Hm w. destruct (Hm w) as (a & w' & evs & Hr & Ht & Hp & Hs).
  exists a, w', evs. split_and!; try done.
  rewrite forallb_forall in *. auto.
Qed.

Lemma returns_logLines command lines : returns from_commands (logLines command lines).
Proof. induction lines; simpl; unfold log; returns_auto; auto. Qed.
#[local] Hint Resolve returns_logLines : returns.

Lemma returns_check command : returns from_commands (check sys command).
Proof.
  unfold check, CombinedOutput, logCmdOutput, log. returns_auto.
Qed.
#[local] Hint Resolve returns_check : returns.

Lemma returns_notify command v : returns from_commands (notify sys command v).
Proof.
  unfold notify, CombinedOutput, logCmdOutput, log. returns_auto.
Qed.
#[local] Hint Resolve returns_notify : returns.

Lemma returns_runCheckNotify t pc pn :
  returns from_commands (runCheckNotify sys t pc pn).
Proof.
  unfold runCheckNotify. returns_auto.
Qed.
#[local] Hint Resolve returns_runCheckNotify : returns.

Lemma returns_fanout t cs : returns from_commands (fanout sys t cs).
Proof.
  induction cs; simpl; unfold log; returns_auto; auto.
Qed.
#[local] Hint Resolve returns_fanout : returns.

Lemma returns_warnAll ws : returns from_metadata (warnAll ws).
Proof. induction ws; simpl; unfold log; returns_auto; auto. Qed.
#[local] Hint Resolve returns_warnAll : returns.

Lemma returns_createContext : returns from_metadata (createContext sys).
Proof. unfold createContext, log. returns_auto. Qed.
#[local] Hint Resolve returns_createContext : returns.

Lemma returns_scanLabels n v c ls acc :
  returns from_metadata (scanLabels n v c ls acc).
Proof. revert acc. induction ls as [|[l x] ls IH]; intros acc; simpl; unfold log; returns_auto; auto. Qed.
#[local] Hint Resolve returns_scanLabels : returns.

Lemma returns_scanContainers n v cs acc :
  returns from_metadata (scanContainers n v cs acc).
Proof.
  revert acc. induction cs as [|c cs IH]; intros acc; simpl; returns_auto; auto.
Qed.
#[local] Hint Resolve returns_scanContainers : returns.

Lemma returns_getLabelGroup_meta label : returns from_metadata (getLabelGroup sys label).
Proof.
  unfold getLabelGroup, log, time_Sleep. returns_auto.
Qed.
#[local] Hint Resolve returns_getLabelGroup_meta : returns.

Lemma returns_getLabelGroup label : returns from_commands (getLabelGroup sys label).
Proof.
  apply (returns_weaken from_metadata); [|apply returns_getLabelGroup_meta].
  by intros [].
Qed.
#[local] Hint Resolve returns_getLabelGroup : returns.

Lemma returns_commandPhase t : returns from_commands (commandPhase sys t).
Proof.
  unfold commandPhase. returns_auto.
Qed.
#[local] Hint Resolve returns_commandPhase : returns.

(** ** The fan-out over a label group *)

Lemma log_not_check e : is_log e = true -> is_check e = false.
Proof. by destruct e. Qed.

Lemma filter_check_exec evs :
  List.filter is_check evs = List.filter is_check (List.filter is_exec evs).
Proof.
  induction evs as [|e evs IH]; simpl; [done|].
  destruct e; simpl; try done. destruct slot; simpl; by rewrite IH.
Qed.

Lemma checkCmdOf_nonempty t pc :
  Template.CheckCmd t <> "" -> String.eqb (checkCmdOf t pc) "" = false.
Proof.
  intros Hne. unfold checkCmdOf. destruct (String.eqb pc "") eqn:E; simpl.
  - by apply String.eqb_neq.
  - exact E.
Qed.

Lemma check_shape_run t pc (b : bool) x :
  Forall (check_shape t)
    (List.filter is_check
       ((if String.eqb (checkCmdOf t pc) "" then []
         else [Exec CheckSlot (checkCommandOf t pc)])
        ++ (if b then [Exec NotifySlot x] else []))).
Proof.
  rewrite List.filter_app.
  replace (List.filter is_check (if b then [Exec NotifySlot x] else []))
    with (@nil Event) by (by destruct b).
  rewrite app_nil_r.
  destruct (String.eqb (checkCmdOf t pc) "") eqn:E; simpl; constructor; [|done].
  exists (checkCmdOf t pc). split; [by apply String.eqb_neq|done].
Qed.

Lemma fanout_run t cs w :
  exists f' evs,
    fanout sys t cs w = (Done tt, advance w f' evs)
    /\ Served sys t cs w (advance w f' evs)
    /\ (Template.CheckCmd t <> "" ->
        List.filter is_check evs
        = List.map (fun c => Exec CheckSlot (checkCommandOf t (parsedCheckOf t c))) cs)
    /\ Forall (check_shape t) (List.filter is_check evs).
Proof.
  revert w. induction cs as [|c cs IH]; intros w.
  - exists (fs w), []. rewrite advance_nil. simpl.
    split_and!; [done|constructor|done|constructor].
  - cbn [fanout]. unfold bind at 1. rewrite log_run.
    change (parseCmdTemplate c (Template.CheckCmd t)) with
      (parsedCheckOf t c, (None : error)).
    change (parseCmdTemplate c (Template.NotifyCmd t)) with
      (parsedNotifyOf t c, (None : error)).
    cbv beta iota. unfold bind at 1.
    set (w0 := advance w (fs w) [Log DebugLvl ("Parsing: " +:+ Container.Name c)]).
    destruct (runCheckNotify_run t (parsedCheckOf t c) (parsedNotifyOf t c) w0)
      as (err & f1 & e1 & Hrun & Hexec & _).
    rewrite Hrun.
    destruct (IH (advance w0 f1 e1)) as (f2 & e2 & Hfan & Hserved & Hchecks & Hshape).
    rewrite Hfan. unfold w0. rewrite !advance_advance.
    exists f2, ((Log DebugLvl ("Parsing: " +:+ Container.Name c) :: e1) ++ e2).
    split; [done|]. split; [|split].
    + econstructor; [exact Hrun|]. unfold w0 in *.
      rewrite !advance_advance in *. exact Hserved.
    + intros Hne. rewrite List.filter_app, (Hchecks Hne).
      cbn [List.filter is_check].
      rewrite (filter_check_exec e1), Hexec, (checkCmdOf_nonempty _ _ Hne).
      rewrite List.filter_app.
      assert (Hn : forall (b : bool) x,
                 List.filter is_check (if b then [Exec NotifySlot x] else []) = [])
        by (by intros []).
      rewrite Hn. reflexivity.
    + rewrite List.filter_app. cbn [List.filter is_check].
      apply Forall_app. split; [|exact Hshape].
      rewrite (filter_check_exec e1), Hexec. by apply check_shape_run.
Qed.

(** ** The command phase *)

Lemma news_app w w' evs : trace w' = trace w ++ evs -> news w w' = evs.
Proof. unfold news. intros ->. by rewrite drop_app_length. Qed.

Lemma filter_none (P Q : Event -> bool) evs :
  (forall e, P e = true -> Q e = false) ->
  forallb P evs = true -> List.filter Q evs = [].
Proof.
  intros HPQ. induction evs as [|e evs IH]; simpl; [done|].
  intros [He Hl]%andb_true_iff. rewrite (HPQ e He). auto.
Qed.

(** What the command phase leaves behind. *)
Lemma commandPhase_run t w :
  exists w' evs,
    commandPhase sys t w = (Done tt, w')
    /\ trace w' = trace w ++ evs
    /\ forallb from_commands evs = true
    /\ stdout w' = stdout w
    /\ Forall (check_shape t) (List.filter is_check evs)
    /\ (Template.NotifyLbl t = "" -> Template.CheckCmd t <> "" ->
        In (Exec CheckSlot (checkCommandOf t "")) evs).
Proof.
  unfold commandPhase. destruct (String.eqb (Template.NotifyLbl t) "") eqn:El.
  - destruct (returns_runCheckNotify t "" "" w) as (a & w' & evs & Hr & Ht & Hp & Hs).
    destruct (runCheckNotify_run t "" "" w) as (err & f' & evs' & Hr' & Hexec & _).
    assert (evs' = evs) as ->.
    { rewrite Hr in Hr'. injection Hr' as _ Hw. rewrite Hw in Ht.
      simpl in Ht. by apply app_inv_head in Ht. }
    exists w', evs. unfold bind, ret. rewrite Hr. split_and!; try done.
    + rewrite filter_check_exec, Hexec. apply check_shape_run.
    + intros _ Hne. apply in_exec_filter. rewrite Hexec.
      rewrite (checkCmdOf_nonempty _ _ Hne). by left.
  - destruct (returns_getLabelGroup_meta (Template.NotifyLbl t) w)
      as ([cs e] & w1 & evs1 & Hr & Ht & Hp & Hs).
    destruct (fanout_run t cs w1) as (f' & evs2 & Hf & _ & _ & Hshape).
    destruct (returns_fanout t cs w1) as (a & w2 & evs2' & Hf' & Ht2 & Hp2 & Hs2).
    assert (evs2' = evs2) as ->.
    { rewrite Hf in Hf'. injection Hf' as _ Hw. rewrite <- Hw in Ht2.
      simpl in Ht2. by apply app_inv_head in Ht2. }
    exists w2, (evs1 ++ evs2). unfold bind. rewrite Hr. simpl. rewrite Hf'.
    destruct a. split_and!; try done.
    + by rewrite Ht2, Ht, app_assoc.
    + rewrite forallb_app, Hp2, andb_true_r.
      rewrite forallb_forall in *. intros e0 He0. specialize (Hp e0 He0). by destruct e0.
    + congruence.
    + rewrite List.filter_app, (filter_none from_metadata is_check evs1); [done| |done].
      by intros [].
    + intros Hl. apply String.eqb_neq in El. done.
Qed.

(** Processing a template that lacks a source or a destination is its
    command phase. *)
Lemma processTemplate_skips_template ctx t w w' :
  Template.Source t = "" \/ Template.Dest t = "" ->
  commandPhase sys t (advance w (fs w) [noTemplate]) = (Done tt, w') ->
  processTemplate sys ctx t w = (Done None, w').
Proof.
  intros Hempty Hrun.
  assert (Hguard : negb (String.eqb (Template.Source t) "")
                   && negb (String.eqb (Template.Dest t) "") = false).
  { destruct Hempty as [-> | ->]; rewrite String.eqb_refl; simpl;
      [done | by rewrite andb_false_r]. }
  unfold processTemplate. rewrite Hguard.
  unfold bind at 1. unfold bind at 1. rewrite log_run.
  unfold ret at 1. unfold bind at 1. fold noTemplate. rewrite Hrun.
  reflexivity.
Qed.

(** ** Rendering and comparing *)

Lemma reads_ret P {A} (a : A) : reads P (ret a).
Proof.
  intros w o w' [= <- <-]. split_and!; try done. exists []. by rewrite app_nil_r.
Qed.

Lemma reads_bind P {A B} (m : M A) (k : A -> M B) :
  reads P m -> (forall a, reads P (k a)) -> reads P (bind m k).
Proof.
  intros Hm Hk w o w'. unfold bind. destruct (m w) as [[a|c] w1] eqn:E.
  - intros Hka. destruct (Hm _ _ _ E) as (Hf & Hs & e1 & Ht & Hp).
    destruct (Hk a _ _ _ Hka) as (Hf2 & Hs2 & e2 & Ht2 & Hp2).
    split_and!; [congruence..|]. exists (e1 ++ e2).
    by rewrite Ht2, Ht, app_assoc, forallb_app, Hp, Hp2.
  - intros [= <- <-]. destruct (Hm _ _ _ E) as (Hf & Hs & e1 & Ht & Hp).
    split_and!; try done. by exists e1.
Qed.

Lemma reads_emit (P : Event -> bool) e : P e = true -> reads P (emit e).
Proof.
  intros He w o w' [= <- <-]. simpl. split_and!; try done. exists [e].
  simpl. by rewrite He.
Qed.

Lemma reads_Fatalf (P : Event -> bool) {A} msg :
  P (Log FatalLvl msg) = true -> P (Exit 1) = true -> reads P (@Fatalf A msg).
Proof.
  intros H1 H2 w o w' [= <- <-]. simpl. split_and!; try done.
  eexists. split; [reflexivity|]. simpl. by rewrite H1, H2.
Qed.

Lemma reads_fsop (P : Event -> bool) {A} e
    (run : gmap string File -> res A * gmap string File) :
  P e = true -> (forall f, (run f).2 = f) -> reads P (fsop sys e run).
Proof.
  intros He Hro. unfold fsop. apply reads_bind; [by apply reads_emit|].
  intros _. destruct (fault sys e); [apply reads_ret|].
  intros w o w'. unfold bind, get_fs, set_fs, ret.
  specialize (Hro (fs w)). destruct (run (fs w)) as [r f']. simpl in Hro.
  intros [= <- <-]. simpl. split_and!; try done. exists []. by rewrite app_nil_r.
Qed.

Lemma renderTemplate_reads ctx t : reads from_rendering (renderTemplate sys ctx t).
Proof.
  unfold renderTemplate, os_Stat, ioutil_ReadFile, log.
  repeat first
    [ apply reads_ret
    | apply reads_fsop; [reflexivity | intros f; try destruct (f !! _); reflexivity]
    | apply reads_bind
    | apply reads_emit; reflexivity
    | apply reads_Fatalf; reflexivity
    | progress intros
    | progress cbv beta zeta
    | match goal with
      | |- reads _ (if ?b then _ else _) => destruct b
      | |- reads _ (match ?x with _ => _ end) => destruct x
      end ].
Qed.

(** The comparison of [bytes] with a destination that holds a file of
    the same digest. *)
Lemma sameContent_equal bytes dest w f :
  fs w !! dest = Some f -> readable f = true ->
  fault sys (Stat dest) = None ->
  fault sys (OpenFile dest) = None ->
  fault sys (CopyToHash dest) = None ->
  md5hex sys (content f) = md5hex sys bytes ->
  sameContent sys bytes dest w
  = (Done (true, None),
     advance w (fs w)
       [Stat dest; OpenFile dest; CopyToHash dest; Close dest; Md5 bytes;
        Log DebugLvl ("Checksum content: " +:+ md5hex sys bytes
                      +:+ ", checksum file: " +:+ md5hex sys bytes)]).
Proof.
  intros Hf Hr H1 H2 H3 Hmd.
  unfold sameContent, computeFileMd5, os_Stat, os_Open, io_Copy_hash,
    fp_Close, read_of, fsop, log, emit, get_fs, set_fs, bind, ret. simpl.
  rewrite H1. simpl. rewrite Hf. simpl. rewrite H2. simpl. rewrite Hf, Hr. simpl.
  rewrite H3. simpl.
  destruct (fault sys (Close dest)); simpl; rewrite Hmd, String.eqb_refl;
    unfold advance; simpl; rewrite <- !app_assoc; reflexivity.
Qed.

(** C1: when a template with a source and a destination renders to bytes
    whose digest is that of the file at the destination, processing it
    returns without an error, the files and the standard output are what
    they were, and nothing it did created a staging file, wrote a file or
    ran a check or notify command. *)
Theorem C1_equal_digest_is_noop ctx t w bytes w1 f :
  Template.Source t <> "" -> Template.Dest t <> "" ->
  renderTemplate sys ctx t w = (Done bytes, w1) ->
  fs w1 !! Template.Dest t = Some f -> readable f = true ->
  fault sys (Stat (Template.Dest t)) = None ->
  fault sys (OpenFile (Template.Dest t)) = None ->
  fault sys (CopyToHash (Template.Dest t)) = None ->
  md5hex sys (content f) = md5hex sys bytes ->
  exists w2,
    processTemplate sys ctx t w = (Done None, w2)
    /\ fs w2 = fs w /\ stdout w2 = stdout w
    /\ forall e, In e (news w w2) ->
         is_staging e = false /\ is_file_write e = false
         /\ is_exec e = false /\ is_stdout e = false.
Proof.
  intros Hsrc Hdst Hrender Hf Hr H1 H2 H3 Hmd.
  destruct (renderTemplate_reads ctx t _ _ _ Hrender) as (Hfs & Hout & e1 & Ht & Hp).
  apply String.eqb_neq in Hsrc, Hdst.
  unfold processTemplate, renderBlock. rewrite Hsrc, Hdst. simpl.
  unfold bind at 1. unfold bind at 1. rewrite Hrender.
  unfold writeBlock. rewrite Hdst.
  unfold bind at 1. rewrite log_run.
  unfold bind at 1.
  rewrite (sameContent_equal bytes (Template.Dest t) _ f); try done.
  unfold bind at 1. rewrite log_run. unfold ret. rewrite !advance_advance.
  eexists. split; [reflexivity|]. simpl. split; [done|]. split; [done|].
  intros e He.
  assert (Hobs : observing e = true); [|destruct e; try done].
  revert e He. apply forallb_forall.
  unfold news. simpl. rewrite Ht, <- app_assoc, drop_app_length, forallb_app.
  apply andb_true_iff. split; [|reflexivity].
  rewrite forallb_forall in *. intros e He. specialize (Hp e He). by destruct e.
Qed.

(** ** The poll cycle *)

Lemma processTemplates_all ctx ts w w' :
  Processed sys ctx ts w w' -> processTemplates sys ctx ts w = (Done None, w').
Proof.
  induction 1 as [w|t ts w w1 w2 Ht _ IH]; [done|].
  simpl. unfold bind. by rewrite Ht.
Qed.

Lemma processTemplates_stops ctx pre t post w w1 e w2 :
  Processed sys ctx pre w w1 ->
  processTemplate sys ctx t w1 = (Done (Some e), w2) ->
  processTemplates sys ctx (pre ++ t :: post) w = (Done (Some e), w2).
Proof.
  intros Hpre Ht. induction Hpre as [w|t0 ts w w0 w1 Ht0 _ IH]; simpl.
  - unfold bind. by rewrite Ht.
  - unfold bind at 1. rewrite Ht0. by apply IH.
Qed.

Lemma poll_unchanged r w v :
  version sys (requests w) = Ok v -> runner.Version r = v ->
  poll sys r w = (Done (None, r), unchanged w).
Proof.
  intros Hv <-. unfold poll, client_call, log, emit, bind, ret. simpl.
  rewrite Hv, String.eqb_refl. simpl.
  unfold unchanged, answered. by rewrite <- !app_assoc.
Qed.

Lemma poll_changed r w v :
  version sys (requests w) = Ok v -> runner.Version r <> v ->
  poll sys r w = rebuild sys (runner.mk (runner.Config r) v) (changed r v w).
Proof.
  intros Hv Hne%String.eqb_neq.
  unfold poll, client_call, log, bind at 1 2, emit. simpl.
  rewrite Hv, Hne. unfold bind at 1. simpl.
  unfold changed, answered. by rewrite <- !app_assoc.
Qed.

Lemma rebuild_failed r' w err w0 :
  createContext sys w = (Done (Fail err), w0) ->
  rebuild sys r' w
  = (Done (Some (Errorf ("Failed to create context from Rancher Metadata: "
                         +:+ Error err)), r'),
     advance w0 (fs w0) [Sleep 2]).
Proof. intros Hc. unfold rebuild, bind. by rewrite Hc. Qed.

Lemma rebuild_all r' w ctx w0 w1 :
  createContext sys w = (Done (Ok ctx), w0) ->
  Processed sys ctx (Config.Templates (runner.Config r')) w0 w1 ->
  rebuild sys r' w
  = (Done (None, r'),
     advance w1 (fs w1) [allProcessed (Config.OneTime (runner.Config r'))]).
Proof.
  intros Hc Hp. unfold rebuild, bind. rewrite Hc.
  rewrite (processTemplates_all _ _ _ _ Hp). unfold allProcessed.
  by destruct (Config.OneTime (runner.Config r')).
Qed.

Lemma rebuild_stops r' w ctx w0 pre t post w1 e w2 :
  createContext sys w = (Done (Ok ctx), w0) ->
  Config.Templates (runner.Config r') = pre ++ t :: post ->
  Processed sys ctx pre w0 w1 ->
  processTemplate sys ctx t w1 = (Done (Some e), w2) ->
  rebuild sys r' w = (Done (Some e, r'), w2).
Proof.
  intros Hc Hts Hp Ht. unfold rebuild, bind. rewrite Hc, Hts.
  by rewrite (processTemplates_stops _ _ _ _ _ _ _ _ Hp Ht).
Qed.

Lemma interval_once r w err r' w' :
  poll sys r w = (Done (err, r'), w') ->
  interval sys r [] w
  = (Done (Waiting r'),
     match err with
     | Some e => advance w' (fs w') [Log ErrorLvl (Error e)]
     | None => w'
     end).
Proof.
  intros Hp. simpl. unfold bind at 1. rewrite Hp.
  destruct err as [e|]; reflexivity.
Qed.

(** C3 (as the code has it): when a configured template returns an error,
    the templates before it having been processed, the cycle ends there:
    [poll] returns that error and leaves the world as the failing template
    left it, so that no later template is processed in the cycle; the
    interval loop then logs the error and waits for the next tick. *)
Theorem C3_cycle_stops_at_failing_template
    r w v ctx w0 pre t post w1 e w2 :
  version sys (requests w) = Ok v -> runner.Version r <> v ->
  createContext sys (changed r v w) = (Done (Ok ctx), w0) ->
  Config.Templates (runner.Config r) = pre ++ t :: post ->
  Processed sys ctx pre w0 w1 ->
  processTemplate sys ctx t w1 = (Done (Some e), w2) ->
  poll sys r w = (Done (Some e, runner.mk (runner.Config r) v), w2)
  /\ interval sys r [] w
     = (Done (Waiting (runner.mk (runner.Config r) v)),
        advance w2 (fs w2) [Log ErrorLvl (Error e)]).
Proof.
  intros Hv Hne Hc Hts Hpre Ht.
  assert (Hpoll : poll sys r w
                  = (Done (Some e, runner.mk (runner.Config r) v), w2)).
  { rewrite (poll_changed _ _ _ Hv Hne).
    by apply (rebuild_stops _ _ ctx w0 pre t post w1). }
  split; [exact Hpoll|]. by rewrite (interval_once _ _ _ _ _ Hpoll).
Qed.

(** C2 (what the code does): a cycle whose context build fails has
    already recorded the new version; it sleeps two seconds and returns
    the error. The next cycle, when it is answered the same version, ends
    at the version check: it neither rebuilds the context nor processes a
    template. *)
Theorem C2_failed_build_is_not_retried r w v err w0 :
  version sys (requests w) = Ok v -> runner.Version r <> v ->
  createContext sys (changed r v w) = (Done (Fail err), w0) ->
  let r' := runner.mk (runner.Config r) v in
  let w1 := advance w0 (fs w0) [Sleep 2] in
  poll sys r w
  = (Done (Some (Errorf ("Failed to create context from Rancher Metadata: "
                         +:+ Error err)), r'), w1)
  /\ (version sys (requests w1) = Ok v ->
      poll sys r' w1 = (Done (None, r'), unchanged w1)).
Proof.
  intros Hv Hne Hc r' w1. split.
  - rewrite (poll_changed _ _ _ Hv Hne). by apply rebuild_failed.
  - intros Hv'. by apply (poll_unchanged r' w1 v).
Qed.

(** ** The standard output *)

Lemma emits_ret P {A} (a : A) : emits P (ret a).
Proof.
  intros w o w' [= <- <-]. split; [done|]. exists []. by rewrite app_nil_r.
Qed.

Lemma emits_bind P {A B} (m : M A) (k : A -> M B) :
  emits P m -> (forall a, emits P (k a)) -> emits P (bind m k).
Proof.
  intros Hm Hk w o w'. unfold bind. destruct (m w) as [[a|c] w1] eqn:E.
  - intros Hka. destruct (Hm _ _ _ E) as (Hs & e1 & Ht & Hp).
    destruct (Hk a _ _ _ Hka) as (Hs2 & e2 & Ht2 & Hp2).
    split; [congruence|]. exists (e1 ++ e2).
    by rewrite Ht2, Ht, app_assoc, forallb_app, Hp, Hp2.
  - intros [= <- <-]. destruct (Hm _ _ _ E) as (Hs & e1 & Ht & Hp).
    split; [done|]. by exists e1.
Qed.

Lemma emits_returns P {A} (m : M A) : returns P m -> emits P m.
Proof.
  intros Hm w o w' E. destruct (Hm w) as (a & w1 & evs & Hr & Ht & Hp & Hs).
  rewrite Hr in E. injection E as <- <-. split; [done|]. by exists evs.
Qed.

Lemma emits_reads P {A} (m : M A) : reads P m -> emits P m.
Proof.
  intros Hm w o w' E. destruct (Hm _ _ _ E) as (_ & Hs & evs & Ht & Hp).
  split; [done|]. by exists evs.
Qed.

Lemma emits_weaken (P Q : Event -> bool) {A} (m : M A) :
  (forall e, P e = true -> Q e = true) -> emits P m -> emits Q m.
Proof.
  intros HPQ Hm w o w' E. destruct (Hm _ _ _ E) as (Hs & evs & Ht & Hp).
  split; [done|]. exists evs. split; [done|].
  rewrite forallb_forall in *. auto.
Qed.

Create HintDb emits discriminated.

Ltac emits_step :=
  first
    [ solve [auto 2 with emits]
    | apply emits_ret
    | apply emits_returns; apply returns_fsop; reflexivity
    | apply emits_returns; apply returns_emit; reflexivity
    | apply emits_bind
    | progress intros
    | progress cbv beta zeta
    | match goal with
      | |- emits _ (if ?b then _ else _) => destruct b
      | |- emits _ (match ?x with _ => _ end) => destruct x
      | |- emits _ (let (_, _) := ?x in _) => destruct x
      end ].

Lemma emits_computeFileMd5 p : emits not_stdout (computeFileMd5 sys p).
Proof.
  unfold computeFileMd5, os_Stat, os_Open, io_Copy_hash, fp_Close.
  repeat emits_step.
Qed.
#[local] Hint Resolve emits_computeFileMd5 : emits.

Lemma emits_sameContent b p : emits not_stdout (sameContent sys b p).
Proof.
  unfold sameContent, log. repeat emits_step.
Qed.
#[local] Hint Resolve emits_sameContent : emits.

Lemma emits_createStagingFile b p : emits not_stdout (createStagingFile sys b p).
Proof.
  unfold createStagingFile, onErr, ioutil_TempFile, fp_Write, os_Stat,
    fp_Chmod, fp_Chown, fp_Close, os_Remove, log.
  repeat emits_step.
Qed.
#[local] Hint Resolve emits_createStagingFile : emits.

Lemma emits_copyStagingToDestination a b :
  emits not_stdout (copyStagingToDestination sys a b).
Proof.
  unfold copyStagingToDestination, os_Rename, ioutil_ReadFile, os_Stat,
    ioutil_WriteFile, os_Chown, log.
  repeat emits_step.
Qed.
#[local] Hint Resolve emits_copyStagingToDestination : emits.

Lemma emits_renderTemplate ctx t : emits not_stdout (renderTemplate sys ctx t).
Proof.
  apply (emits_weaken from_rendering); [by intros []|].
  apply emits_reads, renderTemplate_reads.
Qed.
#[local] Hint Resolve emits_renderTemplate : emits.

Lemma emits_commandPhase t : emits not_stdout (commandPhase sys t).
Proof.
  apply (emits_weaken from_commands); [by intros []|].
  apply emits_returns, returns_commandPhase.
Qed.
#[local] Hint Resolve emits_commandPhase : emits.

(** The block that writes the destination, for a template that has one. *)
Lemma emits_writeBlock t b :
  Template.Dest t <> "" -> emits not_stdout (writeBlock sys t b).
Proof.
  intros Hd%String.eqb_neq. unfold writeBlock. rewrite Hd. unfold log.
  repeat emits_step.
  all: try first [ apply emits_sameContent | apply emits_createStagingFile
             | apply emits_copyStagingToDestination ].
Qed.
#[local] Hint Resolve emits_writeBlock : emits.

Lemma emits_processTemplate ctx t : emits not_stdout (processTemplate sys ctx t).
Proof.
  unfold processTemplate.
  destruct (String.eqb (Template.Dest t) "") eqn:Hd.
  - rewrite andb_false_r. unfold log, os_Remove. repeat emits_step.
    all: try apply emits_commandPhase.
  - apply String.eqb_neq in Hd.
    destruct (negb (String.eqb (Template.Source t) "")); simpl;
      unfold renderBlock, log, os_Remove; repeat emits_step.
    all: try first [ apply emits_commandPhase | apply emits_renderTemplate
               | by apply emits_writeBlock ]. 
Qed.
#[local] Hint Resolve emits_processTemplate : emits.

(** C4 (what the code does): for a template without a destination the
    print branch is never reached: processing it writes nothing to the
    standard output and renders nothing, and runs the command phase; in
    direct mode with a check command, that command is executed. *)
Theorem C4_no_destination_prints_nothing ctx t w :
  Template.Dest t = "" ->
  exists w',
    processTemplate sys ctx t w = (Done None, w')
    /\ stdout w' = stdout w
    /\ (forall e, In e (news w w') -> is_stdout e = false /\ is_render e = false)
    /\ (Template.NotifyLbl t = "" -> Template.CheckCmd t <> "" ->
        In (Exec CheckSlot (checkCommandOf t "")) (news w w')).
Proof.
  intros Hd.
  set (w0 := advance w (fs w) [noTemplate]).
  destruct (commandPhase_run t w0)
    as (w' & evs & Hrun & Ht & Hp & Hs & _ & Hdirect).
  exists w'.
  assert (Hnews : news w w' = noTemplate :: evs).
  { apply news_app. rewrite Ht. unfold w0. simpl. by rewrite <- app_assoc. }
  rewrite Hnews. split_and!.
  - apply processTemplate_skips_template; [by right|exact Hrun].
  - exact Hs.
  - intros e [<-|He]; [done|].
    rewrite forallb_forall in Hp. specialize (Hp e He). by destruct e.
  - intros Hl Hne. right. by apply Hdirect.
Qed.

(** No template makes the runner write to its standard output. *)
Lemma processTemplate_never_prints ctx t w :
  stdout (processTemplate sys ctx t w).2 = stdout w
  /\ forallb not_stdout (news w (processTemplate sys ctx t w).2) = true.
Proof.
  destruct (processTemplate sys ctx t w) as [o w'] eqn:E.
  destruct (emits_processTemplate ctx t _ _ _ E) as (Hs & evs & Ht & Hp).
  simpl. split; [done|]. by rewrite (news_app _ _ _ Ht).
Qed.
End Facts.


(** ** Label selectors *)

Lemma Split_lacks sep s : lacks sep s = true -> Strings.Split s sep = [s].
Proof.
  induction s as [|c s IH]; simpl; [done|].
  intros [Hc Hs]%andb_true_iff. apply negb_true_iff in Hc. rewrite Hc.
  by rewrite (IH Hs).
Qed.

Lemma Split_app sep a b :
  lacks sep a = true ->
  Strings.Split (a +:+ String sep b) sep = a :: Strings.Split b sep.
Proof.
  induction a as [|c a IH]; simpl.
  - intros _. by rewrite Ascii.eqb_refl.
  - intros [Hc Ha]%andb_true_iff. apply negb_true_iff in Hc. rewrite Hc.
    by rewrite (IH Ha).
Qed.

Section Labels.
Variable sys : Sys.

Lemma existsb_other name value (ls : list (string * string)) :
  name ∉ ls.*1 -> existsb (entry_selected name value) ls = false.
Proof.
  induction ls as [|[l x] ls IH]; simpl; [done|].
  intros Hn. apply not_elem_of_cons in Hn as [Hne Hn].
  unfold entry_selected at 1. simpl.
  replace (String.eqb l name) with false
    by (symmetry; apply String.eqb_neq; congruence).
  simpl. auto.
Qed.

Lemma scanLabels_run name value c ls acc w :
  NoDup ls.*1 ->
  exists logs,
    scanLabels name value c ls acc w
    = (Done (acc ++ if existsb (entry_selected name value) ls then [c] else []),
       mkWorld (fs w) (requests w) (trace w ++ logs) (stdout w))
    /\ forallb is_log logs = true.
Proof.
  revert acc w. induction ls as [|[l x] ls IH]; intros acc w Hnd; simpl.
  - exists []. destruct w; simpl. by rewrite !app_nil_r.
  - apply NoDup_cons in Hnd as [Hl Hnd]. unfold entry_selected at 1. simpl.
    destruct (String.eqb l name && (String.eqb value "" || String.eqb x value)) eqn:E.
    + unfold bind, log, emit. simpl.
      destruct (IH (acc ++ [c])
                  (mkWorld (fs w) (requests w)
                     (trace w ++ [Log DebugLvl ("NOTIFY: " +:+ Container.Name c +:+ " :: ["
                        +:+ l +:+ ":" +:+ x +:+ "]")]) (stdout w)) Hnd)
        as (logs & -> & Hlogs).
      apply andb_true_iff in E as [E _]. apply String.eqb_eq in E. subst l.
      rewrite (existsb_other _ _ _ Hl). simpl. rewrite app_nil_r.
      exists (Log DebugLvl ("NOTIFY: " +:+ Container.Name c +:+ " :: ["
                +:+ name +:+ ":" +:+ x +:+ "]") :: logs).
      split; [|exact Hlogs]. by rewrite <- app_assoc.
    + destruct (IH acc w Hnd) as (logs & -> & Hlogs). by exists logs.
Qed.

Lemma existsb_map_to_list name value (m : gmap string string) :
  existsb (entry_selected name value) (map_to_list m) = selects name value m.
Proof.
  unfold selects. destruct (m !! name) as [x|] eqn:E.
  - destruct (String.eqb value "" || String.eqb x value) eqn:C.
    + apply existsb_exists. exists (name, x). split.
      * apply list_elem_of_In, elem_of_map_to_list, E.
      * unfold entry_selected. simpl. by rewrite String.eqb_refl.
    + apply not_true_is_false. intros [[l y] [Hin Hsel]]%existsb_exists.
      apply list_elem_of_In, elem_of_map_to_list in Hin.
      unfold entry_selected in Hsel. simpl in Hsel.
      apply andb_true_iff in Hsel as [Hl Hy]. apply String.eqb_eq in Hl. subst l.
      rewrite E in Hin. injection Hin as ->. congruence.
  - apply existsb_other. intros [[l y] [Hl Hin]]%list_elem_of_fmap.
    simpl in Hl. subst l. apply elem_of_map_to_list in Hin. congruence.
Qed.

Lemma scanContainers_run name value cs acc w :
  exists logs,
    scanContainers name value cs acc w
    = (Done (acc ++ List.filter (fun c => selects name value (Container.Labels c)) cs),
       mkWorld (fs w) (requests w) (trace w ++ logs) (stdout w))
    /\ forallb is_log logs = true.
Proof.
  revert acc w. induction cs as [|c cs IH]; intros acc w; simpl.
  - exists []. destruct w; simpl. by rewrite !app_nil_r.
  - unfold bind.
    destruct (scanLabels_run name value c (map_to_list (Container.Labels c)) acc w)
      as (l1 & -> & Hl1); [apply NoDup_fst_map_to_list|].
    rewrite existsb_map_to_list.
    match goal with |- context [scanContainers _ _ _ ?a ?w0] =>
      destruct (IH a w0) as (l2 & -> & Hl2) end.
    simpl. exists (l1 ++ l2). rewrite forallb_app, Hl1, Hl2, <- !app_assoc.
    split; [|done]. by destruct (selects name value (Container.Labels c)).
Qed.

Lemma warnAll_done ws w : exists w', warnAll ws w = (Done tt, w').
Proof.
  revert w. induction ws as [|x ws IH]; intros w; simpl; [by eexists|].
  unfold bind, log, emit. simpl. apply IH.
Qed.

(** What a context build answers depends on the world only through the
    number of calls the metadata client has answered. *)
Lemma createContext_outcome w w' :
  requests w = requests w' ->
  (createContext sys w).1 = (createContext sys w').1.
Proof.
  intros Hreq. destruct w, w'. simpl in Hreq. subst.
  unfold createContext, client_call, log, emit, bind, ret. simpl.
  repeat match goal with
         | |- context [match ?x with Ok _ => _ | Fail _ => _ end] =>
             destruct x; simpl
         end; try reflexivity.
  repeat match goal with |- context [warnAll ?ws ?w0] =>
    let w1 := fresh "w" in destruct (warnAll_done ws w0) as (w1 & ->) end.
  reflexivity.
Qed.

Lemma getLabelGroup_run label name value ctx w :
  label <> "" ->
  Strings.Split label ":" = name :: (if String.eqb value "" then [] else [value]) ->
  (createContext sys w).1 = Done (Ok ctx) ->
  (getLabelGroup sys label w).1
  = Done (List.filter (fun c => selects name value (Container.Labels c))
                      (TemplateContext.Containers ctx), None).
Proof.
  intros Hne%String.eqb_neq Hsplit Hctx. unfold getLabelGroup.
  rewrite Hne, Hsplit.
  assert (Hval : (if (1 <? List.length (name :: (if String.eqb value "" then [] else [value])))%nat
                  then List.nth 1 (name :: (if String.eqb value "" then [] else [value])) ""
                  else "") = value).
  { destruct (String.eqb value "") eqn:E; simpl; [|done].
    by apply String.eqb_eq in E. }
  cbv zeta. rewrite Hval. cbn [List.nth].
  unfold bind at 1.
  match goal with |- context [(if ?b then ?x else ?y) w] =>
    assert (Hlog : exists e, (if b then x else y) w = (Done tt, advance w (fs w) [e]))
  end.
  { destruct (1 <? _)%nat; eexists; reflexivity. }
  destruct Hlog as (e & Hlog). rewrite Hlog.
  unfold bind at 1.
  pose proof (createContext_outcome (advance w (fs w) [e]) w eq_refl) as Hout.
  rewrite Hctx in Hout.
  destruct (createContext sys (advance w (fs w) [e])) as [o w1]. simpl in Hout. subst o.
  unfold bind.
  destruct (scanContainers_run name value (TemplateContext.Containers ctx) [] w1)
    as (logs & -> & _).
  reflexivity.
Qed.

Lemma selects_any name (m : gmap string string) :
  selects name "" m = bool_decide (is_Some (m !! name)).
Proof.
  unfold selects. destruct (m !! name) eqn:E; simpl; symmetry;
    first [ reflexivity
          | by apply bool_decide_eq_true_2
          | apply bool_decide_eq_false_2; by intros [? ?] ].
Qed.

Lemma selects_exact name value (m : gmap string string) :
  value <> "" -> selects name value m = bool_decide (m !! name = Some value).
Proof.
  intros Hv%String.eqb_neq. unfold selects. rewrite Hv. simpl.
  destruct (m !! name) as [x|] eqn:E.
  - destruct (String.eqb x value) eqn:Ex.
    + apply String.eqb_eq in Ex. subst. symmetry. by apply bool_decide_eq_true_2.
    + apply String.eqb_neq in Ex. symmetry. apply bool_decide_eq_false_2. congruence.
  - symmetry. first [reflexivity | by apply bool_decide_eq_false_2].
Qed.

End Labels.


(** ** Token substitution *)

Section Tokens.

#[local] Arguments String.append !_ _ / : simpl nomatch.

Lemma app_assoc_s (a b c : string) : (a +:+ b) +:+ c = a +:+ (b +:+ c).
Proof. induction a as [|x a IH]; simpl; [done|]. by rewrite IH. Qed.

Lemma app_nil_s (a : string) : a +:+ "" = a.
Proof. induction a as [|x a IH]; simpl; [done|]. by rewrite IH. Qed.

Lemma length_app_s (a b : string) :
String.length (a +:+ b) = String.length a + String.length b.
Proof. induction a as [|x a IH]; simpl; [done|]. by rewrite IH. Qed.

Lemma prefix_app_s (a b : string) : String.prefix a (a +:+ b) = true.
Proof.
induction a as [|x a IH]; simpl; [by destruct b|].
destruct (ascii_dec x x); [exact IH|done].
Qed.

Lemma prefix_cons_ne (x y : ascii) a b :
x <> y -> String.prefix (String x a) (String y b) = false.
Proof. intros Hne. simpl. by destruct (ascii_dec x y). Qed.

Lemma prefix_cons_eq (x : ascii) a b :
String.prefix (String x a) (String x b) = String.prefix a b.
Proof. simpl. by destruct (ascii_dec x x). Qed.

Lemma class_not_open c : Regexp.word_or_dot c = true -> c <> "{"%char.
Proof. intros H ->. by vm_compute in H. Qed.

Lemma class_not_close c : Regexp.word_or_dot c = true -> c <> "}"%char.
Proof. intros H ->. by vm_compute in H. Qed.

Lemma in_class_lacks_open s : in_class s = true -> lacks "{" s = true.
Proof.
induction s as [|c s IH]; simpl; [done|].
intros [Hc Hs]%andb_true_iff. rewrite (IH Hs), andb_true_r.
apply negb_true_iff, Ascii.eqb_neq. by apply class_not_open.
Qed.

Lemma lacks_app b x y : lacks b (x +:+ y) = lacks b x && lacks b y.
Proof. induction x as [|c x IH]; simpl; [done|]. by rewrite IH, andb_assoc. Qed.

(** *** The pattern on an assembled string *)

Lemma span_class_run i r :
in_class i = true ->
Regexp.span_class (i +:+ String "}" r) = (i, String "}" r).
Proof.
induction i as [|c i IH]; simpl; [done|].
intros [Hc Hi]%andb_true_iff. by rewrite Hc, (IH Hi).
Qed.

Lemma match_here_token i rest :
in_class i = true -> Regexp.match_here (token i +:+ rest) = Some (token i).
Proof.
intros Hi. unfold Regexp.match_here, token. simpl.
rewrite app_assoc_s. simpl. by rewrite (span_class_run i _ Hi).
Qed.

Lemma match_here_other c s :
c <> "{"%char -> Regexp.match_here (String c s) = None.
Proof.
intros Hc. unfold Regexp.match_here, Regexp.strip2, Regexp.open_brace.
destruct s as [|b r]; [done|].
apply Ascii.eqb_neq in Hc. by rewrite Hc.
Qed.

Lemma find_go_skip x y :
Regexp.find_go (String.length x) (x +:+ y) = Regexp.find_go 0 y.
Proof.
induction x as [|c x IH]; simpl; [|exact IH].
by destruct y.
Qed.

Lemma find_go_lit x y :
lacks "{" x = true -> Regexp.find_go 0 (x +:+ y) = Regexp.find_go 0 y.
Proof.
induction x as [|c x IH]; simpl; [done|].
intros [Hc Hx]%andb_true_iff. apply negb_true_iff, Ascii.eqb_neq in Hc.
rewrite (match_here_other c _ Hc). auto.
Qed.

Lemma find_go_token i y :
in_class i = true ->
Regexp.find_go 0 (token i +:+ y) = token i :: Regexp.find_go 0 y.
Proof.
intros Hi.
change (token i +:+ y) with (String "{" (String "{" ((i +:+ "}}") +:+ y))).
cbn [Regexp.find_go].
change (String "{" (String "{" ((i +:+ "}}") +:+ y))) with (token i +:+ y).
rewrite (match_here_token i y Hi). f_equal.
change (String "{" ((i +:+ "}}") +:+ y)) with (String "{" (i +:+ "}}") +:+ y).
replace (String.length (token i) - 1) with (String.length (String "{" (i +:+ "}}")))
  by (unfold token; simpl; lia).
apply find_go_skip.
Qed.

(** *** Command strings as sequences of text and tokens *)

Lemma FindAll_assemble segs :
forallb plain segs = true ->
Regexp.FindAll (assemble segs) = List.map token (tokens segs).
Proof.
unfold Regexp.FindAll.
induction segs as [|[text|inner] segs IH]; cbn [assemble forallb plain tokens List.map];
  [done|..].
- intros [Ht Hs]%andb_true_iff. rewrite (find_go_lit _ _ Ht). auto.
- intros [Ht Hs]%andb_true_iff. rewrite (find_go_token _ _ Ht). f_equal. auto.
Qed.

(** *** Replacing a token in an assembled string *)

Lemma replace_go_skip old new x y :
Strings.replace_go old new None (String.length x) (x +:+ y)
= Strings.replace_go old new None 0 y.
Proof.
induction x as [|c x IH]; simpl; [|exact IH].
by destruct y.
Qed.

Lemma replace_go_lit i new x y :
lacks "{" x = true ->
Strings.replace_go (token i) new None 0 (x +:+ y)
= x +:+ Strings.replace_go (token i) new None 0 y.
Proof.
induction x as [|c x IH]; [done|].
intros [Hc Hx]%andb_true_iff. apply negb_true_iff, Ascii.eqb_neq in Hc.
change (String c x +:+ y) with (String c (x +:+ y)).
cbn [Strings.replace_go].
unfold token at 1. change ("{{" +:+ i +:+ "}}") with (String "{" (String "{" (i +:+ "}}"))).
rewrite prefix_cons_ne by congruence.
fold (token i) in *. simpl. by rewrite (IH Hx).
Qed.

(** Two runs of the class followed by the closing braces: one is a prefix
  of the other only if they are the same run. *)
Lemma prefix_run i j y :
in_class i = true -> in_class j = true -> i <> j ->
String.prefix (i +:+ "}}") (j +:+ "}}" +:+ y) = false.
Proof.
revert j. induction i as [|a i IH]; intros [|b j] Hi Hj Hne; try done.
- apply andb_true_iff in Hj as [Hb _]. apply class_not_close in Hb.
  change ("" +:+ "}}") with (String "}" "}").
  change (String b j +:+ "}}" +:+ y) with (String b (j +:+ "}}" +:+ y)).
  apply prefix_cons_ne. congruence.
- apply andb_true_iff in Hi as [Ha _]. apply class_not_close in Ha.
  change (String a i +:+ "}}") with (String a (i +:+ "}}")).
  change ("" +:+ "}}" +:+ y) with (String "}" (String "}" y)).
  by apply prefix_cons_ne.
- apply andb_true_iff in Hi as [Ha Hi]. apply andb_true_iff in Hj as [Hb Hj].
  change (String a i +:+ "}}") with (String a (i +:+ "}}")).
  change (String b j +:+ "}}" +:+ y) with (String b (j +:+ "}}" +:+ y)).
  destruct (ascii_dec a b) as [->|Hab].
  + rewrite prefix_cons_eq. apply IH; [done..|congruence].
  + by apply prefix_cons_ne.
Qed.

Lemma replace_go_same i new y :
Strings.replace_go (token i) new None 0 (token i +:+ y)
= new +:+ Strings.replace_go (token i) new None 0 y.
Proof.
change (token i +:+ y) with (String "{" (String "{" ((i +:+ "}}") +:+ y))).
cbn [Strings.replace_go].
change (String "{" (String "{" ((i +:+ "}}") +:+ y))) with (token i +:+ y).
rewrite prefix_app_s. f_equal. simpl.
change (String "{" ((i +:+ "}}") +:+ y)) with (String "{" (i +:+ "}}") +:+ y).
replace (String.length (token i) - 1) with (String.length (String "{" (i +:+ "}}")))
  by (unfold token; simpl; lia).
apply replace_go_skip.
Qed.

Lemma replace_go_other i j new y :
in_class i = true -> in_class j = true -> i <> j ->
Strings.replace_go (token i) new None 0 (token j +:+ y)
= token j +:+ Strings.replace_go (token i) new None 0 y.
Proof.
intros Hi Hj Hne.
change (token j +:+ y) with (String "{" (String "{" ((j +:+ "}}") +:+ y))).
cbn [Strings.replace_go].
assert (H1 : String.prefix (token i) (String "{" (String "{" ((j +:+ "}}") +:+ y))) = false).
{ unfold token. change ("{{" +:+ i +:+ "}}") with (String "{" (String "{" (i +:+ "}}"))).
  rewrite !prefix_cons_eq, app_assoc_s. by apply prefix_run. }
rewrite H1.
assert (H2 : String.prefix (token i) (String "{" ((j +:+ "}}") +:+ y)) = false).
{ unfold token. change ("{{" +:+ i +:+ "}}") with (String "{" (String "{" (i +:+ "}}"))).
  rewrite prefix_cons_eq.
  destruct j as [|b j].
  - by apply prefix_cons_ne.
  - apply andb_true_iff in Hj as [Hb _]. apply class_not_open in Hb.
    apply prefix_cons_ne. congruence. }
rewrite H2.
rewrite (replace_go_lit i new (j +:+ "}}") y).
- reflexivity.
- rewrite lacks_app, (in_class_lacks_open _ Hj). reflexivity.
Qed.

Lemma ReplaceAll_assemble i new segs :
in_class i = true -> forallb plain segs = true ->
Strings.ReplaceAll (assemble segs) (token i) new
= assemble (List.map (swap i new) segs).
Proof.
intros Hi. unfold Strings.ReplaceAll, Strings.Replace.
change (token i) with (String "{" (String "{" (i +:+ "}}"))) at 1.
cbv iota. fold (token i).
induction segs as [|[text|j] segs IH]; cbn [assemble forallb plain List.map swap];
  [done|..].
- intros [Ht Hs]%andb_true_iff. rewrite (replace_go_lit _ _ _ _ Ht). by rewrite IH.
- intros [Hj Hs]%andb_true_iff. destruct (String.eqb j i) eqn:E.
  + apply String.eqb_eq in E. subst j. cbn [assemble].
    rewrite replace_go_same. by rewrite IH.
  + apply String.eqb_neq in E. cbn [assemble].
    rewrite replace_go_other by (done || congruence). by rewrite IH.
Qed.

(** *** The key of a token *)

Lemma class_not_cut c :
Regexp.word_or_dot c = true -> Strings.in_cutset "{}" c = false.
Proof.
intros Hc. unfold Strings.in_cutset. simpl.
pose proof (class_not_open c Hc) as H1. pose proof (class_not_close c Hc) as H2.
apply Ascii.eqb_neq in H1, H2. by rewrite H1, H2.
Qed.

Lemma TrimRight_run i :
in_class i = true -> Strings.TrimRight (i +:+ "}}") "{}" = i.
Proof.
induction i as [|c i IH]; [done|].
intros [Hc Hi]%andb_true_iff.
change (String c i +:+ "}}") with (String c (i +:+ "}}")).
cbn [Strings.TrimRight]. rewrite (IH Hi), (class_not_cut c Hc).
by destruct i.
Qed.

Lemma TrimLeft_run i :
in_class i = true -> i <> "" ->
Strings.TrimLeft (i +:+ "}}") "{}" = i +:+ "}}".
Proof.
destruct i as [|c i]; [done|]. intros [Hc _]%andb_true_iff _.
change (String c i +:+ "}}") with (String c (i +:+ "}}")).
cbn [Strings.TrimLeft]. by rewrite (class_not_cut c Hc).
Qed.

Lemma Trim_token i : in_class i = true -> Strings.Trim (token i) "{}" = i.
Proof.
intros Hi. unfold Strings.Trim.
change (token i) with (String "{" (String "{" (i +:+ "}}"))).
change (Strings.TrimLeft (String "{" (String "{" (i +:+ "}}"))) "{}")
  with (Strings.TrimLeft (i +:+ "}}") "{}").
destruct (decide (i = "")) as [->|Hne]; [done|].
rewrite (TrimLeft_run i Hi Hne). by apply TrimRight_run.
Qed.

Lemma Index_dot key :
Strings.Index key "." = Some 0 <-> String.prefix "." key = true.
Proof.
destruct key as [|c k]; [done|]. cbn [Strings.Index].
destruct (String.prefix "." (String c k)); [done|].
split; [|done]. by destruct (Strings.Index k ".").
Qed.

Lemma tokenKey_token i : in_class i = true -> tokenKey (token i) = keyOf i.
Proof.
intros Hi. unfold tokenKey. rewrite (Trim_token i Hi).
destruct i as [|c k]; [done|]. unfold keyOf.
destruct (Ascii.eqb c ".") eqn:E.
- apply Ascii.eqb_eq in E. subst c.
  rewrite decide_True by (apply Index_dot, (prefix_app_s "." k)).
  unfold Strings.Replace. simpl. by destruct k.
- rewrite decide_False; [done|].
  intros H%Index_dot. apply Ascii.eqb_neq in E.
  by rewrite prefix_cons_ne in H by congruence.
Qed.

(** *** What a token stands for *)

Lemma after_Some p s r : after p s = Some r -> s = p +:+ r.
Proof.
revert s. induction p as [|a p IH]; intros [|b s]; simpl; try congruence.
destruct (Ascii.eqb a b) eqn:E; [|done]. apply Ascii.eqb_eq in E. subst b.
intros H. by rewrite (IH _ H).
Qed.

Lemma after_None p s : after p s = None -> String.prefix p s = false.
Proof.
revert s. induction p as [|a p IH]; intros [|b s]; simpl; try done.
destruct (ascii_dec a b) as [->|Hne].
- rewrite Ascii.eqb_refl. apply IH.
- done.
Qed.

Lemma Contains_prefix s p : String.prefix p s = true -> Strings.Contains s p = true.
Proof.
intros H. unfold Strings.Contains. destruct s; cbn [Strings.Index]; by rewrite H.
Qed.

Lemma replaceField_attribute c key m ret_ :
replaceField (Fields c) key m ret_
= match attribute c key with
  | Some v => Strings.ReplaceAll ret_ m v
  | None => ret_
  end.
Proof.
unfold attribute, Fields. cbn [replaceField as_string fst].
rewrite !(String.eqb_sym key).
repeat match goal with
       | |- context [String.eqb ?n key] =>
           destruct (String.eqb n key) eqn:?;
           [ match goal with H : String.eqb _ key = true |- _ =>
               apply String.eqb_eq in H; subst key; reflexivity end | ]
       end.
reflexivity.
Qed.

Lemma replaceMatch_token c ret_ i :
in_class i = true -> labels_ok i = true ->
replaceMatch c ret_ (token i)
= match resolve c i with
  | Some v => Strings.ReplaceAll ret_ (token i) v
  | None => ret_
  end.
Proof.
intros Hi Hok. unfold replaceMatch, resolve. rewrite (tokenKey_token i Hi).
cbv zeta. unfold labels_ok in Hok.
destruct (after "Labels." (keyOf i)) as [label|] eqn:E.
- apply after_Some in E. rewrite E.
  rewrite Contains_prefix by apply prefix_app_s. reflexivity.
- apply after_None in E. rewrite E in Hok.
  destruct (Strings.Contains (keyOf i) "Labels."); [done|].
  apply replaceField_attribute.
Qed.

(** *** The substitution as one pass over the sequence *)

Lemma resolve_clean c i v : clean c -> resolve c i = Some v -> lacks "{" v = true.
Proof.
intros (H1 & H2 & H3 & H4 & H5 & H6 & Hl). unfold resolve, attribute. cbv zeta.
destruct (after "Labels." (keyOf i)) as [label|].
- intros [= <-]. destruct (Container.Labels c !! label) as [x|] eqn:E; [|done].
  exact (Hl _ _ E).
- repeat match goal with
         | |- context [String.eqb ?a ?b] => destruct (String.eqb a b)
         end; intros [= <-]; done.
Qed.

Lemma plain_swap i v segs :
lacks "{" v = true -> forallb plain segs = true ->
forallb plain (List.map (swap i v) segs) = true.
Proof.
intros Hv. induction segs as [|[text|j] segs IH]; cbn [forallb List.map swap plain];
  [done|..]; intros [H1 H2]%andb_true_iff.
- by rewrite H1, IH.
- destruct (String.eqb j i); cbn [plain]; by rewrite ?Hv, ?H1, IH.
Qed.

Lemma plain_round c segs i :
clean c -> forallb plain segs = true -> forallb plain (round c segs i) = true.
Proof.
intros Hc Hs. unfold round. destruct (resolve c i) as [v|] eqn:E; [|done].
apply plain_swap; [|done]. by apply (resolve_clean c i).
Qed.

Lemma replaceMatch_round c segs i :
in_class i = true -> labels_ok i = true -> forallb plain segs = true ->
replaceMatch c (assemble segs) (token i) = assemble (round c segs i).
Proof.
intros Hi Hok Hs. rewrite (replaceMatch_token c _ i Hi Hok). unfold round.
destruct (resolve c i) as [v|]; [|done]. by apply ReplaceAll_assemble.
Qed.

Lemma fold_rounds c inners segs :
clean c ->
forallb (fun i => in_class i && labels_ok i) inners = true ->
forallb plain segs = true ->
List.fold_left (replaceMatch c) (List.map token inners) (assemble segs)
= assemble (List.fold_left (round c) inners segs).
Proof.
intros Hc. revert segs.
induction inners as [|i inners IH]; intros segs; cbn [List.fold_left List.map forallb];
  [done|].
intros [[Hi Hok]%andb_true_iff Hrest]%andb_true_iff Hs.
rewrite (replaceMatch_round c segs i Hi Hok Hs).
apply IH; [done|]. by apply plain_round.
Qed.

Lemma rounds_expand c inners segs :
List.fold_left (round c) inners segs = List.map (expand_in c inners) segs.
Proof.
revert segs. induction inners as [|i inners IH]; intros segs; cbn [List.fold_left].
- induction segs as [|[text|j] segs IHs]; cbn [List.map expand_in existsb]; [done|..];
    by rewrite <- IHs.
- rewrite IH. unfold round.
  destruct (resolve c i) as [v|] eqn:E.
  + rewrite List.map_map. apply List.map_ext. intros [text|j]; [done|].
    cbn [swap expand_in existsb]. destruct (String.eqb j i) eqn:Eji.
    * apply String.eqb_eq in Eji. subst j. cbn [expand_in orb expand]. by rewrite E.
    * reflexivity.
  + apply List.map_ext. intros [text|j]; [done|].
    cbn [expand_in existsb]. destruct (String.eqb j i) eqn:Eji; [|done].
    apply String.eqb_eq in Eji. subst j. cbn [orb expand]. rewrite E.
    by destruct (existsb (String.eqb i) inners).
Qed.

Lemma existsb_tokens j segs :
In (Tok j) segs -> existsb (String.eqb j) (tokens segs) = true.
Proof.
induction segs as [|[text|i] segs IH]; cbn [tokens existsb In]; [done|..].
- intros [H|H]; [done|auto].
- intros [[= ->]|H]; [by rewrite String.eqb_refl|]. by rewrite IH, orb_true_r.
Qed.

Lemma expand_all c segs :
List.map (expand_in c (tokens segs)) segs = List.map (expand c) segs.
Proof.
apply List.map_ext_in. intros [text|j] Hin; [done|].
cbn [expand_in]. by rewrite (existsb_tokens j segs Hin).
Qed.

Lemma well_formed_tokens segs :
forallb well_formed segs = true ->
forallb plain segs = true
/\ forallb (fun i => in_class i && labels_ok i) (tokens segs) = true.
Proof.
induction segs as [|[text|i] segs IH]; cbn [forallb tokens]; [done|..];
  unfold well_formed at 1; cbn [plain];
  intros [[H1 H2]%andb_true_iff [H3 H4]%IH]%andb_true_iff.
- by rewrite H1, H3.
- by rewrite H1, H2, H3, H4.
Qed.

(** C9 (as the code has it): on a command whose text outside the tokens has
  no opening brace, and a container whose values have none, the
  substitution replaces, in one pass, each token [{{Field}}] or
  [{{.Field}}] by the value of the attribute [Field] when this is one of
  the six string attributes and by the empty text when it is [Labels] or
  [Host], and each token [{{Labels.key}}] by the value of the label [key],
  the empty text when the container has no such label; a token of any
  other name stays as it is; and no error is returned. *)
Theorem C9_token_substitution c segs :
clean c -> forallb well_formed segs = true ->
parseCmdTemplate c (assemble segs)
= (assemble (List.map (expand c) segs), None).
Proof.
intros Hc [Hplain Htok]%well_formed_tokens. unfold parseCmdTemplate.
rewrite (FindAll_assemble segs Hplain).
rewrite (fold_rounds c (tokens segs) segs Hc Htok Hplain).
by rewrite rounds_expand, expand_all.
Qed.

End Tokens.

(** ** Service ports *)

Section Ports.
#[local] Arguments String.append !_ _ / : simpl nomatch.

Lemma Split_nonempty s sep : Strings.Split s sep <> [].
Proof.
  induction s as [|c s IH]; simpl; [done|].
  destruct (Ascii.eqb c sep); [done|]. by destruct (Strings.Split s sep).
Qed.

Lemma join_Split s sep : join sep (Strings.Split s sep) = s.
Proof.
  induction s as [|c s IH]; [done|]. cbn [Strings.Split].
  pose proof (Split_nonempty s sep) as Hne.
  destruct (Ascii.eqb c sep) eqn:E.
  - apply Ascii.eqb_eq in E. subst c.
    destruct (Strings.Split s sep) as [|x r]; [done|].
    cbn [join]. simpl. by rewrite <- IH.
  - destruct (Strings.Split s sep) as [|x r]; [done|].
    rewrite <- IH. destruct r; reflexivity.
Qed.

Lemma Split_lack s sep : forallb (lacks sep) (Strings.Split s sep) = true.
Proof.
  induction s as [|c s IH]; [done|]. cbn [Strings.Split].
  destruct (Ascii.eqb c sep) eqn:E.
  - cbn [forallb lacks]. exact IH.
  - pose proof (Split_nonempty s sep) as Hne.
    destruct (Strings.Split s sep) as [|x r]; [done|].
    cbn [forallb lacks] in *. by rewrite E.
Qed.

Lemma Split_two s sep a b :
  Strings.Split s sep = [a; b] ->
  s = a +:+ String sep b /\ lacks sep a = true /\ lacks sep b = true.
Proof.
  intros H. pose proof (join_Split s sep) as Hj. pose proof (Split_lack s sep) as Hl.
  rewrite H in Hj, Hl. cbn [join forallb] in *.
  apply andb_true_iff in Hl as [Ha Hl]. apply andb_true_iff in Hl as [Hb _].
  done.
Qed.

Lemma lacks_app_inv b x y : lacks b (x +:+ y) = true -> lacks b x = true /\ lacks b y = true.
Proof. rewrite lacks_app. apply andb_true_iff. Qed.

(** X1: of a list of port strings, each one is either converted or dropped
    with a warning, never both and never lost; every converted port comes
    from a string of the list that reads [public:internal/protocol], with
    no colon in a field and no slash in the internal port and protocol. *)
Theorem X1_parseServicePorts_sound ports :
  let '(parsed, warns) := parseServicePorts ports in
  List.length parsed + List.length warns = List.length ports
  /\ forall p, In p parsed -> In (portString p) ports /\ port_fields p = true.
Proof.
  induction ports as [|port rest IH]; [by split|].
  cbn [parseServicePorts]. destruct (parseServicePorts rest) as [parsed warns].
  destruct IH as [Hlen Hin].
  assert (Hskip : List.length parsed + List.length
              (("Unexpected format of service port: " +:+ port) :: warns)
            = List.length (port :: rest)
          /\ forall p, In p parsed ->
               In (portString p) (port :: rest) /\ port_fields p = true).
  { split; [simpl; lia|]. intros p Hp. destruct (Hin p Hp). split; [by right|done]. }
  destruct (Strings.Split port ":") as [|public [|tail [|? ?]]] eqn:E1; try exact Hskip.
  destruct (Strings.Split tail "/") as [|internal [|proto [|? ?]]] eqn:E2; try exact Hskip.
  apply Split_two in E1 as (-> & Hpub & Htail).
  apply Split_two in E2 as (-> & Hint & Hproto).
  apply lacks_app_inv in Htail as [Hi2 Hp2]. cbn [lacks] in Hp2.
  apply andb_true_iff in Hp2 as [_ Hp2].
  split; [simpl; lia|].
  intros p [<-|Hp].
  - split; [by left|]. unfold port_fields. cbn.
    by rewrite Hpub, Hi2, Hint, Hp2, Hproto.
  - destruct (Hin p Hp). split; [by right|done].
Qed.

Lemma parse_one p :
  port_fields p = true ->
  Strings.Split (portString p) ":"
  = [ServicePort.PublicPort p;
     ServicePort.InternalPort p +:+ "/" +:+ ServicePort.Protocol p]
  /\ Strings.Split (ServicePort.InternalPort p +:+ "/" +:+ ServicePort.Protocol p) "/"
     = [ServicePort.InternalPort p; ServicePort.Protocol p].
Proof.
  unfold port_fields, portString.
  intros [[[[H1 H2]%andb_true_iff H3]%andb_true_iff H4]%andb_true_iff H5]%andb_true_iff.
  split.
  - change (?a +:+ ":" +:+ ?b) with (a +:+ String ":" b).
    rewrite Split_app by done. rewrite Split_lacks; [done|].
    rewrite lacks_app. simpl. by rewrite H2, H4.
  - change (?a +:+ "/" +:+ ?b) with (a +:+ String "/" b).
    rewrite Split_app by done. by rewrite Split_lacks.
Qed.

(** X2: a list of strings of the shape [public:internal/protocol] is
    converted to the ports they spell, in order and without a warning. *)
Theorem X2_parseServicePorts_complete ps :
  forallb port_fields ps = true ->
  parseServicePorts (List.map portString ps) = (ps, []).
Proof.
  induction ps as [|p ps IH]; [done|]. cbn [forallb List.map parseServicePorts].
  intros [Hp Hps]%andb_true_iff. rewrite (IH Hps).
  destruct (parse_one p Hp) as [-> ->]. by destruct p.
Qed.
End Ports.

(** ** The context builder *)

Section Context.

Lemma findHost_none hosts uuid :
  (forall h, In h hosts -> Host.UUID h <> uuid) -> findHost hosts uuid = Host.zero.
Proof.
  induction hosts as [|h hosts IH]; [done|]. intros Hno. cbn [findHost].
  rewrite (proj2 (String.eqb_neq _ _) (Hno h (or_introl eq_refl))).
  apply IH. intros h' Hh'. apply Hno. by right.
Qed.

Lemma findHost_first pre h post uuid :
  (forall h', In h' pre -> Host.UUID h' <> uuid) -> Host.UUID h = uuid ->
  findHost (pre ++ h :: post) uuid = h.
Proof.
  intros Hpre Hh. induction pre as [|h0 pre IH]; cbn [findHost app].
  - by rewrite Hh, String.eqb_refl.
  - rewrite (proj2 (String.eqb_neq _ _) (Hpre h0 (or_introl eq_refl))).
    apply IH. intros h' Hh'. apply Hpre. by right.
Qed.

(** X3: the [i]-th container of a context is built from the [i]-th
    container of the metadata; its host is the first host of the metadata
    with the UUID the container names, and the zero host when no host has
    that UUID. *)
Theorem X3_container_host_resolution metaServices metaContainers metaHosts metaSelf i mc :
  metaContainers !! i = Some mc ->
  let ctx := buildContext metaServices metaContainers metaHosts metaSelf in
  exists c,
    TemplateContext.Containers ctx !! i = Some c
    /\ Container.Name c = metadata.Container.Name mc
    /\ Container.Labels c = metadata.Container.Labels mc
    /\ ((forall mh, In mh metaHosts ->
           metadata.Host.UUID mh <> metadata.Container.HostUUID mc) ->
        Container.Host c = Host.zero)
    /\ (forall pre mh post,
           metaHosts = pre ++ mh :: post ->
           (forall mh', In mh' pre ->
              metadata.Host.UUID mh' <> metadata.Container.HostUUID mc) ->
           metadata.Host.UUID mh = metadata.Container.HostUUID mc ->
           Container.Host c = buildHost mh).
Proof.
  intros Hi ctx. exists (buildContainer (List.map buildHost metaHosts) mc).
  split_and!; try done.
  - unfold ctx, buildContext. cbn. by rewrite list_lookup_fmap, Hi.
  - intros Hno. cbn. apply findHost_none. intros h [mh [<- Hmh]]%in_map_iff.
    cbn. by apply Hno.
  - intros pre mh post -> Hpre Hmh. cbn. rewrite List.map_app. cbn [List.map].
    apply findHost_first; [|done].
    intros h [mh' [<- Hmh']]%in_map_iff. cbn. by apply Hpre.
Qed.

Lemma filter_sublist {A} (P : A -> bool) (l : list A) :
  sublist (List.filter P l) l.
Proof.
  induction l as [|a l IH]; cbn [List.filter]; [constructor|].
  destruct (P a); by constructor.
Qed.

(** X4: the [i]-th service of a context is built from the [i]-th service of
    the metadata, and its containers are the containers of the context
    whose stack and service names are those of the service, in the order
    of the context. *)
Theorem X4_service_containers metaServices metaContainers metaHosts metaSelf i ms :
  metaServices !! i = Some ms ->
  let ctx := buildContext metaServices metaContainers metaHosts metaSelf in
  exists svc,
    TemplateContext.Services ctx !! i = Some svc
    /\ Service.Name svc = metadata.Service.Name ms
    /\ Service.Stack svc = metadata.Service.StackName ms
    /\ (forall c, In c (Service.Containers svc) <->
          In c (TemplateContext.Containers ctx)
          /\ Container.Stack c = metadata.Service.StackName ms
          /\ Container.Service c = metadata.Service.Name ms)
    /\ sublist (Service.Containers svc) (TemplateContext.Containers ctx).
Proof.
  intros Hi ctx.
  exists (buildService (TemplateContext.Containers ctx) ms).
  split_and!; try done.
  - unfold ctx, buildContext. cbn. by rewrite list_lookup_fmap, Hi.
  - intros c. cbn. unfold serviceContainers. rewrite List.filter_In, andb_true_iff.
    rewrite !String.eqb_eq. tauto.
  - cbn. unfold serviceContainers. apply filter_sublist.
Qed.
End Context.

(** ** The staged write *)

Section Files.
Variable sys : Sys.

Lemma fsop_ok {A} e (run : gmap string File -> res A * gmap string File) w :
  fault sys e = None ->
  fsop sys e run w = (Done (run (fs w)).1, advance w (run (fs w)).2 [e]).
Proof.
  intros H. unfold fsop, bind, emit, get_fs, set_fs, ret, advance. simpl.
  rewrite H. simpl. by destruct (run (fs w)).
Qed.

Lemma fsop_fault {A} e (run : gmap string File -> res A * gmap string File) w err :
  fault sys e = Some err ->
  fsop sys e run w = (Done (Fail err), advance w (fs w) [e]).
Proof.
  intros H. unfold fsop, bind, emit, ret, advance. simpl. by rewrite H.
Qed.

Lemma fsop_cases {A} e (run : gmap string File -> res A * gmap string File) w :
  (exists err, fault sys e = Some err
     /\ fsop sys e run w = (Done (Fail err), advance w (fs w) [e]))
  \/ (fault sys e = None
     /\ fsop sys e run w = (Done (run (fs w)).1, advance w (run (fs w)).2 [e])).
Proof.
  destruct (fault sys e) as [err|] eqn:H.
  - left. exists err. split; [done|]. by apply fsop_fault.
  - right. split; [done|]. by apply fsop_ok.
Qed.

(** X8: when [createStagingFile] returns an error, it returns no path and,
    provided the removal of the temporary file is not made to fail,
    leaves the files as they were: no staging file stays behind. *)
Theorem X8_createStagingFile_cleans_up bytes destFile w path e w' :
  let name := stagingName sys destFile (fs w) in
  fs w !! name = None ->
  fault sys (Remove name) = None ->
  createStagingFile sys bytes destFile w = (Done (path, Some e), w') ->
  path = "" /\ fs w' = fs w /\ requests w' = requests w
  /\ stdout w' = stdout w.
Proof.
  intros name.
  assert (Hname : temp_name sys (filepath_Dir sys destFile)
                    ("." +:+ filepath_Base sys destFile +:+ "-") (fs w) = name)
    by done.
  clearbody name. intros Hfresh Hrm.
  unfold createStagingFile, onErr, ioutil_TempFile, fp_Write, os_Stat, fp_Chmod,
    fp_Chown, fp_Close, os_Remove, fsop, bind, emit, log, get_fs, set_fs, ret.
  repeat (simpl;
          rewrite ?Hname, ?Hrm, ?alter_insert_eq, ?lookup_insert_eq, ?delete_insert_eq;
          match goal with
          | |- context [fault sys ?ev] => destruct (fault sys ev) eqn:?
          | |- context [<[name := ?x]> (fs w) !! destFile] =>
              destruct (<[name := x]> (fs w) !! destFile) eqn:?
          end);
    simpl; rewrite ?Hname, ?Hrm; simpl;
    rewrite ?alter_insert_eq, ?lookup_insert_eq; simpl;
    rewrite ?delete_insert_eq, ?delete_id by done;
    intros [=]; subst; done.
Qed.

(** X6: the comparison of rendered bytes with a file, when opening and
    hashing are not made to fail: a file that is missing or cannot be
    examined by [os.Stat] differs, without an error; a file that cannot be
    read is an error; otherwise the two digests decide. The files are left
    as they are. *)
Theorem X6_sameContent_decides bytes filePath w :
  fault sys (OpenFile filePath) = None ->
  fault sys (CopyToHash filePath) = None ->
  md5hex sys bytes <> "" ->
  exists evs,
    sameContent sys bytes filePath w
    = (Done match fault sys (Stat filePath), fs w !! filePath with
            | None, Some x =>
                if readable x
                then (String.eqb (md5hex sys (content x)) (md5hex sys bytes),
                      None)
                else (false,
                      Some (Errorf ("Could not calculate checksum for "
                                    +:+ filePath +:+ ": "
                                    +:+ Error (denied "open" filePath))))
            | _, _ => (false, None)
            end,
       advance w (fs w) evs).
Proof.
  intros Hop Hcp Hne.
  assert (Hmiss : forall w0 : World,
            exists evs,
              (emit (Md5 bytes) ;;
               log DebugLvl ("Checksum content: " +:+ md5hex sys bytes
                             +:+ ", checksum file: " +:+ "") ;;
               if String.eqb "" (md5hex sys bytes)
               then ret (true, None : error)
               else ret (false, None)) w0
              = (Done (false, None), advance w0 (fs w0) evs)).
  { intros w0. destruct (md5hex sys bytes) eqn:Hd; [done|].
    unfold bind, log, emit, ret. simpl.
    unfold advance; simpl; rewrite <- !app_assoc; by eexists. }
  unfold sameContent, computeFileMd5, os_Stat, os_Open, io_Copy_hash, fp_Close,
    read_of.
  unfold bind at 1 2.
  destruct (fault sys (Stat filePath)) as [e|] eqn:Hst.
  - rewrite (fsop_fault _ _ _ _ Hst). unfold ret at 1.
    destruct (Hmiss (advance w (fs w) [Stat filePath])) as (evs & ->).
    rewrite advance_advance. by eexists.
  - rewrite (fsop_ok _ _ _ Hst).
    destruct (fs w !! filePath) as [x|] eqn:Hx; cbn [fst snd].
    + unfold bind at 1. rewrite (fsop_ok _ _ _ Hop). cbn [fst snd fs advance].
      rewrite Hx. destruct (readable x).
      * unfold bind at 1. rewrite (fsop_ok _ _ _ Hcp). cbn [fst snd fs advance].
        unfold bind at 1.
        destruct (fsop_cases (Close filePath)
                    (fun f : gmap string File => (Ok tt, f))
                    (advance (advance (advance w (fs w) [Stat filePath]) (fs w)
                                [OpenFile filePath]) (fs w)
                       [CopyToHash filePath]))
          as [(e & _ & ->)|[_ ->]]; cbn [fst snd fs advance];
          unfold bind, log, emit, ret; simpl;
          destruct (String.eqb (md5hex sys (content x)) (md5hex sys bytes));
          unfold advance; simpl; rewrite <- !app_assoc; by eexists.
      * unfold ret. rewrite advance_advance. by eexists.
    + unfold ret at 1.
      destruct (Hmiss (advance w (fs w) [Stat filePath])) as (evs & ->).
      rewrite advance_advance. by eexists.
Qed.

(** X9: when the rename fails with a "device or resource busy" error, the
    destination is written instead: it gets the bytes and the owner of the
    staging file; it keeps its own mode when it exists and gets the mode
    of the staging file when it is new. The staging file stays, and the
    three operations on files are the rename, the write and the change of
    owner. *)
Theorem X9_copyStagingToDestination_fallback stagingPath destPath w err x :
  fault sys (Rename stagingPath destPath) = Some err ->
  busy err = true ->
  fault sys (ReadFile stagingPath) = None ->
  fault sys (Stat stagingPath) = None ->
  fault sys (WriteFile destPath (content x) (mode x)) = None ->
  fault sys (Chown destPath (uid x) (gid x)) = None ->
  fs w !! stagingPath = Some x -> readable x = true ->
  exists evs,
    copyStagingToDestination sys stagingPath destPath w
    = (Done None,
       advance w
         (<[destPath := match fs w !! destPath with
                        | Some old => mkFile (content x) (mode old) (uid x)
                                             (gid x) (readable old)
                        | None => mkFile (content x) (mode x) (uid x) (gid x)
                                         true
                        end]> (fs w)) evs)
    /\ List.filter is_file_write evs
       = [Rename stagingPath destPath;
          WriteFile destPath (content x) (mode x);
          Chown destPath (uid x) (gid x)].
Proof.
  intros Hrn Hbusy Hrd Hst Hwf Hco Hx Hr. unfold busy in Hbusy.
  unfold copyStagingToDestination, os_Rename, ioutil_ReadFile, os_Stat,
    ioutil_WriteFile, os_Chown, read_of, fsop, bind, emit, log, get_fs,
    set_fs, ret.
  simpl. rewrite Hrn. simpl. rewrite Hbusy. simpl. rewrite Hrd. simpl.
  rewrite Hx, Hr. simpl. rewrite Hst. simpl. rewrite Hx. simpl.
  rewrite Hwf. simpl.
  destruct (fs w !! destPath) as [old|]; simpl; rewrite Hco; simpl;
    rewrite lookup_insert_eq; simpl; rewrite insert_insert_eq;
    unfold advance, chown_of; simpl; rewrite <- !app_assoc;
    eexists; (split; [reflexivity|]); reflexivity.
Qed.

(** X10: any other error of the rename is returned as it is; nothing else is
    attempted and the files are unchanged. *)
Theorem X10_copyStagingToDestination_other_error stagingPath destPath w err :
  fault sys (Rename stagingPath destPath) = Some err ->
  busy err = false ->
  copyStagingToDestination sys stagingPath destPath w
  = (Done (Some err), advance w (fs w) [Rename stagingPath destPath]).
Proof.
  intros Hrn Hbusy. unfold busy in Hbusy.
  unfold copyStagingToDestination, os_Rename, fsop, bind, emit, ret.
  simpl. rewrite Hrn. simpl. by rewrite Hbusy.
Qed.

Lemma quiet_steady : quiet sys -> steady sys.
Proof. intros Hq e _. apply Hq. Qed.

Ltac still H :=
  match goal with
  | |- context [fault sys ?e] => rewrite (H e eq_refl)
  end.

Lemma sameContent_run bytes filePath w :
  steady sys ->
  outdated sys bytes (fs w !! filePath) ->
  exists evs,
    sameContent sys bytes filePath w = (Done (false, None), advance w (fs w) evs)
    /\ List.filter is_exec evs = [].
Proof.
  intros Hq [Hne Hout].
  unfold sameContent, computeFileMd5, os_Stat, os_Open, io_Copy_hash, fp_Close,
    read_of, fsop, bind, emit, log, get_fs, set_fs, ret.
  simpl. still Hq. simpl.
  destruct (fs w !! filePath) as [x|] eqn:Hx; simpl.
  - destruct Hout as [Hr Hdiff]. apply String.eqb_neq in Hdiff.
    repeat (first [still Hq | rewrite Hx | rewrite Hr | rewrite Hdiff]; simpl).
    unfold advance; simpl; rewrite <- !app_assoc.
    eexists; (split; [reflexivity|]); reflexivity.
  - destruct (md5hex sys bytes) eqn:Hd; [done|].
    unfold advance; simpl; rewrite <- !app_assoc.
    eexists; (split; [reflexivity|]); reflexivity.
Qed.

Lemma createStagingFile_run bytes destFile w :
  steady sys ->
  let name := stagingName sys destFile (fs w) in
  fs w !! name = None ->
  exists evs,
    createStagingFile sys bytes destFile w
    = (Done (name, None),
       advance w (<[name := staged bytes (fs w !! destFile)]> (fs w)) evs)
    /\ List.filter is_exec evs = [].
Proof.
  intros Hq name Hfresh.
  unfold createStagingFile, ioutil_TempFile, fp_Write, os_Stat, fp_Chmod,
    fp_Chown, fp_Close, fsop, bind, emit, log, get_fs, set_fs, ret.
  simpl. repeat (still Hq; simpl).
  fold (stagingName sys destFile (fs w)). fold name.
  rewrite alter_insert_eq. simpl. change ("" +:+ bytes) with bytes.
  destruct (decide (name = destFile)) as [Heq|Hne].
  - rewrite <- Heq, lookup_insert_eq, Hfresh. simpl.
    repeat (still Hq; simpl).
    rewrite !alter_insert_eq. unfold chmod_of, chown_of, advance. simpl.
    rewrite <- !app_assoc. eexists; (split; [reflexivity|]); reflexivity.
  - rewrite lookup_insert_ne by done.
    destruct (fs w !! destFile) as [d|]; simpl; repeat (still Hq; simpl).
    + rewrite !alter_insert_eq. unfold chmod_of, chown_of, advance. simpl.
      rewrite <- !app_assoc. eexists; (split; [reflexivity|]); reflexivity.
    + unfold advance. simpl. rewrite <- !app_assoc.
      eexists; (split; [reflexivity|]); reflexivity.
Qed.

(** X7: when no file operation fails and the temporary name is free,
    [createStagingFile] returns that name, and the file of that name holds
    the bytes with the mode and owner of the destination (those of a new
    temporary file when there is no destination); no other file
    changes. *)
Theorem X7_createStagingFile_stages bytes destFile w :
  quiet sys ->
  let name := stagingName sys destFile (fs w) in
  fs w !! name = None ->
  exists w',
    createStagingFile sys bytes destFile w = (Done (name, None), w')
    /\ fs w' !! name = Some (staged bytes (fs w !! destFile))
    /\ (forall path, path <> name -> fs w' !! path = fs w !! path)
    /\ requests w' = requests w /\ stdout w' = stdout w.
Proof.
  intros Hq name Hfresh.
  destruct (createStagingFile_run bytes destFile w (quiet_steady Hq) Hfresh)
    as (evs & Hrun & _).
  eexists. split; [exact Hrun|]. cbn [fs advance requests stdout].
  split_and!; try done.
  - apply lookup_insert_eq.
  - intros path Hne. by apply lookup_insert_ne.
Qed.

Lemma rename_run stagingPath destPath w x :
  fault sys (Rename stagingPath destPath) = None ->
  fs w !! stagingPath = Some x ->
  copyStagingToDestination sys stagingPath destPath w
  = (Done None,
     advance w (<[destPath := x]> (delete stagingPath (fs w)))
             [Rename stagingPath destPath]).
Proof.
  intros Hq Hx.
  unfold copyStagingToDestination, os_Rename, fsop, bind, emit, get_fs, set_fs,
    ret.
  simpl. rewrite Hq. simpl. by rewrite Hx.
Qed.

Lemma writeBlock_run t bytes w :
  quiet sys ->
  Template.Dest t <> "" ->
  outdated sys bytes (fs w !! Template.Dest t) ->
  let name := stagingName sys (Template.Dest t) (fs w) in
  fs w !! name = None ->
  exists evs,
    writeBlock sys t bytes w
    = (Done (Continue (Template.with_Staging t name) (Some name)),
       advance w (<[Template.Dest t :=
                      staged bytes (fs w !! Template.Dest t)]> (fs w)) evs)
    /\ List.filter is_exec evs = [].
Proof.
  intros Hq Hdest Hout name Hfresh.
  apply String.eqb_neq in Hdest.
  unfold writeBlock. rewrite Hdest.
  unfold bind at 1. rewrite log_run.
  set (w1 := advance w (fs w) _).
  destruct (sameContent_run bytes (Template.Dest t) w1 (quiet_steady Hq) Hout)
    as (e1 & Hsame & Hx1).
  unfold bind at 1. rewrite Hsame. cbv iota beta.
  unfold bind at 1. rewrite log_run.
  set (w2 := advance (advance w1 (fs w1) e1) _ _).
  destruct (createStagingFile_run bytes (Template.Dest t) w2
              (quiet_steady Hq) Hfresh)
    as (e2 & Hstage & Hx2).
  unfold bind at 1. rewrite Hstage. cbv iota beta.
  unfold bind at 1. rewrite log_run.
  unfold bind at 1. erewrite rename_run; [|apply Hq|apply lookup_insert_eq].
  unfold bind at 1. rewrite log_run. unfold ret.
  change (stagingName sys (Template.Dest t) (fs w2)) with name.
  rewrite !advance_advance. unfold w2, w1. rewrite !advance_advance.
  cbn [fs advance].
  rewrite delete_insert_eq, delete_id by done.
  eexists. split; [reflexivity|].
  rewrite !List.filter_app, Hx1, Hx2. reflexivity.
Qed.

(** ** The command phase and the files *)

Lemma reads_client_call (P : Event -> bool) {A} m (answer : nat -> res A) :
  P (Call m) = true -> reads P (client_call m answer).
Proof.
  intros He w o w' [= <- <-]. simpl. split_and!; try done. exists [Call m].
  simpl. by rewrite He.
Qed.

Lemma reads_CombinedOutput (P : Event -> bool) slot command :
  inert sys -> P (Exec slot command) = true ->
  reads P (CombinedOutput sys slot command).
Proof.
  intros Hin He w o w'. unfold CombinedOutput, bind, emit, get_fs, set_fs, ret.
  simpl. specialize (Hin command (fs w)).
  destruct (shell sys command (fs w)) as [[err out] f']. simpl in Hin.
  intros [= <- <-]. simpl. split_and!; try done. exists [Exec slot command].
  simpl. by rewrite He.
Qed.

Ltac reads_step :=
  first
    [ apply reads_ret
    | apply reads_CombinedOutput; [assumption | reflexivity]
    | apply reads_client_call; reflexivity
    | apply reads_emit; reflexivity
    | apply reads_bind
    | progress intros
    | progress cbv beta zeta
    | match goal with
      | |- reads _ (if ?b then _ else _) => destruct b
      | |- reads _ (match ?x with _ => _ end) => destruct x
      | |- reads _ (let (_, _) := ?x in _) => destruct x
      end ].

Lemma reads_logLines command lines : reads from_commands (logLines command lines).
Proof. induction lines; cbn [logLines]; unfold log; repeat reads_step; done. Qed.

Lemma reads_runCheckNotify t pc pn :
  inert sys -> reads from_commands (runCheckNotify sys t pc pn).
Proof.
  intros Hin. unfold runCheckNotify, check, notify, logCmdOutput, log.
  repeat first [apply reads_logLines | reads_step].
Qed.

Lemma reads_fanout t cs : inert sys -> reads from_commands (fanout sys t cs).
Proof.
  intros Hin. induction cs; cbn [fanout]; unfold log;
    repeat first [apply reads_runCheckNotify; assumption | assumption | reads_step].
Qed.

Lemma reads_warnAll ws : reads from_commands (warnAll ws).
Proof. induction ws; cbn [warnAll]; unfold log; repeat reads_step; done. Qed.

Lemma reads_createContext : reads from_commands (createContext sys).
Proof.
  unfold createContext, log. repeat first [apply reads_warnAll | reads_step].
Qed.

Lemma reads_scanLabels n v c ls acc :
  reads from_commands (scanLabels n v c ls acc).
Proof.
  revert acc. induction ls as [|[l x] ls IH]; intros acc; cbn [scanLabels];
    unfold log; repeat first [apply IH | reads_step].
Qed.

Lemma reads_scanContainers n v cs acc :
  reads from_commands (scanContainers n v cs acc).
Proof.
  revert acc. induction cs as [|c cs IH]; intros acc; cbn [scanContainers];
    repeat first [apply IH | apply reads_scanLabels | reads_step].
Qed.

Lemma reads_commandPhase t :
  inert sys -> reads from_commands (commandPhase sys t).
Proof.
  intros Hin. unfold commandPhase, getLabelGroup, time_Sleep, log.
  repeat first
    [ apply reads_runCheckNotify; assumption
    | apply reads_fanout; assumption
    | apply reads_createContext
    | apply reads_scanContainers
    | reads_step ].
Qed.

(** X12: when the shell commands leave the files alone, so does the command
    phase, direct or fanned out: it returns, changes no file, writes
    nothing to the standard output and performs no file operation of its
    own. *)
Theorem X12_commandPhase_keeps_files t w o w' :
  inert sys ->
  commandPhase sys t w = (o, w') ->
  o = Done tt /\ fs w' = fs w /\ stdout w' = stdout w
  /\ List.filter is_file_write (news w w') = [].
Proof.
  intros Hin Hrun.
  destruct (reads_commandPhase t Hin _ _ _ Hrun) as (Hf & Hs & evs & Ht & Hp).
  destruct (returns_commandPhase sys t w) as ([] & w1 & evs' & Hrun' & _).
  rewrite Hrun in Hrun'. injection Hrun' as -> _.
  split_and!; try done.
  rewrite (news_app _ _ _ Ht). apply (filter_none from_commands); [|done].
  by intros [].
Qed.

Lemma renderTemplate_run ctx t w src bytes :
  steady sys ->
  fs w !! Template.Source t = Some src -> readable src = true ->
  engine sys ctx (filepath_Base sys (Template.Source t)) (content src)
  = RenderOk bytes ->
  exists evs,
    renderTemplate sys ctx t w = (Done bytes, advance w (fs w) evs)
    /\ List.filter is_exec evs = [].
Proof.
  intros Hq Hsrc Hr Hen.
  unfold renderTemplate, os_Stat, ioutil_ReadFile, read_of, fsop, bind, emit,
    log, get_fs, set_fs, ret.
  simpl.
  repeat (first [still Hq | rewrite Hsrc | rewrite Hr | rewrite Hen]; simpl).
  unfold advance; simpl; rewrite <- !app_assoc.
  eexists; (split; [reflexivity|]); reflexivity.
Qed.

(** The update up to the command phase. *)
Lemma update_run ctx t w src bytes :
  quiet sys ->
  Template.Source t <> "" -> Template.Dest t <> "" ->
  fs w !! Template.Source t = Some src -> readable src = true ->
  engine sys ctx (filepath_Base sys (Template.Source t)) (content src)
  = RenderOk bytes ->
  outdated sys bytes (fs w !! Template.Dest t) ->
  let name := stagingName sys (Template.Dest t) (fs w) in
  let updated :=
    <[Template.Dest t := staged bytes (fs w !! Template.Dest t)]> (fs w) in
  fs w !! name = None ->
  exists evs,
    List.filter is_exec evs = []
    /\ processTemplate sys ctx t w
       = (commandPhase sys (Template.with_Staging t name) ;;
          _ <- os_Remove sys name ;
          ret None) (advance w updated evs).
Proof.
  intros Hq Hs Hd Hsrc Hr Hen Hout name updated Hfresh.
  destruct (renderTemplate_run ctx t w src bytes (quiet_steady Hq) Hsrc Hr Hen)
    as (e1 & Hrender & Hx1).
  destruct (writeBlock_run t bytes (advance w (fs w) e1) Hq Hd Hout Hfresh)
    as (e2 & Hwrite & Hx2).
  fold name in Hwrite. simpl in Hwrite. fold updated in Hwrite.
  rewrite advance_advance in Hwrite.
  exists (e1 ++ e2). split; [by rewrite List.filter_app, Hx1, Hx2|].
  unfold processTemplate, renderBlock.
  apply String.eqb_neq in Hs, Hd. rewrite Hs, Hd. cbn [negb andb].
  unfold bind at 1 2. rewrite Hrender, Hwrite.
  fold name. unfold bind, ret.
  destruct (commandPhase _ _ _) as [[[]|c] w1]; [|done].
  by destruct (os_Remove sys name w1) as [[r|c] w2].
Qed.

(** The command phase and the deferred removal, when the staging path is
    gone and the commands leave the files alone. *)
Lemma commands_then_remove t name w :
  quiet sys -> inert sys -> fs w !! name = None ->
  exists w',
    (commandPhase sys t ;; _ <- os_Remove sys name ; ret (None : error)) w
    = (Done None, w')
    /\ fs w' = fs w /\ stdout w' = stdout w.
Proof.
  intros Hq Hin Hgone. unfold bind at 1.
  destruct (commandPhase sys t w) as [o w1] eqn:Hc.
  destruct (reads_commandPhase _ Hin _ _ _ Hc) as (Hf & Hso & _).
  destruct (returns_commandPhase sys t w) as ([] & w1' & evs' & Hc' & _).
  rewrite Hc in Hc'. injection Hc' as -> ->.
  unfold os_Remove, bind. rewrite (fsop_ok _ _ _ (Hq _)).
  rewrite Hf, Hgone. unfold ret. eexists. split; [reflexivity|].
  by cbn [fs stdout advance snd].
Qed.

(** X11: a template whose destination is missing or holds other bytes, when
    no file operation fails. Before any command runs the destination holds
    the rendered bytes, with its former mode and owner, and the staging
    path is gone again: [processTemplate] is the command phase, with the
    staging path in [Staging], run from these files, followed by the
    removal of the staging path. When the commands leave the files alone
    this is also how [processTemplate] leaves them, and it returns nil. *)
Theorem X11_processTemplate_updates ctx t w src bytes :
  quiet sys ->
  Template.Source t <> "" -> Template.Dest t <> "" ->
  fs w !! Template.Source t = Some src -> readable src = true ->
  engine sys ctx (filepath_Base sys (Template.Source t)) (content src)
  = RenderOk bytes ->
  outdated sys bytes (fs w !! Template.Dest t) ->
  let name := stagingName sys (Template.Dest t) (fs w) in
  let updated :=
    <[Template.Dest t := staged bytes (fs w !! Template.Dest t)]> (fs w) in
  fs w !! name = None -> name <> Template.Dest t ->
  exists evs,
    List.filter is_exec evs = []
    /\ updated !! name = None
    /\ processTemplate sys ctx t w
       = (commandPhase sys (Template.with_Staging t name) ;;
          _ <- os_Remove sys name ;
          ret None) (advance w updated evs)
    /\ (inert sys ->
        exists w',
          processTemplate sys ctx t w = (Done None, w')
          /\ fs w' = updated /\ stdout w' = stdout w).
Proof.
  intros Hq Hs Hd Hsrc Hr Hen Hout name updated Hfresh Hne.
  destruct (update_run ctx t w src bytes Hq Hs Hd Hsrc Hr Hen Hout Hfresh)
    as (evs & Hx & Hrun).
  fold name updated in Hrun.
  assert (Hgone : updated !! name = None).
  { unfold updated. by rewrite lookup_insert_ne. }
  exists evs. split_and!; try done.
  intros Hin. rewrite Hrun.
  by apply (commands_then_remove _ name (advance w updated evs) Hq Hin).
Qed.

(** A template whose destination holds what it renders to. *)
Lemma unchanged_run ctx t w src bytes d :
  quiet sys ->
  Template.Source t <> "" -> Template.Dest t <> "" ->
  fs w !! Template.Source t = Some src -> readable src = true ->
  engine sys ctx (filepath_Base sys (Template.Source t)) (content src)
  = RenderOk bytes ->
  fs w !! Template.Dest t = Some d -> readable d = true ->
  md5hex sys (content d) = md5hex sys bytes ->
  exists evs,
    processTemplate sys ctx t w = (Done None, advance w (fs w) evs)
    /\ List.filter is_exec evs = []
    /\ List.filter is_file_write evs = [].
Proof.
  intros Hq Hs Hd Hsrc Hr Hen Hdst Hrd Hmd.
  assert (Hrender : exists e1,
            renderTemplate sys ctx t w = (Done bytes, advance w (fs w) e1)
            /\ List.filter is_exec e1 = []
            /\ List.filter is_file_write e1 = []).
  { unfold renderTemplate, os_Stat, ioutil_ReadFile, read_of, fsop, bind, emit,
      log, get_fs, set_fs, ret.
    simpl.
    repeat (first [rewrite Hq | rewrite Hsrc | rewrite Hr | rewrite Hen]; simpl).
    unfold advance; simpl; rewrite <- !app_assoc.
    eexists; (split; [reflexivity|]); split; reflexivity. }
  destruct Hrender as (e1 & Hrender & Hx1 & Hy1).
  apply String.eqb_neq in Hs, Hd.
  unfold processTemplate, renderBlock. rewrite Hs, Hd. cbn [negb andb].
  unfold bind at 1 2. rewrite Hrender.
  unfold writeBlock. rewrite Hd.
  unfold bind at 1. rewrite log_run. unfold bind at 1.
  rewrite (sameContent_equal sys bytes (Template.Dest t) _ d); try done.
  unfold bind at 1. rewrite log_run. unfold ret. rewrite !advance_advance.
  cbn [fs advance].
  eexists. split; [reflexivity|].
  rewrite !List.filter_app, Hx1, Hy1. split; reflexivity.
Qed.

(** X23: processing settles. After a template has brought its destination
    up to date (no file operation failing, the commands leaving the files
    alone), the destination holds the rendered bytes, and processing the
    same template again returns nil, changes no file, performs no file
    write and runs no command. *)
Theorem X23_processTemplate_settles ctx t w src bytes :
  quiet sys -> inert sys ->
  Template.Source t <> "" -> Template.Dest t <> "" ->
  Template.Source t <> Template.Dest t ->
  fs w !! Template.Source t = Some src -> readable src = true ->
  engine sys ctx (filepath_Base sys (Template.Source t)) (content src)
  = RenderOk bytes ->
  outdated sys bytes (fs w !! Template.Dest t) ->
  let name := stagingName sys (Template.Dest t) (fs w) in
  fs w !! name = None -> name <> Template.Dest t ->
  exists w1 w2,
    processTemplate sys ctx t w = (Done None, w1)
    /\ fs w1 !! Template.Dest t
       = Some (staged bytes (fs w !! Template.Dest t))
    /\ processTemplate sys ctx t w1 = (Done None, w2)
    /\ fs w2 = fs w1
    /\ List.filter is_exec (news w1 w2) = []
    /\ List.filter is_file_write (news w1 w2) = [].
Proof.
  intros Hq Hin Hs Hd Hsd Hsrc Hr Hen Hout name Hfresh Hne.
  destruct (update_run ctx t w src bytes Hq Hs Hd Hsrc Hr Hen Hout Hfresh)
    as (evs & _ & Hrun).
  fold name in Hrun.
  set (updated := <[Template.Dest t := staged bytes (fs w !! Template.Dest t)]>
                    (fs w)) in *.
  destruct (commands_then_remove (Template.with_Staging t name) name
              (advance w updated evs) Hq Hin)
    as (w1 & Hrun1 & Hf1 & _).
  { unfold updated. cbn [fs advance]. by rewrite lookup_insert_ne. }
  cbn [fs advance] in Hf1.
  destruct (unchanged_run ctx t w1 src bytes
              (staged bytes (fs w !! Template.Dest t)) Hq Hs Hd)
    as (evs2 & Hrun2 & Hx & Hy); try done.
  - rewrite Hf1. unfold updated. by rewrite lookup_insert_ne.
  - rewrite Hf1. unfold updated. by rewrite lookup_insert_eq.
  - by destruct (fs w !! Template.Dest t).
  - by destruct (fs w !! Template.Dest t).
  - exists w1, (advance w1 (fs w1) evs2). rewrite Hrun.
    split_and!; try done.
    + rewrite Hf1. unfold updated. by rewrite lookup_insert_eq.
    + by rewrite news_advance.
    + by rewrite news_advance.
Qed.

(** X21: a template whose destination is out of date, when the rename to
    the destination is refused with an error other than "device or
    resource busy" and nothing else fails: [processTemplate] returns the
    error "Could not write destination file ...", no command runs, and
    the files are those before the call with the staging file added: the
    staging file is left behind. *)
Theorem X21_processTemplate_rename_failure ctx t w src bytes err :
  steady sys ->
  Template.Source t <> "" -> Template.Dest t <> "" ->
  fs w !! Template.Source t = Some src -> readable src = true ->
  engine sys ctx (filepath_Base sys (Template.Source t)) (content src)
  = RenderOk bytes ->
  outdated sys bytes (fs w !! Template.Dest t) ->
  let name := stagingName sys (Template.Dest t) (fs w) in
  fs w !! name = None ->
  fault sys (Rename name (Template.Dest t)) = Some err ->
  busy err = false ->
  exists evs,
    processTemplate sys ctx t w
    = (Done (Some (Errorf ("Could not write destination file "
                           +:+ Template.Dest t +:+ ": " +:+ Error err))),
       advance w (<[name := staged bytes (fs w !! Template.Dest t)]> (fs w))
               evs)
    /\ List.filter is_exec evs = [].
Proof.
  intros Hq Hs Hd Hsrc Hr Hen Hout name Hfresh Hrn Hbusy.
  destruct (renderTemplate_run ctx t w src bytes Hq Hsrc Hr Hen)
    as (e1 & Hrender & Hx1).
  apply String.eqb_neq in Hs, Hd.
  unfold processTemplate, renderBlock. rewrite Hs, Hd. cbn [negb andb].
  unfold bind at 1 2. rewrite Hrender.
  unfold writeBlock. rewrite Hd.
  unfold bind at 1. rewrite log_run.
  set (w1 := advance (advance w (fs w) e1) _ _).
  destruct (sameContent_run bytes (Template.Dest t) w1 Hq Hout)
    as (e2 & Hsame & Hx2).
  unfold bind at 1. rewrite Hsame. cbv iota beta.
  unfold bind at 1. rewrite log_run.
  set (w2 := advance (advance w1 (fs w1) e2) _ _).
  destruct (createStagingFile_run bytes (Template.Dest t) w2 Hq Hfresh)
    as (e3 & Hstage & Hx3).
  unfold bind at 1. rewrite Hstage. cbv iota beta.
  unfold bind at 1. rewrite log_run.
  change (stagingName sys (Template.Dest t) (fs w2)) with name.
  unfold bind at 1.
  assert (Hcopy : forall w0,
            copyStagingToDestination sys name (Template.Dest t) w0
            = (Done (Some err),
               advance w0 (fs w0) [Rename name (Template.Dest t)])).
  { intros w0. unfold copyStagingToDestination, os_Rename, bind.
    rewrite (fsop_fault _ _ _ _ Hrn). unfold busy in Hbusy.
    by rewrite Hbusy. }
  rewrite Hcopy. unfold ret.
  rewrite !advance_advance. unfold w2, w1. rewrite !advance_advance.
  cbn [fs advance].
  eexists. split; [reflexivity|].
  rewrite !List.filter_app, Hx1, Hx2, Hx3. reflexivity.
Qed.
End Files.

(** ** Fetches and exits *)

Section Cycle.
Variable sys : Sys.

Lemma warnAll_run ws w :
  warnAll ws w = (Done tt, advance w (fs w) (List.map (Log WarnLvl) ws)).
Proof.
  revert w. induction ws as [|x ws IH]; intros w; cbn [warnAll List.map].
  - by rewrite advance_nil.
  - unfold bind. rewrite log_run, IH, advance_advance. reflexivity.
Qed.

Lemma filter_call_warnings ws :
  List.filter is_call (List.map (Log WarnLvl) ws) = [].
Proof. induction ws; simpl; auto. Qed.

(** X5: a context build always returns, and changes neither the files nor
    the standard output. It asks for the services, the containers, the
    hosts and the own container, in this order and one request each, and
    stops at the first fetch that fails, with the error of that fetch;
    when the four fetches succeed the context is built from their four
    answers. *)
Theorem X5_createContext_fetches w :
  exists r w' k,
    createContext sys w = (Done r, w')
    /\ fs w' = fs w /\ stdout w' = stdout w
    /\ (forall i, i < k -> fetch_error sys i (requests w + i) = None)
    /\ match r with
       | Fail e =>
           k < 4 /\ fetch_error sys k (requests w + k) = Some e
           /\ List.filter is_call (news w w') = take (S k) fetches
           /\ requests w' = requests w + S k
       | Ok ctx =>
           k = 4 /\ List.filter is_call (news w w') = fetches
           /\ requests w' = requests w + 4
           /\ exists ss cs hs sf,
               services sys (requests w) = Ok ss
               /\ containers sys (requests w + 1) = Ok cs
               /\ hosts sys (requests w + 2) = Ok hs
               /\ self sys (requests w + 3) = Ok sf
               /\ ctx = buildContext ss cs hs sf
       end.
Proof.
  unfold createContext, client_call, log, emit, bind, ret. simpl.
  destruct (services sys (requests w)) as [ss|e] eqn:H0; simpl.
  2:{ eexists _, _, 0. split; [reflexivity|]. simpl.
      split_and!; try done; try lia.
      - by rewrite Nat.add_0_r, H0.
      - unfold news. simpl. rewrite <- !app_assoc, drop_app_length.
        reflexivity. }
  replace (S (requests w)) with (requests w + 1) by lia.
  destruct (containers sys (requests w + 1)) as [cs|e] eqn:H1; simpl.
  2:{ eexists _, _, 1. split; [reflexivity|]. simpl.
      split_and!; try done; try lia.
      - intros i Hi. destruct i as [|i]; simpl;
          rewrite ?Nat.add_0_r, ?H0; try done; lia.
      - by rewrite H1.
      - unfold news. simpl. rewrite <- !app_assoc, drop_app_length.
        reflexivity. }
  replace (S (requests w + 1)) with (requests w + 2) by lia.
  destruct (hosts sys (requests w + 2)) as [hs|e] eqn:H2; simpl.
  2:{ eexists _, _, 2. split; [reflexivity|]. simpl.
      split_and!; try done; try lia.
      - intros i Hi. destruct i as [|[|i]]; simpl;
          rewrite ?Nat.add_0_r, ?H0, ?H1; try done; lia.
      - by rewrite H2.
      - unfold news. simpl. rewrite <- !app_assoc, drop_app_length.
        reflexivity. }
  replace (S (requests w + 2)) with (requests w + 3) by lia.
  destruct (self sys (requests w + 3)) as [sf|e] eqn:H3; simpl.
  2:{ eexists _, _, 3. split; [reflexivity|]. simpl.
      split_and!; try done; try lia.
      - intros i Hi. destruct i as [|[|[|i]]]; simpl;
          rewrite ?Nat.add_0_r, ?H0, ?H1, ?H2; try done; lia.
      - by rewrite H3.
      - unfold news. simpl. rewrite <- !app_assoc, drop_app_length.
        reflexivity. }
  rewrite warnAll_run. eexists _, _, 4. split; [reflexivity|]. simpl.
  split_and!; try done; try lia.
  - intros i Hi. destruct i as [|[|[|[|i]]]]; simpl;
      rewrite ?Nat.add_0_r, ?H0, ?H1, ?H2, ?H3; try done; lia.
  - unfold news. simpl. rewrite <- !app_assoc, drop_app_length. simpl.
    by rewrite filter_call_warnings.
  - by exists ss, cs, hs, sf.
Qed.

(** ** What ends the process *)

Lemma finishes_ret {A} (a : A) : finishes (ret a).
Proof. intros w. by exists a, w. Qed.

Lemma finishes_bind {A B} (m : M A) (k : A -> M B) :
  finishes m -> (forall a, finishes (k a)) -> finishes (bind m k).
Proof.
  intros Hm Hk w. destruct (Hm w) as (a & w1 & Hr).
  destruct (Hk a w1) as (b & w2 & Hr2). exists b, w2. unfold bind.
  by rewrite Hr.
Qed.

Lemma finishes_returns P {A} (m : M A) : returns P m -> finishes m.
Proof. intros Hm w. destruct (Hm w) as (a & w' & _ & Hr & _). by exists a, w'. Qed.

Lemma finishes_fsop {A} e (run : gmap string File -> res A * gmap string File) :
  finishes (fsop sys e run).
Proof. apply (finishes_returns (fun _ => true)). by apply returns_fsop. Qed.

Lemma finishes_emit e : finishes (emit e).
Proof. intros w. by eexists _, _. Qed.

Lemma finishes_Stdout_Write b : finishes (os_Stdout_Write b).
Proof. intros w. by eexists _, _. Qed.

Ltac finishes_step :=
  first
    [ apply finishes_ret
    | apply finishes_fsop
    | apply finishes_emit
    | apply finishes_Stdout_Write
    | apply finishes_bind
    | progress intros
    | progress cbv beta zeta
    | match goal with
      | |- finishes (if ?b then _ else _) => destruct b
      | |- finishes (match ?x with _ => _ end) => destruct x
      | |- finishes (let (_, _) := ?x in _) => destruct x
      end ].

Lemma finishes_writeBlock t bytes : finishes (writeBlock sys t bytes).
Proof.
  unfold writeBlock, sameContent, computeFileMd5, createStagingFile, onErr,
    copyStagingToDestination, os_Stat, os_Open, io_Copy_hash, fp_Close,
    ioutil_TempFile, fp_Write, fp_Chmod, fp_Chown, os_Rename, os_Remove,
    ioutil_ReadFile, ioutil_WriteFile, os_Chown, log.
  repeat finishes_step.
Qed.

Lemma exit_status_finishes n {A} (m : M A) : finishes m -> exit_status n m.
Proof. intros Hm w c w' Hr. destruct (Hm w) as (a & w1 & Hr'). congruence. Qed.

Lemma exit_status_bind n {A B} (m : M A) (k : A -> M B) :
  exit_status n m -> (forall a, exit_status n (k a)) ->
  exit_status n (bind m k).
Proof.
  intros Hm Hk w c w'. unfold bind.
  destruct (m w) as [[a|c0] w1] eqn:Hr.
  - apply Hk.
  - intros [= <- <-]. by apply (Hm _ _ _ Hr).
Qed.

Lemma exit_status_Fatalf {A} msg : exit_status 1 (@Fatalf A msg).
Proof. by intros w c w' [= <- _]. Qed.

Lemma renderTemplate_code ctx t : exit_status 1 (renderTemplate sys ctx t).
Proof.
  unfold renderTemplate, os_Stat, ioutil_ReadFile, log.
  repeat first
    [ apply exit_status_Fatalf
    | apply exit_status_finishes;
      first [apply finishes_ret | apply finishes_fsop | apply finishes_emit]
    | apply exit_status_bind
    | progress intros
    | progress cbv beta zeta
    | match goal with
      | |- exit_status _ (if ?b then _ else _) => destruct b
      | |- exit_status _ (match ?x with _ => _ end) => destruct x
      end ].
Qed.

(** X14: [processTemplate] ends the process only while it reads and renders
    a template with a source and a destination, and then with status 1:
    up to there no file has changed, nothing was written to the standard
    output and no command has run. *)
Theorem X14_processTemplate_exit ctx t w c w' :
  processTemplate sys ctx t w = (Exited c, w') ->
  c = 1
  /\ Template.Source t <> "" /\ Template.Dest t <> ""
  /\ renderTemplate sys ctx t w = (Exited 1, w')
  /\ fs w' = fs w /\ stdout w' = stdout w
  /\ forallb from_rendering (news w w') = true.
Proof.
  unfold processTemplate.
  assert (Hcmd : forall t' (k : M error) w0,
             finishes k -> exists e w1,
               (commandPhase sys t' ;; k) w0 = (Done e, w1)).
  { intros t' k w0 Hk.
    destruct (returns_commandPhase sys t' w0) as ([] & w1 & _ & Hr & _).
    destruct (Hk w1) as (e & w2 & Hr2). exists e, w2. unfold bind.
    by rewrite Hr. }
  destruct (negb (String.eqb (Template.Source t) "")
            && negb (String.eqb (Template.Dest t) "")) eqn:Hguard.
  - apply andb_true_iff in Hguard as [Hs Hd].
    apply negb_true_iff, String.eqb_neq in Hs, Hd.
    unfold renderBlock, bind at 1 2.
    destruct (renderTemplate sys ctx t w) as [[bytes|c0] w1] eqn:Hrender.
    + destruct (finishes_writeBlock t bytes w1) as (fl & w2 & ->).
      destruct fl as [e|t' d]; [by intros [=]|].
      destruct (Hcmd t' ((match d with
                          | Some stagingFile =>
                              _ <- os_Remove sys stagingFile ; ret tt
                          | None => ret tt
                          end) ;; ret None) w2) as (e & w3 & Hr).
      { destruct d; unfold os_Remove; repeat finishes_step. }
      rewrite Hr. by intros [=].
    + intros [= <- <-].
      pose proof (renderTemplate_code _ _ _ _ _ Hrender) as ->.
      destruct (renderTemplate_reads sys ctx t _ _ _ Hrender)
        as (Hf & Hso & evs & Ht & Hp).
      split_and!; try done. by rewrite (news_app _ _ _ Ht).
  - unfold bind at 1 2. rewrite log_run. unfold ret at 1.
    destruct (Hcmd t ((ret tt) ;; ret None)
                (advance w (fs w)
                   [Log DebugLvl "No template - processing commands"]))
      as (e & w3 & Hr).
    { repeat finishes_step. }
    rewrite Hr. by intros [=].
Qed.

(** X13: reading and rendering, when [os.Stat] and [ioutil.ReadFile] are not
    made to fail: the process ends with status 1 when the source is
    missing, cannot be read, or is rejected by the engine at parsing or at
    execution; otherwise the rendered bytes are returned. *)
Theorem X13_renderTemplate_outcome ctx t w :
  fault sys (Stat (Template.Source t)) = None ->
  fault sys (ReadFile (Template.Source t)) = None ->
  (renderTemplate sys ctx t w).1
  = match fs w !! Template.Source t with
    | None => Exited 1
    | Some x =>
        if readable x
        then match engine sys ctx (filepath_Base sys (Template.Source t))
                          (content x) with
             | RenderOk bytes => Done bytes
             | _ => Exited 1
             end
        else Exited 1
    end.
Proof.
  intros Hst Hrd.
  unfold renderTemplate, os_Stat, ioutil_ReadFile, read_of, fsop, bind, emit,
    log, Fatalf, get_fs, set_fs, ret.
  simpl. rewrite Hst. simpl.
  destruct (fs w !! Template.Source t) as [x|] eqn:Hx; simpl; [|done].
  rewrite Hrd. simpl. rewrite Hx. destruct (readable x); simpl; [|done].
  by destruct (engine sys ctx _ _).
Qed.

(** ** Errors and commands *)

Ltac emits_step' :=
  first
    [ apply emits_ret
    | apply emits_returns; apply returns_fsop; reflexivity
    | apply emits_returns; apply returns_emit; reflexivity
    | apply emits_bind
    | progress intros
    | progress cbv beta zeta
    | match goal with
      | |- emits _ (if ?b then _ else _) => destruct b
      | |- emits _ (match ?x with _ => _ end) => destruct x
      | |- emits _ (let (_, _) := ?x in _) => destruct x
      end ].

Lemma writeBlock_no_command t bytes :
  Template.Dest t <> "" -> emits no_command (writeBlock sys t bytes).
Proof.
  intros Hd%String.eqb_neq. unfold writeBlock. rewrite Hd.
  unfold sameContent, computeFileMd5, createStagingFile, onErr,
    copyStagingToDestination, os_Stat, os_Open, io_Copy_hash, fp_Close,
    ioutil_TempFile, fp_Write, fp_Chmod, fp_Chown, os_Rename, os_Remove,
    ioutil_ReadFile, ioutil_WriteFile, os_Chown, log.
  repeat emits_step'.
Qed.

(** X20: when [processTemplate] returns an error, the template has a source
    and a destination and no command has run for it, nor was anything
    written to the standard output: the errors it returns are those of
    comparing and writing, never those of the commands. *)
Theorem X20_processTemplate_error_runs_no_command ctx t w e w' :
  processTemplate sys ctx t w = (Done (Some e), w') ->
  Template.Source t <> "" /\ Template.Dest t <> ""
  /\ List.filter is_exec (news w w') = []
  /\ stdout w' = stdout w.
Proof.
  unfold processTemplate.
  assert (Hcmd : forall t' (k : M unit) w0 o w1,
             (commandPhase sys t' ;; k ;; ret None) w0 = (o, w1) ->
             o <> Done (Some e)).
  { intros t' k w0 o w1. unfold bind, ret.
    destruct (commandPhase sys t' w0) as [[[]|c] w2]; [|by intros [= <- _]].
    destruct (k w2) as [[[]|c] w3]; by intros [= <- _]. }
  destruct (negb (String.eqb (Template.Source t) "")
            && negb (String.eqb (Template.Dest t) "")) eqn:Hguard.
  - apply andb_true_iff in Hguard as [Hs Hd].
    apply negb_true_iff, String.eqb_neq in Hs, Hd.
    unfold renderBlock, bind at 1 2.
    destruct (renderTemplate sys ctx t w) as [[bytes|c0] w1] eqn:Hrender;
      [|by intros [=]].
    destruct (renderTemplate_reads sys ctx t _ _ _ Hrender)
      as (_ & Hso1 & e1 & Ht1 & Hp1).
    destruct (writeBlock sys t bytes w1) as [[fl|c0] w2] eqn:Hwrite;
      [|by intros [=]].
    destruct (writeBlock_no_command t bytes Hd _ _ _ Hwrite)
      as (Hso2 & e2 & Ht2 & Hp2).
    destruct fl as [e'|t' d].
    + intros [= -> <-]. split_and!; try done; [|congruence].
      rewrite (news_app w w2 (e1 ++ e2)) by (by rewrite Ht2, Ht1, app_assoc).
      rewrite List.filter_app.
      rewrite (filter_none from_rendering is_exec e1); [| by intros [] |done].
      rewrite (filter_none no_command is_exec e2); [done| |done].
      intros ev. unfold no_command. by destruct (is_exec ev).
    + intros Hrun. by destruct (Hcmd _ _ _ _ _ Hrun).
  - unfold bind at 1 2. rewrite log_run. unfold ret at 1.
    intros Hrun. by destruct (Hcmd _ _ _ _ _ Hrun).
Qed.

(** ** A label group that cannot be built *)

Lemma List_last_snoc {A} (l : list A) (x d : A) : List.last (l ++ [x]) d = x.
Proof. induction l as [|a [|b l] IH]; try done. Qed.

(** X15: a template without source or destination and with a label group,
    when the context for the group cannot be built: no command runs, the
    runner sleeps two seconds, and [processTemplate] returns nil all the
    same. *)
Theorem X15_fanout_without_context ctx t w err :
  Template.Source t = "" \/ Template.Dest t = "" ->
  Template.NotifyLbl t <> "" ->
  (createContext sys w).1 = Done (Fail err) ->
  exists w',
    processTemplate sys ctx t w = (Done None, w')
    /\ fs w' = fs w
    /\ List.filter is_exec (news w w') = []
    /\ List.last (news w w') (Exit 0) = Sleep 2.
Proof.
  intros Hempty Hlbl%String.eqb_neq Hctx.
  set (w0 := advance w (fs w) [noTemplate]).
  assert (Hcmd : exists w' evs,
            commandPhase sys t w0 = (Done tt, w')
            /\ fs w' = fs w
            /\ trace w' = trace w0 ++ evs ++ [Sleep 2]
            /\ forallb from_metadata evs = true).
  { unfold commandPhase, getLabelGroup. rewrite Hlbl. unfold bind at 1 2 3.
    match goal with |- context [(if ?b then ?x else ?y) w0] =>
      assert (Hlog : exists e, is_log e = true
                /\ (if b then x else y) w0 = (Done tt, advance w0 (fs w0) [e]))
    end.
    { destruct (1 <? _)%nat; eexists; (split; [|reflexivity]); reflexivity. }
    destruct Hlog as (e & He & ->).
    set (w1 := advance w0 (fs w0) [e]).
    pose proof (createContext_outcome sys w1 w eq_refl) as Hout.
    rewrite Hctx in Hout.
    destruct (createContext sys w1) as [o w2] eqn:Hc. simpl in Hout. subst o.
    destruct (reads_createContext sys _ _ _ Hc) as (Hf & _).
    destruct (returns_createContext sys w1)
      as (r & w2' & evs & Hc' & Ht & Hp & _).
    rewrite Hc in Hc'. injection Hc' as <- <-.
    unfold bind, time_Sleep, emit, ret. simpl.
    eexists _, (e :: evs). split_and!.
    - reflexivity.
    - simpl. by rewrite Hf.
    - rewrite Ht. simpl. by rewrite <- !app_assoc.
    - simpl. rewrite Hp. by destruct e. }
  destruct Hcmd as (w' & evs & Hc & Hf & Ht & Hp).
  exists w'. split; [by apply processTemplate_skips_template|].
  split; [done|].
  assert (Hn : news w w' = (noTemplate :: evs) ++ [Sleep 2]).
  { apply news_app. rewrite Ht. simpl. by rewrite <- !app_assoc. }
  rewrite Hn. split; [|apply List_last_snoc].
  rewrite List.filter_app. simpl.
  rewrite (filter_none from_metadata is_exec evs); [done| |done].
  by intros [].
Qed.
End Cycle.

(** ** The files a template touches *)

Section Frame.
Variable sys : Sys.

Lemma spares_ret path {A} (a : A) : spares path (ret a).
Proof. by intros w o w' [= <- <-]. Qed.

Lemma spares_bind path {A B} (m : M A) (k : A -> M B) :
  spares path m -> (forall a, spares path (k a)) -> spares path (bind m k).
Proof.
  intros Hm Hk w o w'. unfold bind. destruct (m w) as [[a|c] w1] eqn:E.
  - intros Hka. rewrite (Hk _ _ _ _ Hka). by apply (Hm _ _ _ E).
  - intros [= <- <-]. by apply (Hm _ _ _ E).
Qed.

Lemma spares_reads path P {A} (m : M A) : reads P m -> spares path m.
Proof. intros Hm w o w' E. destruct (Hm _ _ _ E) as (-> & _). done. Qed.

Lemma spares_emit path e : spares path (emit e).
Proof. by intros w o w' [= <- <-]. Qed.

Lemma spares_fsop path {A} e
    (run : gmap string File -> res A * gmap string File) :
  (forall f, (run f).2 !! path = f !! path) -> spares path (fsop sys e run).
Proof.
  intros Hrun w o w'.
  destruct (fsop_cases sys e run w) as [(err & _ & ->)|[_ ->]];
    intros [= <- <-]; [done|apply Hrun].
Qed.

Ltac spares_step :=
  first
    [ apply spares_ret
    | apply spares_emit
    | apply spares_fsop; intros;
      repeat match goal with
             | |- context [match ?x with _ => _ end] => destruct x
             end;
      cbn [snd];
      rewrite ?lookup_insert_ne, ?lookup_delete_ne, ?lookup_alter_ne by done;
      reflexivity
    | apply spares_bind
    | progress intros
    | progress cbv beta zeta
    | match goal with
      | |- spares _ (if ?b then _ else _) => destruct b
      | |- spares _ (match ?x with _ => _ end) => destruct x
      | |- spares _ (let (_, _) := ?x in _) => destruct x
      end ].

Lemma spares_sameContent path bytes filePath :
  spares path (sameContent sys bytes filePath).
Proof.
  unfold sameContent, computeFileMd5, os_Stat, os_Open, io_Copy_hash, fp_Close,
    log.
  repeat spares_step.
Qed.

Lemma spares_copyStagingToDestination path stagingPath destPath :
  path <> stagingPath -> path <> destPath ->
  spares path (copyStagingToDestination sys stagingPath destPath).
Proof.
  intros H1 H2.
  unfold copyStagingToDestination, os_Rename, ioutil_ReadFile, os_Stat,
    ioutil_WriteFile, os_Chown, log.
  repeat spares_step.
Qed.

Lemma spares_staging path name bytes destFile :
  path <> name ->
  spares path
    (log DebugLvl ("Created staging file " +:+ name) ;;
     wr <- fp_Write sys name bytes ;
     match wr with
     | Fail e =>
         onErr sys name ;;
         ret ("", Some (Errorf ("Could not write staging file for "
                                +:+ destFile +:+ ": " +:+ Error e)))
     | Ok _ =>
         log DebugLvl "Copying file permissions and owner from destination" ;;
         st <- os_Stat sys destFile ;
         match st with
         | Ok stat =>
             cm <- fp_Chmod sys name (mode stat) ;
             match cm with
             | Fail e =>
                 onErr sys name ;;
                 ret ("", Some (Errorf ("Failed to copy permissions from "
                                        +:+ destFile +:+ ": " +:+ Error e)))
             | Ok _ =>
                 co <- fp_Chown sys name (uid stat) (gid stat) ;
                 match co with
                 | Fail e =>
                     onErr sys name ;;
                     ret ("", Some (Errorf ("Failed to copy ownership: "
                                            +:+ Error e)))
                 | Ok _ => fp_Close sys name ;; ret (name, None)
                 end
             end
         | Fail _ => fp_Close sys name ;; ret (name, None)
         end
     end).
Proof.
  intros Hne.
  unfold onErr, fp_Write, os_Stat, fp_Chmod, fp_Chown, fp_Close, os_Remove, log.
  repeat spares_step.
Qed.

Lemma yields_ret {A} (P : A -> Prop) a : P a -> yields P (ret a).
Proof. by intros Ha w a' w' [= <- _]. Qed.

Lemma yields_bind {A B} (P : B -> Prop) (m : M A) (k : A -> M B) :
  (forall a, yields P (k a)) -> yields P (bind m k).
Proof.
  intros Hk w b w'. unfold bind. destruct (m w) as [[a|c] w1]; [|done].
  apply Hk.
Qed.

Ltac yields_step :=
  first
    [ apply yields_ret; cbn [fst snd]; solve [auto | discriminate | intros; discriminate]
    | apply yields_bind
    | progress intros
    | progress cbv beta zeta
    | match goal with
      | |- yields _ (if ?b then _ else _) => destruct b
      | |- yields _ (match ?x with _ => _ end) => destruct x
      | |- yields _ (let (_, _) := ?x in _) => destruct x
      end ].

(** The staging file is the only file [createStagingFile] touches, and
    its name the only path it returns without an error. *)
Lemma createStagingFile_frame bytes destFile w o w' :
  createStagingFile sys bytes destFile w = (o, w') ->
  (forall path, path <> stagingName sys destFile (fs w) ->
     fs w' !! path = fs w !! path)
  /\ (forall r, o = Done r -> r.2 = None ->
        r.1 = stagingName sys destFile (fs w)).
Proof.
  unfold createStagingFile, ioutil_TempFile. unfold bind at 1.
  set (name := stagingName sys destFile (fs w)).
  match goal with |- context [fsop sys ?e ?run w] =>
    destruct (fsop_cases sys e run w) as [(err & _ & ->)|[_ ->]]
  end.
  - intros [= <- <-]. split; [done|]. by intros r [= <-].
  - cbn [fst snd]. fold (stagingName sys destFile (fs w)). fold name.
    intros Hrun. split.
    + intros path Hne.
      rewrite (spares_staging path name bytes destFile Hne _ _ _ Hrun).
      cbn [fs advance]. by apply lookup_insert_ne.
    + intros r -> Hr. revert Hrun Hr.
      match goal with |- ?m _ = _ -> _ =>
        assert (Hy : yields (fun r : string * error =>
                               r.2 = None -> r.1 = name) m)
      end.
      { unfold onErr. repeat yields_step. }
      apply Hy.
Qed.

Lemma reads_sameContent bytes filePath :
  reads (fun _ => true) (sameContent sys bytes filePath).
Proof.
  unfold sameContent, computeFileMd5, os_Stat, os_Open, io_Copy_hash, fp_Close,
    log.
  repeat first
    [ apply reads_ret
    | apply reads_fsop; [reflexivity | intros f; try destruct (f !! _); reflexivity]
    | apply reads_emit; reflexivity
    | apply reads_bind
    | progress intros
    | progress cbv beta zeta
    | match goal with
      | |- reads _ (if ?b then _ else _) => destruct b
      | |- reads _ (match ?x with _ => _ end) => destruct x
      | |- reads _ (let (_, _) := ?x in _) => destruct x
      end ].
Qed.

Lemma writeBlock_frame t bytes w o w' :
  Template.Dest t <> "" ->
  writeBlock sys t bytes w = (o, w') ->
  (forall path, path <> Template.Dest t ->
     path <> stagingName sys (Template.Dest t) (fs w) ->
     fs w' !! path = fs w !! path)
  /\ (forall t' d, o = Done (Continue t' d) ->
        d = Some (stagingName sys (Template.Dest t) (fs w))).
Proof.
  intros Hd%String.eqb_neq. unfold writeBlock. rewrite Hd.
  unfold bind at 1. rewrite log_run. unfold bind at 1.
  set (w1 := advance w (fs w) _).
  destruct (sameContent sys bytes (Template.Dest t) w1)
    as [[[same err]|c] w2] eqn:Hsame.
  2:{ intros [= <- <-]. destruct (reads_sameContent _ _ _ _ _ Hsame) as (-> & _).
      split; [done|]. by intros t' d [=]. }
  destruct (reads_sameContent _ _ _ _ _ Hsame) as (Hf2 & _).
  change (fs w1) with (fs w) in Hf2.
  destruct err as [e|].
  { intros [= <- <-]. rewrite Hf2. split; [done|]. by intros t' d [=]. }
  destruct same.
  { unfold bind, ret. rewrite log_run. intros [= <- <-]. cbn [fs advance].
    rewrite Hf2. split; [done|]. by intros t' d [=]. }
  unfold bind at 1. rewrite log_run. unfold bind at 1.
  set (w3 := advance w2 (fs w2) _).
  assert (Hf3 : fs w3 = fs w) by done.
  destruct (createStagingFile sys bytes (Template.Dest t) w3)
    as [[[stagingFile err]|c] w4] eqn:Hstage.
  2:{ intros [= <- <-].
      destruct (createStagingFile_frame _ _ _ _ _ Hstage) as [Hfr _].
      rewrite Hf3 in Hfr. split; [|by intros t' d [=]].
      intros path _ Hp. by apply Hfr. }
  destruct (createStagingFile_frame _ _ _ _ _ Hstage) as [Hfr Hname].
  rewrite Hf3 in Hfr, Hname.
  destruct err as [e|].
  { intros [= <- <-]. split; [|by intros t' d [=]].
    intros path _ Hp. by apply Hfr. }
  specialize (Hname _ eq_refl eq_refl). cbn [fst] in Hname. subst stagingFile.
  unfold bind at 1. rewrite log_run. unfold bind at 1.
  set (w5 := advance w4 (fs w4) _).
  destruct (copyStagingToDestination sys _ (Template.Dest t) w5)
    as [[cp|c] w6] eqn:Hcopy.
  2:{ intros [= <- <-]. split; [|by intros t' d [=]].
      intros path Hp1 Hp2.
      rewrite (spares_copyStagingToDestination path _ _ Hp2 Hp1 _ _ _ Hcopy).
      cbn [fs advance]. by apply Hfr. }
  assert (Hf6 : forall path, path <> Template.Dest t ->
            path <> stagingName sys (Template.Dest t) (fs w) ->
            fs w6 !! path = fs w !! path).
  { intros path Hp1 Hp2.
    rewrite (spares_copyStagingToDestination path _ _ Hp2 Hp1 _ _ _ Hcopy).
    cbn [fs advance]. by apply Hfr. }
  destruct cp as [e|].
  { intros [= <- <-]. split; [done|]. by intros t' d [=]. }
  unfold bind, ret. rewrite log_run. intros [= <- <-]. cbn [fs advance].
  split; [done|]. by intros t' d [= _ <-].
Qed.

(** X22: when the shell commands leave the files alone, [processTemplate]
    leaves every path other than the destination and the staging path as
    it was, whatever fails on the way and however it ends. *)
Theorem X22_processTemplate_touches_only ctx t w o w' path :
  inert sys ->
  processTemplate sys ctx t w = (o, w') ->
  path <> Template.Dest t ->
  path <> stagingName sys (Template.Dest t) (fs w) ->
  fs w' !! path = fs w !! path.
Proof.
  intros Hin Hrun Hp1 Hp2. revert Hrun. unfold processTemplate.
  assert (Hcmd : forall t' (k : M unit) w0 o w1,
             spares path k ->
             (commandPhase sys t' ;; k ;; ret (None : error)) w0 = (o, w1) ->
             fs w1 !! path = fs w0 !! path).
  { intros t' k w0 o0 w1 Hk.
    apply (spares_bind path); [apply (spares_reads _ _ _ (reads_commandPhase sys t' Hin))|].
    intros _. apply spares_bind; [done|]. intros _. apply spares_ret. }
  destruct (negb (String.eqb (Template.Source t) "")
            && negb (String.eqb (Template.Dest t) "")) eqn:Hguard.
  - apply andb_true_iff in Hguard as [_ Hd].
    apply negb_true_iff, String.eqb_neq in Hd.
    unfold renderBlock, bind at 1 2.
    destruct (renderTemplate sys ctx t w) as [[bytes|c0] w1] eqn:Hrender.
    2:{ intros [= <- <-].
        destruct (renderTemplate_reads sys ctx t _ _ _ Hrender) as (-> & _).
        done. }
    destruct (renderTemplate_reads sys ctx t _ _ _ Hrender) as (Hf1 & _).
    destruct (writeBlock sys t bytes w1) as [[fl|c0] w2] eqn:Hwrite.
    2:{ intros [= <- <-].
        destruct (writeBlock_frame _ _ _ _ _ Hd Hwrite) as [Hfr _].
        rewrite Hf1 in Hfr. by apply Hfr. }
    destruct (writeBlock_frame _ _ _ _ _ Hd Hwrite) as [Hfr Hname].
    rewrite Hf1 in Hfr, Hname.
    destruct fl as [e|t' d].
    + intros [= <- <-]. by apply Hfr.
    + rewrite (Hname t' d eq_refl). intros Hrun.
      transitivity (fs w2 !! path); [|by apply Hfr].
      eapply Hcmd; [|exact Hrun]. unfold os_Remove. repeat spares_step.
  - unfold bind at 1 2. rewrite log_run. unfold ret at 1. intros Hrun.
    eapply (Hcmd _ _ (advance w (fs w) _)); [|exact Hrun]. apply spares_ret.
Qed.
End Frame.

(** ** Selectors and commands *)

Section Orchestration.
Variable sys : Sys.

Lemma getLabelGroup_fields label name value rest ctx w :
  label <> "" ->
  Strings.Split label ":" = name :: value :: rest ->
  (createContext sys w).1 = Done (Ok ctx) ->
  (getLabelGroup sys label w).1
  = Done (List.filter (fun c => selects name value (Container.Labels c))
                      (TemplateContext.Containers ctx), None).
Proof.
  intros Hne%String.eqb_neq Hsplit Hctx. unfold getLabelGroup.
  rewrite Hne, Hsplit. cbn [List.length List.nth Nat.ltb Nat.leb].
  unfold bind at 1. rewrite log_run. unfold bind at 1.
  match goal with |- context [createContext sys ?w0] =>
    pose proof (createContext_outcome sys w0 w eq_refl) as Hout;
    destruct (createContext sys w0) as [o w1]
  end.
  rewrite Hctx in Hout. simpl in Hout. subst o. unfold bind.
  destruct (scanContainers_run name value (TemplateContext.Containers ctx) [] w1)
    as (logs & -> & _).
  reflexivity.
Qed.

(** X16: of a selector only the first two colon-separated fields count.
    What follows a second colon is ignored, and a selector that ends with
    its first colon selects as the bare name does: every container that
    carries the label. *)
Theorem X16_selector_fields name value more ctx w :
  (createContext sys w).1 = Done (Ok ctx) ->
  lacks ":" name = true -> lacks ":" value = true ->
  (getLabelGroup sys (name +:+ ":" +:+ value +:+ ":" +:+ more) w).1
  = Done (List.filter (fun c => selects name value (Container.Labels c))
                      (TemplateContext.Containers ctx), None)
  /\ (getLabelGroup sys (name +:+ ":") w).1
     = Done (List.filter
               (fun c => bool_decide (is_Some (Container.Labels c !! name)))
               (TemplateContext.Containers ctx), None).
Proof.
  intros Hctx Hname Hvalue. split.
  - apply (getLabelGroup_fields _ name value (Strings.Split more ":")); [| |done].
    + by destruct name.
    + change (name +:+ ":" +:+ value +:+ ":" +:+ more)
        with (name +:+ String ":" (value +:+ String ":" more)).
      by rewrite !Split_app.
  - rewrite (getLabelGroup_fields _ name "" [] ctx w); [| | |done].
    + do 2 f_equal. apply List.filter_ext. intros c. apply selects_any.
    + by destruct name.
    + change (name +:+ ":") with (name +:+ String ":" "").
      by rewrite Split_app.
Qed.

(** ** The fall-back to the template's own command *)

(** X17: when the substitution of a container's values turns the check
    command into the empty string, the check that runs for this container
    is the template's own command, its tokens unsubstituted (the staging
    token apart). *)
Theorem X17_empty_substitution_runs_raw t c w :
  Template.CheckCmd t <> "" ->
  parsedCheckOf t c = "" ->
  exists f' evs,
    fanout sys t [c] w = (Done tt, advance w f' evs)
    /\ List.filter is_check evs
       = [Exec CheckSlot (Strings.ReplaceAll (Template.CheckCmd t) "{{staging}}"
                                             (Template.Staging t))].
Proof.
  intros Hcmd Hparsed.
  destruct (fanout_run sys t [c] w) as (f' & evs & Hrun & _ & Hchecks & _).
  exists f', evs. split; [done|]. rewrite (Hchecks Hcmd). cbn [List.map].
  by rewrite Hparsed.
Qed.

(** ** The verbosity of a notification *)

Lemma actions_logs logs : forallb is_log logs = true -> actions logs = [].
Proof.
  intros Hl. apply (filter_logs _ _ (fun e He => eq_trans (f_equal negb He) eq_refl) Hl).
Qed.

(** X18: [NotifyOutput] only adds log lines: with and without it [notify]
    returns the same error and leaves the same files, and all it does
    besides logging is to run the command once. When the command fails the
    two runs are the same. *)
Theorem X18_notify_verbosity command w :
  (notify sys command true w).1 = (notify sys command false w).1
  /\ fs (notify sys command true w).2 = fs (notify sys command false w).2
  /\ actions (news w (notify sys command true w).2)
     = [Exec NotifySlot command]
  /\ actions (news w (notify sys command false w).2)
     = [Exec NotifySlot command]
  /\ ((shell sys command (fs w)).1.1 <> None ->
      notify sys command true w = notify sys command false w).
Proof.
  destruct (notify_run sys command true w) as (l1 & H1 & Hl1).
  destruct (notify_run sys command false w) as (l2 & H2 & Hl2).
  split_and!.
  - by rewrite H1, H2.
  - by rewrite H1, H2.
  - rewrite H1. cbn [snd]. rewrite news_advance. unfold actions.
    cbn [List.filter is_log negb]. f_equal. by apply actions_logs.
  - rewrite H2. cbn [snd]. rewrite news_advance. unfold actions.
    cbn [List.filter is_log negb]. f_equal. by apply actions_logs.
  - intros Hfail. unfold notify, CombinedOutput, bind, log, emit, get_fs, set_fs.
    simpl. destruct (shell sys command (fs w)) as [[[e|] out] f']; [|done].
    reflexivity.
Qed.

End Orchestration.

(** ** Check/notify pairs and the fan-out *)

Section Pairs.
Variable sys : Sys.

Lemma checkCmdOf_slot t pc : checkCmdOf t pc = raw_check t pc.
Proof.
  unfold checkCmdOf, raw_check, slot_command. by destruct (String.eqb pc "").
Qed.

Lemma notifyCmdOf_slot t pn : notifyCmdOf t pn = notify_command t pn.
Proof.
  unfold notifyCmdOf, notify_command, slot_command.
  by destruct (String.eqb pn "").
Qed.

(** One invocation, on the files and in the trace. *)
Lemma runCheckNotify_pair t pc pn w :
  let staging := Template.Staging t in
  exists evs,
    runCheckNotify sys t pc pn w
    = (Done (pair_error sys staging t pc pn (fs w)),
       advance w (after_pair sys staging t pc pn (fs w)) evs)
    /\ List.filter is_exec evs = pair_execs sys staging t pc pn (fs w)
    /\ (raw_check t pc = "" -> notify_command t pn = "" -> evs = []).
Proof.
  intros staging.
  unfold runCheckNotify, pair_error, after_pair, pair_execs, notify_runs,
    check_passes, after_check.
  rewrite checkCmdOf_slot, notifyCmdOf_slot.
  change (Strings.ReplaceAll (raw_check t pc) "{{staging}}" (Template.Staging t))
    with (check_command staging t pc).
  set (chk := raw_check t pc). set (ntf := notify_command t pn).
  set (command := check_command staging t pc).
  destruct (String.eqb chk "") eqn:Hc; cbn [negb orb andb].
  - unfold bind at 1, ret at 1.
    destruct (String.eqb ntf "") eqn:Hn; cbn [negb andb].
    + exists []. unfold bind, ret. by rewrite advance_nil.
    + unfold bind.
      destruct (notify_run sys ntf (Template.NotifyOutput t) w)
        as (logs & -> & Hl).
      eexists. split; [by destruct (shell sys ntf (fs w)).1.1|].
      split.
      * cbn [List.filter is_exec]. by rewrite (filter_logs _ _ log_not_exec Hl).
      * intros _ Hntf. apply String.eqb_neq in Hn. done.
  - unfold bind at 1.
    destruct (check_run sys command w) as (logs & -> & Hl).
    destruct ((shell sys command (fs w)).1.1) as [e|] eqn:Hsh.
    + rewrite bool_decide_eq_false_2 by done. rewrite andb_false_r.
      eexists. split; [reflexivity|]. split.
      * cbn [List.filter is_exec]. rewrite (filter_logs _ _ log_not_exec Hl).
        by rewrite app_nil_r.
      * intros Hchk. apply String.eqb_neq in Hc. done.
    + rewrite bool_decide_eq_true_2 by done. rewrite andb_true_r.
      destruct (String.eqb ntf "") eqn:Hn; cbn [negb].
      * unfold bind, ret. eexists. split; [reflexivity|]. split.
        -- cbn [List.filter is_exec]. rewrite (filter_logs _ _ log_not_exec Hl).
           by rewrite app_nil_r.
        -- intros Hchk. apply String.eqb_neq in Hc. done.
      * unfold bind.
        match goal with |- context [notify sys ntf ?v ?w0] =>
          destruct (notify_run sys ntf v w0) as (logs2 & -> & Hl2) end.
        cbn [fs advance]. rewrite advance_advance.
        eexists. split; [by destruct (shell sys ntf _).1.1|]. split.
        -- rewrite List.filter_app. cbn [List.filter is_exec].
           rewrite (filter_logs _ _ log_not_exec Hl).
           by rewrite (filter_logs _ _ log_not_exec Hl2).
        -- intros Hchk. apply String.eqb_neq in Hc. done.
Qed.

Lemma fanout_pairs t cs w :
  let staging := Template.Staging t in
  exists evs,
    fanout sys t cs w
    = (Done tt, advance w (after_fanout sys staging t cs (fs w)) evs)
    /\ List.filter is_exec evs = fanout_execs sys staging t cs (fs w).
Proof.
  intros staging. revert w. induction cs as [|c cs IH]; intros w.
  - exists []. by rewrite advance_nil.
  - cbn [fanout fanout_execs after_fanout]. unfold bind at 1. rewrite log_run.
    change (parseCmdTemplate c (Template.CheckCmd t)) with
      (parsedCheckOf t c, (None : error)).
    change (parseCmdTemplate c (Template.NotifyCmd t)) with
      (parsedNotifyOf t c, (None : error)).
    cbv iota beta. unfold bind at 1.
    match goal with |- context [runCheckNotify sys t ?pc ?pn ?w0] =>
      destruct (runCheckNotify_pair t pc pn w0) as (e1 & -> & Hx1 & _) end.
    match goal with |- context [fanout sys t cs ?w0] =>
      destruct (IH w0) as (e2 & -> & Hx2) end.
    cbn [fs advance] in *. rewrite !advance_advance.
    eexists. split; [reflexivity|].
    rewrite !List.filter_app. cbn [List.filter is_exec]. by rewrite Hx1, Hx2.
Qed.

Lemma fanout_execs_app staging t pre post f :
  fanout_execs sys staging t (pre ++ post) f
  = fanout_execs sys staging t pre f
    ++ fanout_execs sys staging t post (after_fanout sys staging t pre f).
Proof.
  revert f. induction pre as [|c pre IH]; intros f; [done|].
  cbn [app fanout_execs after_fanout]. by rewrite IH, app_assoc.
Qed.



(** C7: a fan-out over a list of containers always returns, and the
    commands it executes are the check/notify pairs of the containers, in
    the order of the list: each container's check (when it has one), then
    its notify when it has one and its check did not fail. Every container
    is served on the files the one before it left, whatever the commands of
    the containers before it returned: the commands of a container of the
    list are preceded by those of the containers before it and followed
    by those of the containers after it. *)
Theorem C7_fanout_serves_every_container t cs w :
  let staging := Template.Staging t in
  exists w',
    fanout sys t cs w = (Done tt, w')
    /\ List.filter is_exec (news w w') = fanout_execs sys staging t cs (fs w)
    /\ fs w' = after_fanout sys staging t cs (fs w)
    /\ (forall pre c post, cs = pre ++ c :: post ->
          let pc := parsedCheckOf t c in
          let pn := parsedNotifyOf t c in
          let f := after_fanout sys staging t pre (fs w) in
          List.filter is_exec (news w w')
          = fanout_execs sys staging t pre (fs w)
            ++ pair_execs sys staging t pc pn f
            ++ fanout_execs sys staging t post
                 (after_pair sys staging t pc pn f))
    /\ (forall c, In c cs ->
          slot_command (Template.CheckCmd t) (parsedCheckOf t c) <> "" ->
          In (Exec CheckSlot
                (Strings.ReplaceAll
                   (slot_command (Template.CheckCmd t) (parsedCheckOf t c))
                   "{{staging}}" staging))
             (news w w')).
Proof.
  intros staging.
  destruct (fanout_pairs t cs w) as (evs & Hrun & Hexec).
  eexists. split; [exact Hrun|]. rewrite news_advance.
  assert (Hsplit : forall pre c post, cs = pre ++ c :: post ->
            List.filter is_exec evs
            = fanout_execs sys staging t pre (fs w)
              ++ pair_execs sys staging t (parsedCheckOf t c)
                   (parsedNotifyOf t c) (after_fanout sys staging t pre (fs w))
              ++ fanout_execs sys staging t post
                   (after_pair sys staging t (parsedCheckOf t c)
                      (parsedNotifyOf t c)
                      (after_fanout sys staging t pre (fs w)))).
  { intros pre c post ->. rewrite Hexec. fold staging.
    by rewrite fanout_execs_app. }
  split_and!; try done.
  intros c Hc Hne. apply in_split in Hc as (pre & post & ->).
  apply in_exec_filter. rewrite (Hsplit pre c post eq_refl).
  apply in_or_app. right. apply in_or_app. left.
  unfold pair_execs, raw_check, check_command.
  apply String.eqb_neq in Hne. unfold raw_check. rewrite Hne. by left.
Qed.
End Pairs.

(** ** Label groups and the command phase *)

Section Groups.
Variable sys : Sys.

Lemma selects_carries name value (m : gmap string string) :
  selects name value m = carries name value m.
Proof.
  unfold carries. destruct (String.eqb value "") eqn:E.
  - apply String.eqb_eq in E. subst. apply selects_any.
  - apply selects_exact. by apply String.eqb_neq.
Qed.


(** What a non-empty selector yields, by the outcome of the context
    build. *)
Lemma getLabelGroup_outcome label w :
  label <> "" ->
  (getLabelGroup sys label w).1
  = match (createContext sys w).1 with
    | Done (Ok ctx) => Done (label_group label ctx, None)
    | Done (Fail err) =>
        Done ([], Some (Errorf
                          ("Failed to create context from Rancher Metadata: "
                           +:+ Error err)))
    | Exited c => Exited c
    end.
Proof.
  intros Hne%String.eqb_neq. unfold getLabelGroup. rewrite Hne. cbv zeta.
  unfold bind at 1.
  match goal with |- context [(if ?b then ?x else ?y) w] =>
    assert (Hlog : exists e, (if b then x else y) w
                             = (Done tt, advance w (fs w) [e]))
      by (destruct b; eexists; reflexivity)
  end.
  destruct Hlog as (e & ->). unfold bind at 1.
  rewrite <- (createContext_outcome sys (advance w (fs w) [e]) w eq_refl).
  destruct (createContext sys (advance w (fs w) [e])) as [[[ctx|err]|c] w1];
    cbn [fst]; [| |done].
  - unfold bind.
    match goal with |- context [scanContainers ?n ?v ?cs [] w1] =>
      destruct (scanContainers_run n v cs [] w1) as (logs & -> & _);
      change n with (selector_field 0 label)
    end.
    unfold ret. cbn [fst app]. unfold label_group. do 2 f_equal.
    apply List.filter_ext. intros c. rewrite selects_carries. f_equal.
    unfold selector_field.
    destruct (Strings.Split label ":") as [|a [|b l]]; reflexivity.
  - reflexivity.
Qed.




(** C6 (as the code has it): a selector that is not the empty string is
    read as colon-separated fields, the first being the name of the label
    and the second its value; what follows a second colon is ignored. On
    a snapshot it selects, in the order of the snapshot, the containers
    that carry the label: with any value when the value of the selector
    is missing or empty, with exactly that value otherwise. *)
Theorem C6_label_selector label ctx w :
  (createContext sys w).1 = Done (Ok ctx) ->
  label <> "" ->
  (getLabelGroup sys label w).1 = Done (label_group label ctx, None)
  /\ (lacks ":" label = true ->
      label_group label ctx
      = List.filter
          (fun c => bool_decide (is_Some (Container.Labels c !! label)))
          (TemplateContext.Containers ctx))
  /\ (forall name value,
        label = name +:+ ":" +:+ value ->
        lacks ":" name = true -> lacks ":" value = true ->
        label_group label ctx
        = List.filter
            (fun c =>
               if String.eqb value ""
               then bool_decide (is_Some (Container.Labels c !! name))
               else bool_decide (Container.Labels c !! name = Some value))
            (TemplateContext.Containers ctx))
  /\ (forall name value more,
        label = name +:+ ":" +:+ value +:+ ":" +:+ more ->
        lacks ":" name = true -> lacks ":" value = true ->
        label_group label ctx
        = List.filter
            (fun c =>
               if String.eqb value ""
               then bool_decide (is_Some (Container.Labels c !! name))
               else bool_decide (Container.Labels c !! name = Some value))
            (TemplateContext.Containers ctx)).
Proof.
  intros Hctx Hne. split_and!.
  - by rewrite (getLabelGroup_outcome label w Hne), Hctx.
  - intros Hl. unfold label_group, selector_field.
    by rewrite (Split_lacks _ _ Hl).
  - intros name value -> Hn Hv. unfold label_group, selector_field.
    change (name +:+ ":" +:+ value) with (name +:+ String ":" value).
    by rewrite (Split_app _ _ _ Hn), (Split_lacks _ _ Hv).
  - intros name value more -> Hn Hv. unfold label_group, selector_field.
    change (name +:+ ":" +:+ value +:+ ":" +:+ more)
      with (name +:+ String ":" (value +:+ String ":" more)).
    by rewrite (Split_app _ _ _ Hn), (Split_app _ _ _ Hv).
Qed.

End Groups.

(** ** Cycles and the scheduler *)

Section Cycles.
Variable sys : Sys.

(** The loop over the templates ends in one of three ways. *)
Lemma processTemplates_cases ctx ts w :
  (exists w1,
      Processed sys ctx ts w w1
      /\ processTemplates sys ctx ts w = (Done None, w1))
  \/ (exists pre t post w1 e w2,
        ts = pre ++ t :: post
        /\ Processed sys ctx pre w w1
        /\ processTemplate sys ctx t w1 = (Done (Some e), w2)
        /\ processTemplates sys ctx ts w = (Done (Some e), w2))
  \/ (exists pre t post w1 c w2,
        ts = pre ++ t :: post
        /\ Processed sys ctx pre w w1
        /\ processTemplate sys ctx t w1 = (Exited c, w2)
        /\ processTemplates sys ctx ts w = (Exited c, w2)).
Proof.
  revert w. induction ts as [|t ts IH]; intros w.
  - left. exists w. split; [constructor|done].
  - cbn [processTemplates]. unfold bind.
    destruct (processTemplate sys ctx t w) as [[[e|]|c] w1] eqn:Ht.
    + right. left. exists [], t, ts, w, e, w1.
      split_and!; [done|constructor|done|done].
    + destruct (IH w1)
        as [(w2 & Hp & Hr)
           |[(pre & t' & post & w2 & e & w3 & -> & Hp & Ht' & Hr)
            |(pre & t' & post & w2 & c & w3 & -> & Hp & Ht' & Hr)]].
      * left. exists w2. split; [by econstructor|done].
      * right. left. exists (t :: pre), t', post, w2, e, w3.
        split_and!; [done|by econstructor|done|done].
      * right. right. exists (t :: pre), t', post, w2, c, w3.
        split_and!; [done|by econstructor|done|done].
    + right. right. exists [], t, ts, w, c, w1.
      split_and!; [done|constructor|done|done].
Qed.

(** C5 (as the code has it): a cycle whose version token equals the last
    one seen does nothing but ask for the version. A cycle whose token
    differs attempts to rebuild the context. When the rebuild fails the
    cycle returns the error, after a sleep, and no template is processed.
    When it succeeds the templates are processed in order: all of them
    when none returns an error or ends the process, and then the cycle
    returns nil with the new token recorded; otherwise up to the first
    that returns an error, which the cycle returns, or that ends the
    process. *)
Theorem C5_version_diff r w v :
  version sys (requests w) = Ok v ->
  (runner.Version r = v -> poll sys r w = (Done (None, r), unchanged w))
  /\ (runner.Version r <> v ->
      let ts := Config.Templates (runner.Config r) in
      exists built w0,
        createContext sys (changed r v w) = (Done built, w0)
        /\ match built with
           | Fail err =>
               exists r',
                 poll sys r w
                 = (Done (Some (Errorf
                      ("Failed to create context from Rancher Metadata: "
                       +:+ Error err)), r'),
                    advance w0 (fs w0) [Sleep 2])
           | Ok ctx =>
               (exists w1,
                   Processed sys ctx ts w0 w1
                   /\ poll sys r w
                      = (Done (None, runner.mk (runner.Config r) v),
                         advance w1 (fs w1)
                           [allProcessed (Config.OneTime (runner.Config r))]))
               \/ (exists pre t post w1 e w2 r',
                     ts = pre ++ t :: post
                     /\ Processed sys ctx pre w0 w1
                     /\ processTemplate sys ctx t w1 = (Done (Some e), w2)
                     /\ poll sys r w = (Done (Some e, r'), w2))
               \/ (exists pre t post w1 c w2,
                     ts = pre ++ t :: post
                     /\ Processed sys ctx pre w0 w1
                     /\ processTemplate sys ctx t w1 = (Exited c, w2)
                     /\ poll sys r w = (Exited c, w2))
           end).
Proof.
  intros Hv. split; [by apply poll_unchanged|].
  intros Hne ts. rewrite (poll_changed _ _ _ _ Hv Hne).
  destruct (returns_createContext sys (changed r v w))
    as (built & w0 & _ & Hc & _).
  exists built, w0. split; [exact Hc|].
  destruct built as [ctx|err].
  - destruct (processTemplates_cases ctx ts w0)
      as [(w1 & Hp & Hr)
         |[(pre & t & post & w1 & e & w2 & Hts & Hp & Ht & Hr)
          |(pre & t & post & w1 & c & w2 & Hts & Hp & Ht & Hr)]].
    + left. exists w1. split; [done|]. by apply (rebuild_all sys (runner.mk (runner.Config r) v) _ ctx w0).
    + right. left. eexists pre, t, post, w1, e, w2, _.
      split_and!; try done.
      by apply (rebuild_stops sys (runner.mk (runner.Config r) v) _ ctx w0 pre t post w1).
    + right. right. exists pre, t, post, w1, c, w2. split_and!; try done.
      unfold rebuild, bind. rewrite Hc. cbn [runner.Config]. fold ts.
      by rewrite Hr.
  - eexists. by apply rebuild_failed.
Qed.

(** X19: in interval mode [Run] creates a ticker of the configured number
    of seconds. When that period, a 64-bit count of nanoseconds, is not
    positive, the process panics before the first cycle: it exits with
    status 2 without having called the metadata client. Otherwise [Run]
    does not return an error, whatever the cycles return: it returns nil,
    and only when a signal arrives; while only ticks arrive it goes on
    waiting. *)
Theorem X19_Run_interval_never_fails r sched w :
  Config.OneTime (runner.Config r) = false ->
  let period := ticker_period (Config.Interval (runner.Config r)) in
  ((period <= 0)%Z ->
   exists w',
     Run sys r sched w = (Exited 2, w')
     /\ List.filter is_call (news w w') = []
     /\ fs w' = fs w /\ stdout w' = stdout w)
  /\ ((0 < period)%Z ->
      forall res w',
        Run sys r sched w = (Done res, w') ->
        match res with
        | Returned e _ => e = None /\ In Signal sched
        | Waiting _ => Forall (eq Tick) sched
        end).
Proof.
  intros Hmode period. unfold Run. rewrite Hmode. fold period. split.
  - intros Hp. apply Z.leb_le in Hp. rewrite Hp.
    unfold bind at 1. rewrite log_run.
    eexists. split; [reflexivity|]. unfold news. cbn [fs stdout trace advance].
    rewrite <- app_assoc, drop_app_length. done.
  - intros Hp res w'. apply Z.leb_gt in Hp. rewrite Hp.
    unfold bind at 1. rewrite log_run. revert res w'.
    generalize (advance w (fs w)
      [Log InfoLvl ("Polling Metadata with %d second interval"
                    +:+ pretty (Config.Interval (runner.Config r)))]).
    clear w Hmode Hp period. revert r.
    induction sched as [|wake sched IH]; intros r w res w'; cbn [interval];
      unfold bind at 1; destruct (poll sys r w) as [[[err r']|c] w1];
      try (by intros [=]).
    + unfold bind. destruct err; rewrite ?log_run; unfold ret;
        intros [= <- <-]; constructor.
    + unfold bind at 1.
      assert (exists w2, (match err with
                          | Some e => log ErrorLvl (Error e)
                          | None => ret tt
                          end) w1 = (Done tt, w2)) as (w2 & ->)
        by (destruct err; by eexists).
      destruct wake.
      * intros Hrun. specialize (IH _ _ _ _ Hrun). destruct res.
        -- destruct IH as (-> & Hin). split; [done|]. by right.
        -- by constructor.
      * unfold bind. rewrite log_run. unfold ret. intros [= <- <-].
        split; [done|]. by left.
Qed.
End Cycles.

(** * The string functions on examples *)

Example split_colon : Strings.Split "role:worker" ":" = ["role"; "worker"].
Proof. reflexivity. Qed.
Example split_none : Strings.Split "role" ":" = ["role"].
Proof. reflexivity. Qed.
Example split_three : Strings.Split "a:b:c" ":" = ["a"; "b"; "c"].
Proof. reflexivity. Qed.
Example split_after : Strings.SplitAfter2 "Labels.a.b" "." = ["Labels."; "a.b"].
Proof. reflexivity. Qed.
Example trim_braces : Strings.Trim "{{.Name}}" "{}" = ".Name".
Proof. reflexivity. Qed.
Example replace_all_ex :
  Strings.ReplaceAll "a {{x}} b {{x}}" "{{x}}" "1" = "a 1 b 1".
Proof. reflexivity. Qed.
Example replace_first_ex : Strings.Replace ".a.b" "." "" (Some 1) = "a.b".
Proof. reflexivity. Qed.
Example find_all_ex :
  Regexp.FindAll "x {{Name}} {{{.Address}} {{a b}} {{}}"
  = ["{{Name}}"; "{{.Address}}"; "{{}}"].
Proof. reflexivity. Qed.

(** * The claims on concrete runs *)

(** A template whose destination holds what it renders to. *)
Lemma C1_witness :
  exists w2,
    processTemplate Demo.sys Demo.ctx Demo.unchangedT Demo.world = (Done None, w2)
    /\ fs w2 = fs Demo.world /\ stdout w2 = stdout Demo.world
    /\ forall e, In e (news Demo.world w2) ->
         is_staging e = false /\ is_file_write e = false
         /\ is_exec e = false /\ is_stdout e = false.
Proof.
  apply (C1_equal_digest_is_noop Demo.sys Demo.ctx Demo.unchangedT Demo.world
           "hello"
           (renderTemplate Demo.sys Demo.ctx Demo.unchangedT Demo.world).2
           (Demo.file "hello")).
  - discriminate.
  - discriminate.
  - vm_compute. reflexivity.
  - vm_compute. reflexivity.
  - reflexivity.
  - reflexivity.
  - reflexivity.
  - reflexivity.
  - reflexivity.
Defined.

(** A context build that fails, and the cycle after it. *)
Lemma C2_witness :
  exists e r' w1,
    poll Demo.flaky (Demo.runner0 [Demo.commandsT]) Demo.world
    = (Done (Some e, r'), w1)
    /\ poll Demo.flaky r' w1 = (Done (None, r'), unchanged w1).
Proof.
  pose proof
    (C2_failed_build_is_not_retried Demo.flaky
       (Demo.runner0 [Demo.commandsT]) Demo.world "v1"
       (Errorf "connection refused")
       (createContext Demo.flaky
          (changed (Demo.runner0 [Demo.commandsT]) "v1" Demo.world)).2
       eq_refl) as H.
  destruct H as [H1 H2].
  - discriminate.
  - vm_compute. reflexivity.
  - eexists _, _, _. split; [exact H1|]. apply H2. reflexivity.
Defined.

(** After a failed context build the second cycle, answered the same
    version, asks for the version and nothing else. *)
Example C2_failing_input :
  List.filter is_call
    (trace (interval Demo.flaky (Demo.runner0 [Demo.commandsT]) [Tick]
              Demo.world).2)
  = [Call GetVersion; Call GetServices; Call GetVersion].
Proof. vm_compute. reflexivity. Qed.

(** Two templates, the first of which cannot be compared with its
    destination: the cycle returns the error and runs no command, though the
    second template, processed on its own, runs its two commands. *)
Lemma C3_counterexample :
  (exists e r',
      (poll Demo.sys (Demo.runner0 [Demo.lockedT; Demo.commandsT]) Demo.world).1
      = Done (Some e, r'))
  /\ List.filter is_exec
       (trace (poll Demo.sys (Demo.runner0 [Demo.lockedT; Demo.commandsT])
                    Demo.world).2) = []
  /\ List.filter is_exec
       (trace (processTemplate Demo.sys Demo.ctx Demo.commandsT Demo.world).2)
     = [Exec CheckSlot "chk-b"; Exec NotifySlot "ntf-b"].
Proof.
  split; [|split].
  - eexists _, _. vm_compute. reflexivity.
  - vm_compute. reflexivity.
  - vm_compute. reflexivity.
Qed.

(** The same cycle, and the interval loop around it. *)
Lemma C3_witness :
  exists e r' w2,
    poll Demo.sys (Demo.runner0 [Demo.lockedT; Demo.commandsT]) Demo.world
    = (Done (Some e, r'), w2)
    /\ interval Demo.sys (Demo.runner0 [Demo.lockedT; Demo.commandsT]) []
         Demo.world
       = (Done (Waiting r'), advance w2 (fs w2) [Log ErrorLvl (Error e)]).
Proof.
  set (r := Demo.runner0 [Demo.lockedT; Demo.commandsT]).
  set (w0 := (createContext Demo.sys (changed r "v1" Demo.world)).2).
  eexists _, _, _.
  apply (C3_cycle_stops_at_failing_template Demo.sys r Demo.world "v1"
           Demo.ctx w0 [] Demo.lockedT [Demo.commandsT] w0
           (Errorf ("Could not compare content for locked.conf: "
                    +:+ "Could not calculate checksum for locked.conf: "
                    +:+ "open locked.conf: permission denied"))
           (processTemplate Demo.sys Demo.ctx Demo.lockedT w0).2).
  - reflexivity.
  - discriminate.
  - vm_compute. reflexivity.
  - reflexivity.
  - constructor.
  - vm_compute. reflexivity.
Defined.

(** A template with a source and no destination. *)
Lemma C4_witness :
  exists w',
    processTemplate Demo.sys Demo.ctx Demo.printT Demo.world = (Done None, w')
    /\ stdout w' = ""
    /\ In (Exec CheckSlot "chk ") (news Demo.world w').
Proof.
  destruct (C4_no_destination_prints_nothing Demo.sys Demo.ctx Demo.printT
              Demo.world eq_refl) as (w' & Hrun & Hout & _ & Hcheck).
  exists w'. split; [exact Hrun|]. split; [exact Hout|].
  apply Hcheck; [reflexivity|discriminate].
Defined.

(** A template with a source and no destination: nothing is printed, and
    its commands run. *)
Example C4_failing_input :
  let w' := (processTemplate Demo.sys Demo.ctx Demo.printT Demo.world).2 in
  stdout w' = ""
  /\ List.filter (fun e => negb (is_log e)) (trace w')
     = [Exec CheckSlot "chk "; Exec NotifySlot "ntf"].
Proof. vm_compute. split; reflexivity. Qed.

(** Two cycles that are answered a new version: in the first the context
    build fails, in the second the first of two templates returns an
    error. *)
Lemma C5_counterexample :
  (runner.Version (Demo.runner0 [Demo.commandsT]) <> "v1"
   /\ version Demo.flaky (requests Demo.world) = Ok "v1"
   /\ List.filter (fun e => negb (is_log e))
        (trace (poll Demo.flaky (Demo.runner0 [Demo.commandsT]) Demo.world).2)
      = [Call GetVersion; Call GetServices; Sleep 2])
  /\ (version Demo.sys (requests Demo.world) = Ok "v1"
      /\ List.filter is_exec
           (trace (poll Demo.sys (Demo.runner0 [Demo.lockedT; Demo.commandsT])
                        Demo.world).2) = []).
Proof.
  split; [split; [discriminate|split]|split]; vm_compute; reflexivity.
Qed.

(** Three workers and two leaders: the selector of the workers yields the
    three, in the order of the snapshot. *)
Example C6_scenario :
  List.map Container.Name
    (List.filter
       (fun c => bool_decide (Container.Labels c !! "role" = Some "worker"))
       (TemplateContext.Containers Demo.ctx))
  = ["w1"; "w2"; "w3"].
Proof. vm_compute. reflexivity. Qed.

(** The check of the second of three containers fails: its notify command
    is skipped and the pairs of the first and the third run. *)
Example C7_scenario :
  List.filter is_exec
    (trace (processTemplate Demo.sys Demo.ctx Demo.fanoutT Demo.world).2)
  = [Exec CheckSlot "true w1"; Exec NotifySlot "reload w1";
     Exec CheckSlot "false w2";
     Exec CheckSlot "true w3"; Exec NotifySlot "reload w3"].
Proof. vm_compute. reflexivity. Qed.

(** Four runs of the substitution: a token that names the attribute
    [Host] gives way to the empty text; a token that names no attribute
    gives way to a label; the value of a label, put in place of its token,
    is substituted in its turn; and text that is no token of the command
    is substituted once an empty value has closed it up. *)
Lemma C9_counterexample :
  (Container.Host Demo.w1 <> Host.zero
   /\ parseCmdTemplate Demo.w1 "ssh {{Host}}" = ("ssh ", None))
  /\ (attribute Demo.w1 "xLabels.role" = None
      /\ parseCmdTemplate Demo.w1 "echo {{xLabels.role}}" = ("echo worker", None))
  /\ (Container.Labels Demo.w9 !! "motd" = Some "{{Name}}"
      /\ parseCmdTemplate Demo.w9 "echo {{Labels.motd}} on {{Name}}"
         = ("echo w9 on w9", None))
  /\ (Regexp.FindAll "{{{{Labels.none}}{Name}} and {{Name}}"
      = ["{{Labels.none}}"; "{{Name}}"]
      /\ parseCmdTemplate Demo.w1 "{{{{Labels.none}}{Name}} and {{Name}}"
         = ("{w1 and w1", None)).
Proof.
  split_and!; try discriminate; vm_compute; reflexivity.
Qed.

(** A command with tokens of every kind. *)
Lemma C9_witness :
  parseCmdTemplate Demo.w1
    "ssh {{.Address}} restart {{Name}} {{Labels.role}} {{nope}} }{{Host}}"
  = ("ssh 10.0.0.1 restart w1 worker {{nope}} }", None).
Proof.
  apply (C9_token_substitution Demo.w1
           [Lit "ssh "; Tok ".Address"; Lit " restart "; Tok "Name"; Lit " ";
            Tok "Labels.role"; Lit " "; Tok "nope"; Lit " }"; Tok "Host"]).
  - unfold clean. split_and!; try reflexivity.
    apply map_Forall_to_list. vm_compute. repeat constructor.
  - vm_compute. reflexivity.
Defined.

(** A cycle that is answered a new version: the context is rebuilt and
    the one template processed. *)
Lemma C5_witness :
  exists built w0,
    createContext Demo.sys
      (changed (Demo.runner0 [Demo.commandsT]) "v1" Demo.world)
    = (Done built, w0)
    /\ match built with
       | Fail err =>
           exists r',
             poll Demo.sys (Demo.runner0 [Demo.commandsT]) Demo.world
             = (Done (Some (Errorf
                  ("Failed to create context from Rancher Metadata: "
                   +:+ Error err)), r'),
                advance w0 (fs w0) [Sleep 2])
       | Ok ctx =>
           (exists w1,
               Processed Demo.sys ctx [Demo.commandsT] w0 w1
               /\ poll Demo.sys (Demo.runner0 [Demo.commandsT]) Demo.world
                  = (Done (None,
                           runner.mk
                             (runner.Config (Demo.runner0 [Demo.commandsT]))
                             "v1"),
                     advance w1 (fs w1) [allProcessed false]))
           \/ (exists pre t post w1 e w2 r',
                 [Demo.commandsT] = pre ++ t :: post
                 /\ Processed Demo.sys ctx pre w0 w1
                 /\ processTemplate Demo.sys ctx t w1 = (Done (Some e), w2)
                 /\ poll Demo.sys (Demo.runner0 [Demo.commandsT]) Demo.world
                    = (Done (Some e, r'), w2))
           \/ (exists pre t post w1 c w2,
                 [Demo.commandsT] = pre ++ t :: post
                 /\ Processed Demo.sys ctx pre w0 w1
                 /\ processTemplate Demo.sys ctx t w1 = (Exited c, w2)
                 /\ poll Demo.sys (Demo.runner0 [Demo.commandsT]) Demo.world
                    = (Exited c, w2))
       end.
Proof.
  apply (C5_version_diff Demo.sys (Demo.runner0 [Demo.commandsT]) Demo.world
           "v1" eq_refl).
  discriminate.
Defined.

(** The same cycle, run: the context is built and the commands of the
    template are executed. *)
Example C5_changed_cycle :
  (poll Demo.sys (Demo.runner0 [Demo.commandsT]) Demo.world).1
  = Done (None, runner.mk (runner.Config (Demo.runner0 [Demo.commandsT])) "v1")
  /\ List.filter (fun e => negb (is_log e))
       (trace (poll Demo.sys (Demo.runner0 [Demo.commandsT]) Demo.world).2)
     = [Call GetVersion; Call GetServices; Call GetContainers; Call GetHosts;
        Call GetSelfContainer; Exec CheckSlot "chk-b"; Exec NotifySlot "ntf-b"].
Proof. split; vm_compute; reflexivity. Qed.

(** A cycle in which the first template ends the process. *)
Example C5_fatal_cycle :
  (poll Demo.sys (Demo.runner0 [Cases.missingT; Demo.commandsT]) Demo.world).1
  = Exited 1
  /\ List.filter is_exec
       (trace (poll Demo.sys (Demo.runner0 [Cases.missingT; Demo.commandsT])
                    Demo.world).2) = [].
Proof. split; vm_compute; reflexivity. Qed.

(** The selectors [role:worker] and [role] on the demo fleet. *)
Lemma C6_witness :
  (getLabelGroup Demo.sys "role:worker" Demo.world).1
  = Done (List.filter
            (fun c => bool_decide (Container.Labels c !! "role" = Some "worker"))
            (TemplateContext.Containers Demo.ctx), None)
  /\ (getLabelGroup Demo.sys "role" Demo.world).1
     = Done (List.filter
               (fun c => bool_decide (is_Some (Container.Labels c !! "role")))
               (TemplateContext.Containers Demo.ctx), None).
Proof.
  split.
  - destruct (C6_label_selector Demo.sys "role:worker" Demo.ctx Demo.world)
      as (Hrun & _ & Hform & _).
    + vm_compute. reflexivity.
    + discriminate.
    + rewrite Hrun.
      rewrite (Hform "role" "worker" eq_refl eq_refl eq_refl). reflexivity.
  - destruct (C6_label_selector Demo.sys "role" Demo.ctx Demo.world)
      as (Hrun & Hname & _).
    + vm_compute. reflexivity.
    + discriminate.
    + rewrite Hrun. rewrite (Hname eq_refl). reflexivity.
Defined.

(** A selector with an empty value selects every container that carries
    the label, none of which has the empty value; a selector with a
    second colon selects by its second field alone, though no container
    has what follows the first colon as its value. *)
Lemma C6_counterexample :
  ((getLabelGroup Demo.sys "role:" Demo.world).1
   = Done (TemplateContext.Containers Demo.ctx, None)
   /\ List.filter
        (fun c => bool_decide (Container.Labels c !! "role" = Some ""))
        (TemplateContext.Containers Demo.ctx) = [])
  /\ ((getLabelGroup Demo.sys "role:worker:now" Demo.world).1
      = Done (Demo.workers, None)
      /\ List.filter
           (fun c => bool_decide
                       (Container.Labels c !! "role" = Some "worker:now"))
           (TemplateContext.Containers Demo.ctx) = []).
Proof. split; split; vm_compute; reflexivity. Qed.

(** The check of the second of three workers fails: its notify command is
    skipped, and the pairs of the first and the third run. *)
Lemma C7_witness :
  exists w',
    fanout Demo.sys Demo.fanoutT Demo.workers Demo.world = (Done tt, w')
    /\ List.filter is_exec (news Demo.world w')
       = [Exec CheckSlot "true w1"; Exec NotifySlot "reload w1";
          Exec CheckSlot "false w2";
          Exec CheckSlot "true w3"; Exec NotifySlot "reload w3"].
Proof.
  destruct (C7_fanout_serves_every_container Demo.sys Demo.fanoutT Demo.workers
              Demo.world) as (w' & Hrun & Hexec & _).
  exists w'. split; [exact Hrun|]. rewrite Hexec. vm_compute. reflexivity.
Defined.




(** * The further properties on concrete runs *)

(** Two port strings and the ports they spell. *)
Lemma X2_witness :
  parseServicePorts ["80:8080/tcp"; "53:53/udp"]
  = ([ServicePort.mk "80" "8080" "tcp"; ServicePort.mk "53" "53" "udp"], []).
Proof.
  apply (X2_parseServicePorts_complete
           [ServicePort.mk "80" "8080" "tcp"; ServicePort.mk "53" "53" "udp"]).
  reflexivity.
Defined.

(** The ports of a service with a string that is not a port. *)
Example ports_of_web :
  parseServicePorts (metadata.Service.Ports Cases.web)
  = ([ServicePort.mk "80" "8080" "tcp"; ServicePort.mk "53" "53" "udp"],
     ["Unexpected format of service port: 9000"]).
Proof. reflexivity. Qed.

(** The second container of the fleet and its host. *)
Lemma X3_witness :
  exists c,
    TemplateContext.Containers Demo.ctx !! 1 = Some c
    /\ Container.Name c = "l1"
    /\ Container.Host c = buildHost Demo.host1.
Proof.
  destruct (X3_container_host_resolution [] Demo.fleet [Demo.host1]
              (Demo.worker "w1" "true") 1 (Demo.leader "l1") eq_refl)
    as (c & Hc & Hn & _ & _ & Hh).
  exists c. split; [exact Hc|]. split; [exact Hn|].
  apply (Hh [] Demo.host1 []).
  - reflexivity.
  - intros mh [].
  - reflexivity.
Defined.

(** The service of the fleet. *)
Lemma X4_witness :
  exists svc,
    TemplateContext.Services
      (buildContext [Cases.web] Demo.fleet [Demo.host1]
                    (Demo.worker "w1" "true")) !! 0 = Some svc
    /\ Service.Name svc = "app"
    /\ sublist (Service.Containers svc)
               (TemplateContext.Containers Demo.ctx).
Proof.
  destruct (X4_service_containers [Cases.web] Demo.fleet [Demo.host1]
              (Demo.worker "w1" "true") 0 Cases.web eq_refl)
    as (svc & Hs & Hn & _ & _ & Hsub).
  exists svc. split; [exact Hs|]. split; [exact Hn|exact Hsub].
Defined.

(** A destination that holds other bytes. *)
Lemma X6_witness :
  exists evs,
    sameContent Demo.sys "hello" "old.conf" Demo.world
    = (Done (false, None), advance Demo.world (fs Demo.world) evs).
Proof.
  apply (X6_sameContent_decides Demo.sys "hello" "old.conf" Demo.world).
  - reflexivity.
  - reflexivity.
  - discriminate.
Defined.

(** The staging file of [old.conf]. *)
Lemma X7_witness :
  exists w',
    createStagingFile Demo.sys "hello" "old.conf" Demo.world
    = (Done ("/etc/.old.conf-0001", None), w')
    /\ fs w' !! "/etc/.old.conf-0001" = Some (mkFile "hello" 420 0 0 true).
Proof.
  destruct (X7_createStagingFile_stages Demo.sys "hello" "old.conf" Demo.world)
    as (w' & Hrun & Hfile & _).
  - intros e. reflexivity.
  - vm_compute. reflexivity.
  - exists w'. split; [exact Hrun|exact Hfile].
Defined.

(** A write to the staging file that fails. *)
Lemma X8_witness :
  fs (createStagingFile Cases.fullDisk "hello" "old.conf" Demo.world).2
  = fs Demo.world.
Proof.
  apply (X8_createStagingFile_cleans_up Cases.fullDisk "hello" "old.conf"
           Demo.world ""
           (Errorf ("Could not write staging file for old.conf: "
                    +:+ "write: no space left on device"))
           (createStagingFile Cases.fullDisk "hello" "old.conf" Demo.world).2).
  - vm_compute. reflexivity.
  - reflexivity.
  - vm_compute. reflexivity.
Defined.

(** A rename across mounts: [old.conf] gets the bytes of [app.tmpl]. *)
Lemma X9_witness :
  exists evs,
    copyStagingToDestination Cases.busyRename "app.tmpl" "old.conf" Demo.world
    = (Done None,
       advance Demo.world
               (<["old.conf" := Demo.file "hello"]> (fs Demo.world)) evs)
    /\ List.filter is_file_write evs
       = [Rename "app.tmpl" "old.conf"; WriteFile "old.conf" "hello" 420;
          Chown "old.conf" 0 0].
Proof.
  apply (X9_copyStagingToDestination_fallback Cases.busyRename "app.tmpl"
           "old.conf" Demo.world
           (Errorf "rename: device or resource busy") (Demo.file "hello")).
  - reflexivity.
  - vm_compute. reflexivity.
  - reflexivity.
  - reflexivity.
  - reflexivity.
  - reflexivity.
  - vm_compute. reflexivity.
  - reflexivity.
Defined.

(** A rename that is refused. *)
Lemma X10_witness :
  copyStagingToDestination Cases.deniedRename "app.tmpl" "old.conf" Demo.world
  = (Done (Some (Errorf "rename: permission denied")),
     advance Demo.world (fs Demo.world) [Rename "app.tmpl" "old.conf"]).
Proof.
  apply (X10_copyStagingToDestination_other_error Cases.deniedRename).
  - reflexivity.
  - vm_compute. reflexivity.
Defined.

Lemma inert_Demo : inert Demo.sys.
Proof.
  intros command f. unfold Demo.sys, Demo.shell. simpl.
  destruct (String.prefix "false" command); reflexivity.
Defined.

(** [old.conf] is brought up to date. *)
Lemma X11_witness :
  exists w',
    processTemplate Demo.sys Demo.ctx Cases.staleT Demo.world = (Done None, w')
    /\ fs w' = <["old.conf" := Demo.file "hello"]> (fs Demo.world)
    /\ stdout w' = stdout Demo.world.
Proof.
  destruct (X11_processTemplate_updates Demo.sys Demo.ctx Cases.staleT
              Demo.world (Demo.file "hello") "hello")
    as (evs & _ & _ & _ & Hend).
  - intros e. reflexivity.
  - discriminate.
  - discriminate.
  - vm_compute. reflexivity.
  - reflexivity.
  - reflexivity.
  - split; [discriminate|]. split; [reflexivity|]. vm_compute. discriminate.
  - vm_compute. reflexivity.
  - vm_compute. discriminate.
  - exact (Hend inert_Demo).
Defined.

(** The commands the update of [old.conf] runs: the check is handed the
    staging path. *)
Example commands_of_update :
  List.filter is_exec
    (trace (processTemplate Demo.sys Demo.ctx Cases.staleT Demo.world).2)
  = [Exec CheckSlot "chk /etc/.old.conf-0001"; Exec NotifySlot "ntf"].
Proof. vm_compute. reflexivity. Qed.

(** A template of commands only. *)
Lemma X12_witness :
  fs (commandPhase Demo.sys Demo.commandsT Demo.world).2 = fs Demo.world.
Proof.
  apply (X12_commandPhase_keeps_files Demo.sys Demo.commandsT Demo.world
           (commandPhase Demo.sys Demo.commandsT Demo.world).1
           (commandPhase Demo.sys Demo.commandsT Demo.world).2 inert_Demo).
  apply surjective_pairing.
Defined.

(** A source that does not exist. *)
Lemma X13_witness :
  (renderTemplate Demo.sys Demo.ctx Cases.missingT Demo.world).1 = Exited 1.
Proof.
  apply (X13_renderTemplate_outcome Demo.sys Demo.ctx Cases.missingT Demo.world).
  - reflexivity.
  - reflexivity.
Defined.

Lemma X14_witness :
  fs (processTemplate Demo.sys Demo.ctx Cases.missingT Demo.world).2
  = fs Demo.world
  /\ forallb from_rendering
       (news Demo.world
             (processTemplate Demo.sys Demo.ctx Cases.missingT Demo.world).2)
     = true.
Proof.
  destruct (X14_processTemplate_exit Demo.sys Demo.ctx Cases.missingT Demo.world
              1 (processTemplate Demo.sys Demo.ctx Cases.missingT Demo.world).2)
    as (_ & _ & _ & _ & Hf & _ & Hev).
  - vm_compute. reflexivity.
  - split; [exact Hf|exact Hev].
Defined.

(** A fan-out while the metadata service does not answer. *)
Lemma X15_witness :
  exists w',
    processTemplate Demo.flaky Demo.ctx Demo.fanoutT Demo.world
    = (Done None, w')
    /\ List.filter is_exec (news Demo.world w') = [].
Proof.
  destruct (X15_fanout_without_context Demo.flaky Demo.ctx Demo.fanoutT
              Demo.world (Errorf "connection refused"))
    as (w' & Hrun & _ & Hexec & _).
  - left. reflexivity.
  - discriminate.
  - vm_compute. reflexivity.
  - exists w'. split; [exact Hrun|exact Hexec].
Defined.

(** The selectors [role:worker:now] and [role:]. *)
Lemma X16_witness :
  (getLabelGroup Demo.sys "role:worker:now" Demo.world).1
  = Done (List.filter
            (fun c => selects "role" "worker" (Container.Labels c))
            (TemplateContext.Containers Demo.ctx), None)
  /\ (getLabelGroup Demo.sys "role:" Demo.world).1
     = Done (List.filter
               (fun c => bool_decide (is_Some (Container.Labels c !! "role")))
               (TemplateContext.Containers Demo.ctx), None).
Proof.
  apply (X16_selector_fields Demo.sys "role" "worker" "now" Demo.ctx Demo.world).
  - vm_compute. reflexivity.
  - reflexivity.
  - reflexivity.
Defined.

(** A leader has no label [probe]: the token itself is run. *)
Lemma X17_witness :
  exists f' evs,
    fanout Demo.sys Cases.probeT [Cases.l1] Demo.world
    = (Done tt, advance Demo.world f' evs)
    /\ List.filter is_check evs = [Exec CheckSlot "{{Labels.probe}}"].
Proof.
  apply (X17_empty_substitution_runs_raw Demo.sys Cases.probeT Cases.l1
           Demo.world).
  - discriminate.
  - vm_compute. reflexivity.
Defined.

(** A destination that cannot be read. *)
Lemma X20_witness :
  List.filter is_exec
    (news Demo.world
          (processTemplate Demo.sys Demo.ctx Demo.lockedT Demo.world).2) = [].
Proof.
  apply (X20_processTemplate_error_runs_no_command Demo.sys Demo.ctx
           Demo.lockedT Demo.world
           (Errorf ("Could not compare content for locked.conf: "
                    +:+ "Could not calculate checksum for locked.conf: "
                    +:+ "open locked.conf: permission denied"))
           (processTemplate Demo.sys Demo.ctx Demo.lockedT Demo.world).2).
  vm_compute. reflexivity.
Defined.

Lemma steady_deniedRename : steady Cases.deniedRename.
Proof. intros e He. destruct e; first [reflexivity | discriminate]. Defined.

(** The update of [old.conf] when the rename is refused. *)
Lemma X21_witness :
  exists evs,
    processTemplate Cases.deniedRename Demo.ctx Cases.staleT Demo.world
    = (Done (Some (Errorf ("Could not write destination file old.conf: "
                           +:+ "rename: permission denied"))),
       advance Demo.world
               (<["/etc/.old.conf-0001" := Demo.file "hello"]> (fs Demo.world))
               evs)
    /\ List.filter is_exec evs = [].
Proof.
  apply (X21_processTemplate_rename_failure Cases.deniedRename Demo.ctx
           Cases.staleT Demo.world (Demo.file "hello") "hello"
           (Errorf "rename: permission denied") steady_deniedRename).
  - discriminate.
  - discriminate.
  - vm_compute. reflexivity.
  - reflexivity.
  - reflexivity.
  - split; [discriminate|]. split; [reflexivity|]. vm_compute. discriminate.
  - vm_compute. reflexivity.
  - reflexivity.
  - vm_compute. reflexivity.
Defined.

(** The update of [old.conf] leaves [app.conf] alone. *)
Lemma X22_witness :
  fs (processTemplate Demo.sys Demo.ctx Cases.staleT Demo.world).2 !! "app.conf"
  = fs Demo.world !! "app.conf".
Proof.
  apply (X22_processTemplate_touches_only Demo.sys Demo.ctx Cases.staleT
           Demo.world
           (processTemplate Demo.sys Demo.ctx Cases.staleT Demo.world).1
           (processTemplate Demo.sys Demo.ctx Cases.staleT Demo.world).2
           "app.conf" inert_Demo).
  - apply surjective_pairing.
  - discriminate.
  - vm_compute. discriminate.
Defined.

(** [old.conf] is brought up to date once. *)
Lemma X23_witness :
  exists w1 w2,
    processTemplate Demo.sys Demo.ctx Cases.staleT Demo.world = (Done None, w1)
    /\ fs w1 !! "old.conf" = Some (Demo.file "hello")
    /\ processTemplate Demo.sys Demo.ctx Cases.staleT w1 = (Done None, w2)
    /\ fs w2 = fs w1
    /\ List.filter is_exec (news w1 w2) = []
    /\ List.filter is_file_write (news w1 w2) = [].
Proof.
  apply (X23_processTemplate_settles Demo.sys Demo.ctx Cases.staleT Demo.world
           (Demo.file "hello") "hello").
  - intros e. reflexivity.
  - exact inert_Demo.
  - discriminate.
  - discriminate.
  - discriminate.
  - vm_compute. reflexivity.
  - reflexivity.
  - reflexivity.
  - split; [discriminate|]. split; [reflexivity|]. vm_compute. discriminate.
  - vm_compute. reflexivity.
  - vm_compute. discriminate.
Defined.

(** A tick and a signal; and a runner whose interval is zero. *)
Lemma X19_witness :
  (exists r' w',
      Run Demo.sys (Demo.runner0 [Demo.commandsT]) [Tick; Signal] Demo.world
      = (Done (Returned None r'), w')
      /\ In Signal [Tick; Signal])
  /\ (exists w',
        Run Demo.sys Cases.idle [Tick; Signal] Demo.world = (Exited 2, w')
        /\ List.filter is_call (news Demo.world w') = []).
Proof.
  split.
  - set (run := Run Demo.sys (Demo.runner0 [Demo.commandsT]) [Tick; Signal]
                    Demo.world).
    exists (runner.mk (runner.Config (Demo.runner0 [Demo.commandsT])) "v1"),
      run.2.
    split; [vm_compute; reflexivity|].
    apply (proj2 (X19_Run_interval_never_fails Demo.sys
                    (Demo.runner0 [Demo.commandsT]) [Tick; Signal] Demo.world
                    eq_refl)
             ltac:(reflexivity)
             (Returned None
                (runner.mk (runner.Config (Demo.runner0 [Demo.commandsT]))
                           "v1"))
             run.2).
    vm_compute. reflexivity.
  - destruct (proj1 (X19_Run_interval_never_fails Demo.sys Cases.idle
                       [Tick; Signal] Demo.world eq_refl))
      as (w' & Hrun & Hcalls & _).
    + discriminate.
    + exists w'. split; [exact Hrun|exact Hcalls].
Defined.

(** An interval whose count of nanoseconds does not fit 64 bits. *)
Example ticker_period_wraps :
  ticker_period 10 = 10000000000%Z
  /\ (ticker_period 9223372037 <= 0)%Z.
Proof. split; [reflexivity|]. vm_compute. discriminate. Qed.
